(** * smart_media_bot: quota engine, media pipeline, summarizer and router

    A shallow embedding of [src/smart_media_bot.py] and the properties of
    its quota arithmetic, its two acquisition pipelines and its URL router.

    Conventions of the embedding.
    - A Python [str] is a Rocq [string]; every [ascii] stands for one code
      point below 256, so [String.length] is Python's [len].
    - A Python [int] is a [Z].
    - [self.users] is a [gmap string User.t]; a local variable bound to
      [self.get_user(uid)] is a reference into that table, so every read
      of [user[...]] is a lookup in the table as it is at that moment.
    - [datetime.now()] is an input of each call ([Clock]); one call reads
      one calendar date.
    - [save_user_data] writes the table to [USER_DATA_FILE]; the write is
      taken to succeed (the code logs a failed write and goes on).
    - yt-dlp, the HTTP client with the HTML parser, and the sending of a
      video are given by their answers ([Env]); an exception is one of
      the answers. Sending a text and deleting a message succeed.
    - Side effects on the outside world are appended to an event trace,
      together with marks for the calls between handlers and pipelines. *)

From Stdlib Require Import ZArith Lia Ascii String List Bool.
From Stdlib Require Import Floats.PrimFloat Numbers.Cyclic.Int63.Uint63.
From stdpp Require Import gmap strings pretty list.

Local Open Scope string_scope.
Local Open Scope Z_scope.

(** ** Python string primitives *)

Module PyStr.

(** [str.isspace] on one character (code points below 256). *)
Definition isspace (c : ascii) : bool :=
  let n := N_of_ascii c in
  (((9 <=? n) && (n <=? 13)) || ((28 <=? n) && (n <=? 32))
   || (n =? 133) || (n =? 160))%N.

(** [str.lower] on one character (code points below 256). *)
Definition lower_char (c : ascii) : ascii :=
  let n := N_of_ascii c in
  if (((65 <=? n) && (n <=? 90)) || ((192 <=? n) && (n <=? 214))
      || ((216 <=? n) && (n <=? 222)))%N
  then ascii_of_N (n + 32) else c.

Fixpoint lower (s : string) : string :=
  match s with
  | EmptyString => EmptyString
  | String c s' => String (lower_char c) (lower s')
  end.

(** [sub in s]. *)
Fixpoint contains (sub s : string) : bool :=
  if String.prefix sub s then true
  else match s with
       | EmptyString => false
       | String _ s' => contains sub s'
       end.

Fixpoint take (n : nat) (s : string) : string :=
  match n, s with
  | S n', String c s' => String c (take n' s')
  | _, _ => EmptyString
  end.

Fixpoint drop (n : nat) (s : string) : string :=
  match n, s with
  | S n', String _ s' => drop n' s'
  | _, _ => s
  end.

(** [s[:n]]; a negative [n] counts from the end. *)
Definition slice_to (n : Z) (s : string) : string :=
  if n <? 0 then take (Z.to_nat (Z.of_nat (String.length s) + n)) s
  else take (Z.to_nat n) s.

(** [s[a:b]] for non-negative [a] and [b]. *)
Definition slice (a b : nat) (s : string) : string := drop a (take b s).

Definition snoc (s : string) (c : ascii) : string := s +:+ String c EmptyString.

(** [s.split(sep)] for a non-empty separator: [skip] counts the
    characters of a matched separator still to be passed over, [cur] is
    the piece being collected. *)
Fixpoint split_aux (sep : string) (skip : nat) (cur s : string) : list string :=
  match s with
  | EmptyString => [cur]
  | String c s' =>
      match skip with
      | S k => split_aux sep k cur s'
      | O =>
          if String.prefix sep s
          then cur :: split_aux sep (String.length sep - 1) EmptyString s'
          else split_aux sep 0 (snoc cur c) s'
      end
  end.

Definition split (sep s : string) : list string := split_aux sep 0 EmptyString s.

Definition is_empty (s : string) : bool :=
  match s with EmptyString => true | _ => false end.

(** [s.split()]: maximal runs of non-whitespace characters. *)
Fixpoint words_aux (cur s : string) : list string :=
  match s with
  | EmptyString => if is_empty cur then [] else [cur]
  | String c s' =>
      if isspace c
      then (if is_empty cur then words_aux EmptyString s'
            else cur :: words_aux EmptyString s')
      else words_aux (snoc cur c) s'
  end.

Definition words (s : string) : list string := words_aux EmptyString s.

Fixpoint lstrip (s : string) : string :=
  match s with
  | EmptyString => EmptyString
  | String c s' => if isspace c then lstrip s' else s
  end.

Fixpoint rstrip (s : string) : string :=
  match s with
  | EmptyString => EmptyString
  | String c s' =>
      match rstrip s' with
      | EmptyString => if isspace c then EmptyString else String c EmptyString
      | r => String c r
      end
  end.

(** [s.strip()]. *)
Definition strip (s : string) : string := rstrip (lstrip s).

(** [sep.join(l)]. *)
Definition join (sep : string) (l : list string) : string := String.concat sep l.

(** [re.sub(r"\s+", " ", s)]. *)
Fixpoint collapse_ws (in_run : bool) (s : string) : string :=
  match s with
  | EmptyString => EmptyString
  | String c s' =>
      if isspace c
      then (if in_run then collapse_ws true s'
            else String " " (collapse_ws true s'))
      else String c (collapse_ws false s')
  end.

(** Index of the first [">"] of [s]. *)
Fixpoint find_gt (s : string) : option nat :=
  match s with
  | EmptyString => None
  | String c s' =>
      if Ascii.eqb c ">" then Some O else S <$> find_gt s'
  end.

(** [re.sub(r"<[^>]+>", " ", s)]: a ["<"] followed by one or more
    characters other than [">"] and then a [">"] becomes one space. *)
Fixpoint strip_tags_aux (skip : nat) (s : string) : string :=
  match s with
  | EmptyString => EmptyString
  | String c s' =>
      match skip with
      | S k => strip_tags_aux k s'
      | O =>
          if Ascii.eqb c "<"
          then match find_gt s' with
               | Some (S j) => String " " (strip_tags_aux (S (S j)) s')
               | _ => String c (strip_tags_aux 0 s')
               end
          else String c (strip_tags_aux 0 s')
      end
  end.

Definition strip_tags (s : string) : string := strip_tags_aux 0 s.

(** Python's [<] on [str]: lexicographic on code points. *)
Definition ltb (a b : string) : bool :=
  match String.compare a b with Lt => true | _ => false end.

End PyStr.

(** ** Configuration ([class BotConfig]) *)

Module BotConfig.

(** The two limits read from the process environment. *)
Record t := {
  MAX_FREE_DOWNLOADS : Z;
  MAX_FREE_SUMMARIES : Z }.

(** The values used when the environment does not set them. *)
Definition default : t :=
  {| MAX_FREE_DOWNLOADS := 3; MAX_FREE_SUMMARIES := 5 |}.

Definition MAX_PREMIUM_DOWNLOADS : Z := 100.
Definition MAX_PREMIUM_SUMMARIES : Z := 50.
Definition FREE_MAX_FILE_SIZE : Z := 50 * 1024 * 1024.
Definition PREMIUM_MAX_FILE_SIZE : Z := 500 * 1024 * 1024.

End BotConfig.

(** ** The record store and the world *)

(** One value of [self.users]. *)
Module User.
Record t := {
  is_subscribed : bool;
  subscription_date : option string;
  downloads_today : Z;
  summaries_today : Z;
  last_reset : string;
  is_premium : bool;
  premium_expires : option string;
  premium_started : option string;
  total_downloads : Z;
  total_summaries : Z;
  referral_code : option string;
  referred_by : option string }.
End User.

(** What [datetime.now()] yields during one call: the calendar date in
    ISO format, the timestamp in ISO format, and the timestamp thirty
    days later. *)
Record Clock := {
  today : string;
  now_iso : string;
  now_plus_30_days_iso : string }.

(** Messages the handlers send back, by kind. *)
Inductive Reply :=
| SubscribeFirst
| DownloadLimitReached (limit : Z)
| ProcessingVideo
| DownloadCompleteTooLargeToSend
| DownloadFailed (error : string)
| DownloadHandlerError
| SummaryLimitReached (limit : Z)
| AnalyzingArticle
| ArticleSummary (url summary : string)
| SummarizationFailed (error : string)
| SummaryHandlerError.

Inductive Kind := Media | Article.

(** Effects on the outside world, and marks for the calls between the
    handlers and the two pipelines. *)
Inductive Event :=
| YdlExtractInfo (url : string)          (* ydl.extract_info(url, download=False) *)
| YdlDownload (url : string)             (* ydl.download([url]) *)
| HttpGet (url : string)                 (* requests.get(url, ...) *)
| ReplyText (r : Reply)                  (* msg.reply_text(...) *)
| ReplyVideo (path : string)             (* msg.reply_video(f, ...) *)
| RemoveFile (path : string)             (* os.remove(path) *)
| DeleteProcessing                       (* processing.delete() *)
| GateChecked (k : Kind) (uid : Z) (allowed : bool)
| PipelineCalled (k : Kind) (uid : Z) (url : string)
| PipelineReturned (k : Kind) (uid : Z) (success : bool)
| Incremented (k : Kind) (uid : Z).

(** [users] is the in-memory table, [disk] the table held by
    [USER_DATA_FILE], [trace] the events so far, oldest first. *)
Record World := {
  users : gmap string User.t;
  disk : gmap string User.t;
  trace : list Event }.

(** Computations that read and change the world. *)
Definition M (A : Type) : Type := World -> A * World.

Definition ret {A} (a : A) : M A := fun w => (a, w).

Definition bind {A B} (m : M A) (k : A -> M B) : M B :=
  fun w => let (a, w') := m w in k a w'.

Declare Scope m_scope.
Delimit Scope m_scope with M.
Notation "'do' x <- m ; k" := (bind m (fun x => k))
  (at level 10, x name, m at level 100, k at level 200) : m_scope.
Notation "'run' m ; k" := (bind m (fun _ => k))
  (at level 10, m at level 100, k at level 200) : m_scope.

Definition emit (e : Event) : M unit :=
  fun w => (tt, {| users := users w; disk := disk w; trace := trace w ++ [e] |}).

Definition set_users (tbl : gmap string User.t) : M unit :=
  fun w => (tt, {| users := tbl; disk := disk w; trace := trace w |}).

Definition exec {A} (m : M A) (w : World) : World := snd (m w).
Definition eval {A} (m : M A) (w : World) : A := fst (m w).

(** ** The user manager ([class UserManager]) *)

Module UserManager.
Section Ops.
Variable cfg : BotConfig.t.
Variable clk : Clock.
Local Open Scope m_scope.

(** The dictionary [get_user] stores for an identity it has not seen. *)
Definition new_user : User.t :=
  {| User.is_subscribed := false;
     User.subscription_date := None;
     User.downloads_today := 0;
     User.summaries_today := 0;
     User.last_reset := today clk;
     User.is_premium := false;
     User.premium_expires := None;
     User.premium_started := None;
     User.total_downloads := 0;
     User.total_summaries := 0;
     User.referral_code := None;
     User.referred_by := None |}.

(** [json.dump(self.users, f)]: the file holds the whole table. *)
Definition save_user_data : M unit :=
  fun w => (tt, {| users := users w; disk := users w; trace := trace w |}).

(** [str(user_id)], the key of the table. *)
Definition key_of (user_id : Z) : string := pretty user_id.

Definition get_user (user_id : Z) : M User.t :=
  fun w =>
    match users w !! key_of user_id with
    | Some u => (u, w)
    | None =>
        (new_user,
         {| users := <[key_of user_id := new_user]> (users w);
            disk := disk w; trace := trace w |})
    end.

(** Assignments to keys of the dictionary [get_user] returned. *)
Definition update_user (user_id : Z) (f : User.t -> User.t) : M unit :=
  fun w => (tt, {| users := alter f (key_of user_id) (users w);
                   disk := disk w; trace := trace w |}).

Definition set_subscribed (referral_code : option string) (u : User.t) : User.t :=
  {| User.is_subscribed := true;
     User.subscription_date := Some (now_iso clk);
     User.downloads_today := User.downloads_today u;
     User.summaries_today := User.summaries_today u;
     User.last_reset := User.last_reset u;
     User.is_premium := User.is_premium u;
     User.premium_expires := User.premium_expires u;
     User.premium_started := User.premium_started u;
     User.total_downloads := User.total_downloads u;
     User.total_summaries := User.total_summaries u;
     User.referral_code := User.referral_code u;
     User.referred_by :=
       match referral_code with
       | Some c => if PyStr.is_empty c then User.referred_by u else Some c
       | None => User.referred_by u
       end |}.

Definition subscribe_user (user_id : Z) (referral_code : option string) : M unit :=
  run get_user user_id;
  run update_user user_id (set_subscribed referral_code);
  save_user_data.

Definition set_premium (u : User.t) : User.t :=
  {| User.is_subscribed := User.is_subscribed u;
     User.subscription_date := User.subscription_date u;
     User.downloads_today := User.downloads_today u;
     User.summaries_today := User.summaries_today u;
     User.last_reset := User.last_reset u;
     User.is_premium := true;
     User.premium_expires := Some (now_plus_30_days_iso clk);
     User.premium_started := Some (now_iso clk);
     User.total_downloads := User.total_downloads u;
     User.total_summaries := User.total_summaries u;
     User.referral_code := User.referral_code u;
     User.referred_by := User.referred_by u |}.

Definition upgrade_to_premium (user_id : Z) : M unit :=
  run get_user user_id;
  run update_user user_id set_premium;
  save_user_data.

Definition is_subscribed (user_id : Z) : M bool :=
  do user <- get_user user_id;
  ret (User.is_subscribed user).

Definition reset_counters (u : User.t) : User.t :=
  {| User.is_subscribed := User.is_subscribed u;
     User.subscription_date := User.subscription_date u;
     User.downloads_today := 0;
     User.summaries_today := 0;
     User.last_reset := today clk;
     User.is_premium := User.is_premium u;
     User.premium_expires := User.premium_expires u;
     User.premium_started := User.premium_started u;
     User.total_downloads := User.total_downloads u;
     User.total_summaries := User.total_summaries u;
     User.referral_code := User.referral_code u;
     User.referred_by := User.referred_by u |}.

Definition reset_daily_limits (user_id : Z) : M unit :=
  do user <- get_user user_id;
  if String.eqb (User.last_reset user) (today clk)
  then ret tt
  else run update_user user_id reset_counters; save_user_data.

(** The second [get_user] reads the dictionary bound by the first one
    after [reset_daily_limits] has assigned to it: both are the same
    object of the table. *)
Definition can_download (user_id : Z) : M bool :=
  do user <- get_user user_id;
  if negb (User.is_subscribed user) then ret false
  else
    run reset_daily_limits user_id;
    do user <- get_user user_id;
    if User.is_premium user
    then ret (User.downloads_today user <? BotConfig.MAX_PREMIUM_DOWNLOADS)
    else ret (User.downloads_today user <? BotConfig.MAX_FREE_DOWNLOADS cfg).

Definition can_summarize (user_id : Z) : M bool :=
  do user <- get_user user_id;
  if negb (User.is_subscribed user) then ret false
  else
    run reset_daily_limits user_id;
    do user <- get_user user_id;
    if User.is_premium user
    then ret (User.summaries_today user <? BotConfig.MAX_PREMIUM_SUMMARIES)
    else ret (User.summaries_today user <? BotConfig.MAX_FREE_SUMMARIES cfg).

Definition get_max_file_size (user_id : Z) : M Z :=
  do user <- get_user user_id;
  ret (if User.is_premium user then BotConfig.PREMIUM_MAX_FILE_SIZE
       else BotConfig.FREE_MAX_FILE_SIZE).

Definition add_download (u : User.t) : User.t :=
  {| User.is_subscribed := User.is_subscribed u;
     User.subscription_date := User.subscription_date u;
     User.downloads_today := User.downloads_today u + 1;
     User.summaries_today := User.summaries_today u;
     User.last_reset := User.last_reset u;
     User.is_premium := User.is_premium u;
     User.premium_expires := User.premium_expires u;
     User.premium_started := User.premium_started u;
     User.total_downloads := User.total_downloads u + 1;
     User.total_summaries := User.total_summaries u;
     User.referral_code := User.referral_code u;
     User.referred_by := User.referred_by u |}.

Definition increment_download (user_id : Z) : M unit :=
  run get_user user_id;
  run update_user user_id add_download;
  save_user_data.

Definition add_summary (u : User.t) : User.t :=
  {| User.is_subscribed := User.is_subscribed u;
     User.subscription_date := User.subscription_date u;
     User.downloads_today := User.downloads_today u;
     User.summaries_today := User.summaries_today u + 1;
     User.last_reset := User.last_reset u;
     User.is_premium := User.is_premium u;
     User.premium_expires := User.premium_expires u;
     User.premium_started := User.premium_started u;
     User.total_downloads := User.total_downloads u;
     User.total_summaries := User.total_summaries u + 1;
     User.referral_code := User.referral_code u;
     User.referred_by := User.referred_by u |}.

Definition increment_summary (user_id : Z) : M unit :=
  run get_user user_id;
  run update_user user_id add_summary;
  save_user_data.

End Ops.
End UserManager.

(** ** Values coming from outside the program *)

(** A key of the metadata dictionary of yt-dlp: missing, bound to [None],
    or bound to a value. Sizes and durations are integers, the other
    entries are strings. *)
Inductive Field (A : Type) :=
| Absent
| Null
| Val (a : A).
Arguments Absent {A}.
Arguments Null {A}.
Arguments Val {A} a.

Record Info := {
  filesize : Field Z;
  filesize_approx : Field Z;
  title : Field string;
  duration : Field Z;
  uploader : Field string;
  description : Field string }.

(** [d.get(key)] and [d.get(key, default)]; [None] is Python's [None]. *)
Definition dict_get {A} (f : Field A) : option A :=
  match f with Val a => Some a | _ => None end.

Definition dict_get_default {A} (f : Field A) (default : A) : option A :=
  match f with Absent => Some default | Null => None | Val a => Some a end.

(** Truth value of an integer-or-[None] and of a string-or-[None]. *)
Definition truthy_int (v : option Z) : bool :=
  match v with Some z => negb (z =? 0) | None => false end.

Definition truthy_str (v : option string) : bool :=
  match v with Some s => negb (PyStr.is_empty s) | None => false end.

(** [a or b] on integer-or-[None] values. *)
Definition py_or (a b : option Z) : option Z := if truthy_int a then a else b.

(** The options handed to [yt_dlp.YoutubeDL]; [outtmpl] and [cookiefile]
    are the same constants in both branches. *)
Record YdlOpts := {
  format : string;
  extractaudio : bool;
  preferredquality : option string }.

(** What yt-dlp does. An exception is given by its message. *)
Record YoutubeDL := {
  ydl_enter : YdlOpts -> option string;
  extract_info : YdlOpts -> string -> string + Info;
  download : YdlOpts -> string -> option string;
  prepare_filename : YdlOpts -> Info -> string }.

(** What [requests.get] followed by the HTML parser yields: an exception,
    or the status code, the texts of the [<p>] elements left after the
    non-content tags are removed, and the body as text. *)
Inductive Fetched :=
| FetchRaised
| Response (status_code : Z) (paragraphs : list string) (body : string).

Record Env := {
  ydl : YoutubeDL;
  http_get : string -> Fetched;
  bs4_installed : bool;
  send_video_ok : string -> bool }.

(** ** The media downloader ([class MediaDownloader]) *)

Module MediaDownloader.

Inductive Result :=
| Success (filepath : string) (title : option string) (duration : option Z)
          (uploader : option string) (description : string)
| Failure (error : string).

Definition success (r : Result) : bool :=
  match r with Success _ _ _ _ _ => true | Failure _ => false end.

(** [f"{x/1024/1024:.1f}"] for a byte count [0 <= x < 2^53], where the
    two divisions are exact: the quotient rounded half to even at one
    decimal. *)
Definition mb_1f (x : Z) : string :=
  let q := (10 * x) / 1048576 in
  let r := (10 * x) mod 1048576 in
  let tenths := if (524288 <? r) || ((r =? 524288) && Z.odd q) then q + 1 else q in
  pretty (tenths / 10) +:+ "." +:+ pretty (tenths mod 10).

Definition too_large_message (filesize : Z) (premium : bool) (max_file_size : Z) : string :=
  "File too large (" +:+ mb_1f filesize +:+ "MB). "
  +:+ (if premium then "Premium" else "Free") +:+ " tier limit is "
  +:+ mb_1f max_file_size +:+ "MB.".

Definition failed (e : string) : Result := Failure ("Download failed: " +:+ e).

Definition audio_opts (premium : bool) : YdlOpts :=
  {| format := "bestaudio/best";
     extractaudio := true;
     preferredquality := Some (if premium then "320" else "128") |}.

Definition video_opts (premium : bool) : YdlOpts :=
  {| format := if premium then "best[height<=1080]/best"
               else "best[filesize<50M]/best[height<=480]";
     extractaudio := false;
     preferredquality := None |}.

(** [info.get("filesize") or info.get("filesize_approx", 0)]. *)
Definition estimated_size (info : Info) : option Z :=
  py_or (dict_get (filesize info)) (dict_get_default (filesize_approx info) 0).

(** [filesize and filesize > max_file_size]. *)
Definition over_limit (filesize : option Z) (max_file_size : Z) : bool :=
  truthy_int filesize
  && match filesize with Some z => max_file_size <? z | None => false end.

(** [filename.rsplit(".", 1)[0]]: what precedes the last dot, or the
    whole name when it has none. *)
Fixpoint before_last_dot (s : string) : option string :=
  match s with
  | EmptyString => None
  | String c s' =>
      match before_last_dot s' with
      | Some h => Some (String c h)
      | None => if Ascii.eqb c "." then Some EmptyString else None
      end
  end.

Definition rsplit_dot_head (s : string) : string :=
  match before_last_dot s with Some h => h | None => s end.

(** [info.get("description", "")[:500] + "..." if info.get("description") else ""]. *)
Definition result_description (info : Info) : string :=
  if truthy_str (dict_get (description info))
  then match dict_get_default (description info) "" with
       | Some d => PyStr.slice_to 500 d +:+ "..."
       | None => ""
       end
  else "".

Section Ops.
Variable clk : Clock.
Variable env : Env.
Local Open Scope m_scope.

Definition download_youtube_video (url : string) (user_id : Z)
    (format_type : string) : M Result :=
  do user <- UserManager.get_user clk user_id;
  do max_file_size <- UserManager.get_max_file_size clk user_id;
  let audio := String.eqb format_type "audio" in
  let ydl_opts := if audio then audio_opts (User.is_premium user)
                  else video_opts (User.is_premium user) in
  match ydl_enter (ydl env) ydl_opts with
  | Some e => ret (failed e)
  | None =>
      run emit (YdlExtractInfo url);
      match extract_info (ydl env) ydl_opts url with
      | inl e => ret (failed e)
      | inr info =>
          let filesize := estimated_size info in
          if over_limit filesize max_file_size
          then ret (Failure (too_large_message (default 0 filesize)
                               (User.is_premium user) max_file_size))
          else
            run emit (YdlDownload url);
            match download (ydl env) ydl_opts url with
            | Some e => ret (failed e)
            | None =>
                let filename := prepare_filename (ydl env) ydl_opts info in
                let filename := if audio then rsplit_dot_head filename +:+ ".mp3"
                                else filename in
                ret (Success filename
                       (dict_get_default (title info) "Unknown")
                       (dict_get_default (duration info) 0)
                       (dict_get_default (uploader info) "Unknown")
                       (result_description info))
            end
      end
  end.

End Ops.
End MediaDownloader.

(** ** The summarizer ([class TextSummarizer]) *)

Module TextSummarizer.

Inductive Result :=
| Success (summary : string)
| Failure (error : string).

Definition success (r : Result) : bool :=
  match r with Success _ => true | Failure _ => false end.

(** A sentence score: an [int] until it is multiplied by a [float].
    Floats are IEEE binary64, as Python's. *)
Inductive Num :=
| Int (z : Z)
| Float (f : float).

(** [float(z)], exact for [0 <= z < 2^53]. *)
Definition to_float (n : Num) : float :=
  match n with
  | Int z => PrimFloat.of_uint63 (Uint63.of_Z z)
  | Float f => f
  end.

(** [score *= f]. *)
Definition times (n : Num) (f : float) : Num := Float (PrimFloat.mul (to_float n) f).

Definition num_eqb (a b : Num) : bool :=
  match a, b with
  | Int x, Int y => x =? y
  | _, _ => PrimFloat.eqb (to_float a) (to_float b)
  end.

Definition num_ltb (a b : Num) : bool :=
  match a, b with
  | Int x, Int y => x <? y
  | _, _ => PrimFloat.ltb (to_float a) (to_float b)
  end.

(** [<] on the tuples [(score, s)]. *)
Definition tuple_ltb (a b : Num * string) : bool :=
  if num_eqb (fst a) (fst b) then PyStr.ltb (snd a) (snd b)
  else num_ltb (fst a) (fst b).

(** [list.sort(reverse=True)]: descending, equal elements keep their
    order. *)
Fixpoint insert_desc (x : Num * string) (l : list (Num * string)) : list (Num * string) :=
  match l with
  | [] => [x]
  | y :: l' => if tuple_ltb x y then y :: insert_desc x l' else x :: l
  end.

Definition sort_reverse (l : list (Num * string)) : list (Num * string) :=
  foldr insert_desc [] l.

(** The score of the stripped sentence [s] at index [i] among [n]
    sentences. The second factor is the binary64 value Python reads
    for the literal [1.2]. *)
Definition score_of (i n : nat) (s : string) : Num :=
  let score := Int (Z.of_nat (length (PyStr.words s))) in
  let score := if (i =? 0)%nat then times score 1.5%float else score in
  if (i <? n / 3)%nat then times score 0x1.3333333333333p+0%float else score.

(** The loop that fills [scored_sentences], from index [i] on. *)
Fixpoint score_sentences (i n : nat) (sentences : list string) : list (Num * string) :=
  match sentences with
  | [] => []
  | sentence :: rest =>
      let s := PyStr.strip sentence in
      if (String.length s <? 10)%nat then score_sentences (S i) n rest
      else (score_of i n s, s) :: score_sentences (S i) n rest
  end.

(** The joined top three sentences, before the length check. *)
Definition top_summary (sentences : list string) : string :=
  let scored_sentences := sort_reverse (score_sentences 0 (length sentences) sentences) in
  let top_sentences := map snd (take 3 scored_sentences) in
  PyStr.join ". " top_sentences.

Definition summarize_with_local_extraction (text : string) (max_length : Z) : Result :=
  let sentences := PyStr.split ". " text in
  if (length sentences <=? 3)%nat then Success text
  else
    let summary := top_summary sentences in
    let summary :=
      if max_length <? Z.of_nat (String.length summary)
      then PyStr.slice_to max_length summary +:+ "..."
      else summary in
    Success (summary +:+ ".").

Definition summarize_with_simple_method (text : string) (max_length : Z) : Result :=
  let words := PyStr.words text in
  if (length words <=? 50)%nat then Success text
  else Success (PyStr.join " " (take (Nat.min 50 (length words)) words) +:+ "...").

Definition free_apis : list (string -> Z -> Result) :=
  [summarize_with_local_extraction; summarize_with_simple_method].

(** The loop of [summarize_text] over the strategies. *)
Fixpoint first_success (apis : list (string -> Z -> Result)) (text : string)
    (max_length : Z) : Result :=
  match apis with
  | [] => Failure "Summarization services temporarily unavailable. Please try again later."
  | api_func :: rest =>
      match api_func text max_length with
      | Success s => Success s
      | Failure _ => first_success rest text max_length
      end
  end.

Definition summarize_text (text : string) (max_length : Z) : Result :=
  first_success free_apis text max_length.

(** The loop that fills [good_paragraphs]; [count] is its length so far. *)
Fixpoint good_paragraphs (max_paragraphs count : nat) (paragraphs : list string) : list string :=
  match paragraphs with
  | [] => []
  | p :: rest =>
      let p_text := PyStr.strip p in
      if (50 <? String.length p_text)%nat
      then p_text :: (if (max_paragraphs <=? S count)%nat then []
                      else good_paragraphs max_paragraphs (S count) rest)
      else good_paragraphs max_paragraphs count rest
  end.

Section Ops.
Variable clk : Clock.
Variable env : Env.
Local Open Scope m_scope.

Definition summarize_url (url : string) (user_id : Z) : M Result :=
  do user <- UserManager.get_user clk user_id;
  let max_length := if User.is_premium user then 500 else 300 in
  run emit (HttpGet url);
  match http_get env url with
  | FetchRaised =>
      ret (Failure "Could not process this URL. Please try a different article.")
  | Response status_code paragraphs body =>
      if negb (status_code =? 200)
      then ret (Failure ("Could not fetch URL (Status: " +:+ pretty status_code +:+ ")"))
      else
        let text :=
          if bs4_installed env
          then PyStr.join " "
                 (good_paragraphs (if User.is_premium user then 8 else 5) 0 paragraphs)
          else PyStr.strip_tags body in
        let text := PyStr.strip (PyStr.collapse_ws false text) in
        if (String.length text <? 100)%nat
        then ret (Failure "Not enough content found to summarize")
        else
          let text_limit := if User.is_premium user then 5000 else 3000 in
          let text := PyStr.slice_to text_limit text in
          ret (summarize_text text max_length)
  end.

End Ops.
End TextSummarizer.

(** ** The handlers and the router *)

(** One entity of a message, [msg.entities[k]]. *)
Record Entity := {
  ent_type : string;
  ent_offset : nat;
  ent_length : nat;
  ent_url : option string }.

(** What a handler reads from [update]. *)
Record Update := {
  effective_user_id : Z;
  msg_text : option string;
  msg_entities : list Entity }.

Module Handlers.

Definition youtube_domains : list string :=
  ["youtube.com"; "youtu.be"; "m.youtube.com"; "youtube.be"].

(** [any(d in url.lower() for d in youtube_domains)]. *)
Definition is_youtube (url : string) : bool :=
  existsb (fun d => PyStr.contains d (PyStr.lower url)) youtube_domains.

Definition classify (url : string) : Kind :=
  if is_youtube url then Media else Article.

(** The loop over [msg.entities]: the URL of the first entity of type
    [url] or [text_link], or [url] itself when there is none. *)
Fixpoint url_from_entities (text url : string) (entities : list Entity) : string :=
  match entities with
  | [] => url
  | ent :: rest =>
      if String.eqb (ent_type ent) "url" || String.eqb (ent_type ent) "text_link"
      then
        if String.eqb (ent_type ent) "text_link" && truthy_str (ent_url ent)
        then default "" (ent_url ent)
        else PyStr.slice (ent_offset ent) (ent_offset ent + ent_length ent) text
      else url_from_entities text url rest
  end.

Definition extract_url (update : Update) : string :=
  let text := default "" (msg_text update) in
  url_from_entities text (PyStr.strip text) (msg_entities update).

Section Ops.
Variable cfg : BotConfig.t.
Variable clk : Clock.
Variable env : Env.
Local Open Scope m_scope.

(** What follows a successful download: the caption needs an integer
    duration ([//] and [%] raise on [None], which the handler answers
    with its generic error message), then the file is sent and
    removed, or the send fails and a text is sent instead. *)
Definition deliver_video (filepath : string) (duration : option Z) : M unit :=
  match duration with
  | None => emit (ReplyText DownloadHandlerError)
  | Some _ =>
      if send_video_ok env filepath
      then run emit (ReplyVideo filepath); emit (RemoveFile filepath)
      else emit (ReplyText DownloadCompleteTooLargeToSend)
  end.

Definition handle_youtube_download (update : Update) (url : string) : M unit :=
  let user_id := effective_user_id update in
  do allowed <- UserManager.can_download cfg clk user_id;
  run emit (GateChecked Media user_id allowed);
  if negb allowed
  then
    do user <- UserManager.get_user clk user_id;
    let limit := if User.is_premium user then BotConfig.MAX_PREMIUM_DOWNLOADS
                 else BotConfig.MAX_FREE_DOWNLOADS cfg in
    emit (ReplyText (DownloadLimitReached limit))
  else
    run emit (ReplyText ProcessingVideo);
    run emit (PipelineCalled Media user_id url);
    do result <- MediaDownloader.download_youtube_video clk env url user_id "video";
    run emit (PipelineReturned Media user_id (MediaDownloader.success result));
    run match result with
        | MediaDownloader.Success filepath _ duration _ _ =>
            run UserManager.increment_download clk user_id;
            run emit (Incremented Media user_id);
            run UserManager.get_user clk user_id;
            deliver_video filepath duration
        | MediaDownloader.Failure error =>
            emit (ReplyText (DownloadFailed error))
        end;
    emit DeleteProcessing.

Definition handle_article_summary (update : Update) (url : string) : M unit :=
  let user_id := effective_user_id update in
  do allowed <- UserManager.can_summarize cfg clk user_id;
  run emit (GateChecked Article user_id allowed);
  if negb allowed
  then
    do user <- UserManager.get_user clk user_id;
    let limit := if User.is_premium user then BotConfig.MAX_PREMIUM_SUMMARIES
                 else BotConfig.MAX_FREE_SUMMARIES cfg in
    emit (ReplyText (SummaryLimitReached limit))
  else
    run emit (ReplyText AnalyzingArticle);
    run emit (PipelineCalled Article user_id url);
    do result <- TextSummarizer.summarize_url clk env url user_id;
    run emit (PipelineReturned Article user_id (TextSummarizer.success result));
    run match result with
        | TextSummarizer.Success summary =>
            run UserManager.increment_summary clk user_id;
            run emit (Incremented Article user_id);
            run UserManager.get_user clk user_id;
            emit (ReplyText (ArticleSummary url summary))
        | TextSummarizer.Failure error =>
            emit (ReplyText (SummarizationFailed error))
        end;
    emit DeleteProcessing.

Definition handle_url (update : Update) : M unit :=
  let user_id := effective_user_id update in
  do subscribed <- UserManager.is_subscribed clk user_id;
  if negb subscribed then emit (ReplyText SubscribeFirst)
  else
    let url := extract_url update in
    if is_youtube url then handle_youtube_download update url
    else handle_article_summary update url.

End Ops.
End Handlers.

(** ** The router of the specification *)

Module Spec.

(** What follows the first ["://"] of [s], if there is one. *)
Fixpoint after_scheme (s : string) : option string :=
  match s with
  | EmptyString => None
  | String _ s' =>
      if String.prefix "://" s then Some (PyStr.drop 3 s) else after_scheme s'
  end.

(** The characters of [s] before the first of ["/"], ["?"] and ["#"]. *)
Fixpoint until_path (s : string) : string :=
  match s with
  | EmptyString => EmptyString
  | String c s' =>
      if Ascii.eqb c "/" || Ascii.eqb c "?" || Ascii.eqb c "#" then EmptyString
      else String c (until_path s')
  end.

(** The host part of a URL: what stands between the scheme and the
    path, query or fragment. *)
Definition host (url : string) : string :=
  until_path (default url (after_scheme url)).

(** The classification as the specification words it: a
    case-insensitive substring match of the host against the markers. *)
Definition classify (url : string) : Kind :=
  if existsb (fun d => PyStr.contains d (PyStr.lower (host url)))
       Handlers.youtube_domains
  then Media else Article.

End Spec.

(** ** Vocabulary of the statements *)

Module Props.

(** The four counters of an identity: today's downloads and summaries,
    lifetime downloads and summaries. An identity without a record has
    used nothing. *)
Definition usage (w : World) (user_id : Z) : Z * Z * Z * Z :=
  match users w !! UserManager.key_of user_id with
  | Some u => (User.downloads_today u, User.summaries_today u,
               User.total_downloads u, User.total_summaries u)
  | None => (0, 0, 0, 0)
  end.

(** A size entry that gives no estimate: missing, [None] or zero. *)
Definition no_size (f : Field Z) : Prop := f = Absent \/ f = Null \/ f = Val 0.

(** Calls of the user manager. *)
Inductive Op :=
| GetUser (user_id : Z)
| SubscribeUser (user_id : Z) (referral_code : option string)
| UpgradeToPremium (user_id : Z)
| IsSubscribed (user_id : Z)
| ResetDailyLimits (user_id : Z)
| CanDownload (user_id : Z)
| CanSummarize (user_id : Z)
| GetMaxFileSize (user_id : Z)
| IncrementDownload (user_id : Z)
| IncrementSummary (user_id : Z).

Local Open Scope m_scope.

Definition run_op (cfg : BotConfig.t) (clk : Clock) (op : Op) : M unit :=
  match op with
  | GetUser uid => run UserManager.get_user clk uid; ret tt
  | SubscribeUser uid c => UserManager.subscribe_user clk uid c
  | UpgradeToPremium uid => UserManager.upgrade_to_premium clk uid
  | IsSubscribed uid => run UserManager.is_subscribed clk uid; ret tt
  | ResetDailyLimits uid => UserManager.reset_daily_limits clk uid
  | CanDownload uid => run UserManager.can_download cfg clk uid; ret tt
  | CanSummarize uid => run UserManager.can_summarize cfg clk uid; ret tt
  | GetMaxFileSize uid => run UserManager.get_max_file_size clk uid; ret tt
  | IncrementDownload uid => UserManager.increment_download clk uid
  | IncrementSummary uid => UserManager.increment_summary clk uid
  end.

(** A history of calls, each at its own time. *)
Fixpoint run_ops (cfg : BotConfig.t) (ops : list (Clock * Op)) : M unit :=
  match ops with
  | [] => ret tt
  | (clk, op) :: rest => run run_op cfg clk op; run_ops cfg rest
  end.

(** Every record of [m] is still in [m'], with lifetime counters at
    least as large. *)
Definition totals_le (m m' : gmap string User.t) : Prop :=
  forall key r, m !! key = Some r ->
    exists r', m' !! key = Some r'
      /\ User.total_downloads r <= User.total_downloads r'
      /\ User.total_summaries r <= User.total_summaries r'.

(** The computation [m] never lowers a lifetime counter. *)
Definition keeps_totals {A} (m : M A) : Prop :=
  forall w, totals_le (users w) (users (exec m w)).

(** The record [u] with another value of [summaries_today]. *)
Definition with_summaries_today (n : Z) (u : User.t) : User.t :=
  {| User.is_subscribed := User.is_subscribed u;
     User.subscription_date := User.subscription_date u;
     User.downloads_today := User.downloads_today u;
     User.summaries_today := n;
     User.last_reset := User.last_reset u;
     User.is_premium := User.is_premium u;
     User.premium_expires := User.premium_expires u;
     User.premium_started := User.premium_started u;
     User.total_downloads := User.total_downloads u;
     User.total_summaries := User.total_summaries u;
     User.referral_code := User.referral_code u;
     User.referred_by := User.referred_by u |}.

(** The world [w] where the record of [user_id], if there is one, has
    [n] as its [summaries_today]. *)
Definition set_summaries_today (n : Z) (user_id : Z) (w : World) : World :=
  {| users := alter (with_summaries_today n) (UserManager.key_of user_id) (users w);
     disk := disk w; trace := trace w |}.

(** The world [w] after the events [evs]. *)
Definition add_events (w : World) (evs : list Event) : World :=
  {| users := users w; disk := disk w; trace := (trace w ++ evs)%list |}.

(** The input and output events of the two pipelines. *)
Definition pipeline_io (e : Event) : Prop :=
  match e with
  | YdlExtractInfo _ | YdlDownload _ | HttpGet _ => True
  | _ => False
  end.

(** One more download, or one more summary, today and in total. *)
Definition bump (k : Kind) (c : Z * Z * Z * Z) : Z * Z * Z * Z :=
  match c, k with
  | (d, s, td, ts), Media => (d + 1, s, td + 1, ts)
  | (d, s, td, ts), Article => (d, s + 1, td, ts + 1)
  end.

(** In [evs], the event [later] occurs only after an event [earlier]. *)
Definition only_after (earlier later : Event) (evs : list Event) : Prop :=
  forall pre post, evs = (pre ++ later :: post)%list -> In earlier pre.

(** What a handler owes to its gate, for the request of [user_id] for
    [url]: the events [evs] it adds to the trace of [w] are such that
    - when the gate refuses, they are the refusal and one reply, and
      the counters of the user are what they were;
    - the pipeline is called only after the gate has allowed it;
    - the increment happens only after the pipeline has reported
      success;
    - the counters the gate left are raised by one when the pipeline
      has reported success, and are unchanged otherwise. *)
Definition gated (k : Kind) (user_id : Z) (url : string)
    (gate : M bool) (handler : M unit) (w : World) : Prop :=
  let w' := exec handler w in
  exists evs,
    trace w' = (trace w ++ evs)%list
    /\ (eval gate w = false ->
        (exists r, evs = [GateChecked k user_id false; ReplyText r])
        /\ usage w' user_id = usage w user_id)
    /\ only_after (GateChecked k user_id true) (PipelineCalled k user_id url) evs
    /\ only_after (PipelineReturned k user_id true) (Incremented k user_id) evs
    /\ (In (PipelineReturned k user_id true) evs ->
        usage w' user_id = bump k (usage (exec gate w) user_id))
    /\ (~ In (PipelineReturned k user_id true) evs ->
        usage w' user_id = usage (exec gate w) user_id).

End Props.

(** ** Sample inputs *)

Module Samples.

Definition clock : Clock :=
  {| today := "2024-05-02";
     now_iso := "2024-05-02T09:30:00";
     now_plus_30_days_iso := "2024-06-01T09:30:00" |}.

(** A subscribed free-tier user. *)
Definition free_user (downloads summaries : Z) (last : string) : User.t :=
  {| User.is_subscribed := true;
     User.subscription_date := Some "2024-04-01T08:00:00";
     User.downloads_today := downloads;
     User.summaries_today := summaries;
     User.last_reset := last;
     User.is_premium := false;
     User.premium_expires := None;
     User.premium_started := None;
     User.total_downloads := 7;
     User.total_summaries := 9;
     User.referral_code := None;
     User.referred_by := None |}.

Definition world_of (tbl : gmap string User.t) : World :=
  {| users := tbl; disk := tbl; trace := [] |}.

Definition empty_world : World := world_of ∅.

(** User 42 has used up today's downloads and summaries. *)
Definition exhausted_world : World :=
  world_of {[ "42" := free_user 3 5 "2024-05-02" ]}.

(** User 42 was last seen the day before. *)
Definition yesterday_world : World :=
  world_of {[ "42" := free_user 2 4 "2024-05-01" ]}.

Definition fresh_world : World :=
  world_of {[ "42" := free_user 0 0 "2024-05-02" ]}.

Definition chars (c : ascii) (n : nat) : string :=
  string_of_list_ascii (repeat c n).

Definition info_of (size approx : Field Z) (descr : Field string) : Info :=
  {| filesize := size;
     filesize_approx := approx;
     title := Val "Clip";
     duration := Val 95;
     uploader := Val "Channel";
     description := descr |}.

(** A yt-dlp that resolves every URL to [info] and downloads it. *)
Definition ydl_of (info : Info) : YoutubeDL :=
  {| ydl_enter := fun _ => None;
     extract_info := fun _ _ => inr info;
     download := fun _ _ => None;
     prepare_filename := fun _ _ => "downloads/Clip_abc123.mp4" |}.

Definition env_of (info : Info) : Env :=
  {| ydl := ydl_of info;
     http_get := fun _ => FetchRaised;
     bs4_installed := true;
     send_video_ok := fun _ => true |}.

Definition update_of (user_id : Z) (text : string) : Update :=
  {| effective_user_id := user_id; msg_text := Some text; msg_entities := [] |}.

(** Four sentences of 150 characters each. *)
Definition long_text : string :=
  PyStr.join ". " (repeat (chars "a" 150) 4).

End Samples.

(** ** Vocabulary of the further statements *)

Module Facts.

(** The record [u] with another value of [downloads_today]. *)
Definition with_downloads_today (n : Z) (u : User.t) : User.t :=
  {| User.is_subscribed := User.is_subscribed u;
     User.subscription_date := User.subscription_date u;
     User.downloads_today := n;
     User.summaries_today := User.summaries_today u;
     User.last_reset := User.last_reset u;
     User.is_premium := User.is_premium u;
     User.premium_expires := User.premium_expires u;
     User.premium_started := User.premium_started u;
     User.total_downloads := User.total_downloads u;
     User.total_summaries := User.total_summaries u;
     User.referral_code := User.referral_code u;
     User.referred_by := User.referred_by u |}.

(** The world [w] where the record of [user_id], if there is one, has
    [n] as its [downloads_today]. *)
Definition set_downloads_today (n : Z) (user_id : Z) (w : World) : World :=
  {| users := alter (with_downloads_today n) (UserManager.key_of user_id) (users w);
     disk := disk w; trace := trace w |}.

(** The world after [modify] has been applied to the record that
    [get_user] yields for [user_id], and the table has been saved. *)
Definition saved_with (clk : Clock) (user_id : Z) (modify : User.t -> User.t)
    (w : World) : World :=
  let tbl := <[UserManager.key_of user_id :=
                 modify (eval (UserManager.get_user clk user_id) w)]> (users w) in
  {| users := tbl; disk := tbl; trace := trace w |}.

(** The identity a call of the user manager is about. *)
Definition op_user (op : Props.Op) : Z :=
  match op with
  | Props.GetUser uid | Props.SubscribeUser uid _ | Props.UpgradeToPremium uid
  | Props.IsSubscribed uid | Props.ResetDailyLimits uid | Props.CanDownload uid
  | Props.CanSummarize uid | Props.GetMaxFileSize uid
  | Props.IncrementDownload uid | Props.IncrementSummary uid => uid
  end.

(** The file agrees with the table in memory, except for records that
    [get_user] has created and nothing has touched since. *)
Definition saved_up_to_new_records (w : World) : Prop :=
  forall key,
    disk w !! key = users w !! key
    \/ (disk w !! key = None
        /\ exists clk, users w !! key = Some (UserManager.new_user clk)).

(** The computation [m] keeps the file in step with the table, in the
    sense of [saved_up_to_new_records]. *)
Definition keeps_saved {A} (m : M A) : Prop :=
  forall w, saved_up_to_new_records w -> saved_up_to_new_records (exec m w).

(** The daily limits of the tier of [u]. *)
Definition download_limit (cfg : BotConfig.t) (u : User.t) : Z :=
  if User.is_premium u then BotConfig.MAX_PREMIUM_DOWNLOADS
  else BotConfig.MAX_FREE_DOWNLOADS cfg.

Definition summary_limit (cfg : BotConfig.t) (u : User.t) : Z :=
  if User.is_premium u then BotConfig.MAX_PREMIUM_SUMMARIES
  else BotConfig.MAX_FREE_SUMMARIES cfg.

(** Both daily counters of [u] are within the limits of its tier. *)
Definition within_limits (cfg : BotConfig.t) (u : User.t) : Prop :=
  User.downloads_today u <= download_limit cfg u
  /\ User.summaries_today u <= summary_limit cfg u.

(** A string without whitespace, and a word: a non-empty string without
    whitespace. *)
Definition no_space (s : string) : Prop :=
  forall c, In c (list_ascii_of_string s) -> PyStr.isspace c = false.

Definition is_word (s : string) : Prop := s <> EmptyString /\ no_space s.

(** The text [summarize_url] extracts from a fetched page: the joined
    paragraphs kept by [good_paragraphs], or the body without its tags
    when the HTML parser is missing, with whitespace collapsed and
    stripped. *)
Definition page_text (bs4 premium : bool) (paragraphs : list string)
    (body : string) : string :=
  PyStr.strip
    (PyStr.collapse_ws false
       (if bs4
        then PyStr.join " "
               (TextSummarizer.good_paragraphs (if premium then 8 else 5) 0 paragraphs)
        else PyStr.strip_tags body)).

(** The string [s] contains no dot. *)
Definition no_dot (s : string) : Prop := ~ In "."%char (list_ascii_of_string s).

(** The sample environment where the sending of a video fails. *)
Definition env_send_fails (info : Info) : Env :=
  {| ydl := Samples.ydl_of info;
     http_get := fun _ => FetchRaised;
     bs4_installed := true;
     send_video_ok := fun _ => false |}.

(** Sixty words. *)
Definition sixty_words : string := PyStr.join " " (repeat "word" 60).

(** The entity is of one of the two types [handle_url] looks for. *)
Definition is_link (ent : Entity) : bool :=
  String.eqb (ent_type ent) "url" || String.eqb (ent_type ent) "text_link".

(** The computation [m] changes no record but that of [user_id]. *)
Definition touches_only {A} (user_id : Z) (m : M A) : Prop :=
  forall w key, key <> UserManager.key_of user_id ->
    users (exec m w) !! key = users w !! key.

(** Every record of [m] is still in [m'], related to what it was by [R]. *)
Definition related (R : User.t -> User.t -> Prop) (m m' : gmap string User.t) : Prop :=
  forall key r, m !! key = Some r -> exists r', m' !! key = Some r' /\ R r r'.

(** The computation [m] keeps every record, up to [R]. *)
Definition keeps (R : User.t -> User.t -> Prop) {A} (m : M A) : Prop :=
  forall w, related R (users w) (users (exec m w)).

(** The records [u] and [u'] differ at most in the four counters and the
    date of the last reset. *)
Definition same_account (u u' : User.t) : Prop :=
  User.is_subscribed u' = User.is_subscribed u
  /\ User.subscription_date u' = User.subscription_date u
  /\ User.is_premium u' = User.is_premium u
  /\ User.premium_expires u' = User.premium_expires u
  /\ User.premium_started u' = User.premium_started u
  /\ User.referral_code u' = User.referral_code u
  /\ User.referred_by u' = User.referred_by u.

#[global] Instance Kind_eq_dec : EqDecision Kind.
Proof. solve_decision. Defined.

#[global] Instance Reply_eq_dec : EqDecision Reply.
Proof. solve_decision. Defined.

#[global] Instance Event_eq_dec : EqDecision Event.
Proof. solve_decision. Defined.

End Facts.

(** ** Facts about the string primitives *)

Module PyStrFacts.
Import PyStr.

Lemma length_take (n : nat) (s : string) :
  String.length (take n s) = Nat.min n (String.length s).
Proof.
  revert s; induction n as [|n IH]; intros [|c s]; simpl; auto.
Qed.

Lemma length_app (a b : string) :
  String.length (a +:+ b) = (String.length a + String.length b)%nat.
Proof. induction a as [|c a IH]; simpl; auto. Qed.

Lemma app_assoc (a b c : string) : (a +:+ b) +:+ c = a +:+ (b +:+ c).
Proof.
  induction a as [|x a IH]; [reflexivity|].
  change (String x ((a +:+ b) +:+ c) = String x (a +:+ (b +:+ c))).
  now rewrite IH.
Qed.

Lemma length_slice_to (n : Z) (s : string) :
  0 <= n ->
  String.length (slice_to n s) = Nat.min (Z.to_nat n) (String.length s).
Proof.
  intros H0. unfold slice_to.
  destruct (Z.ltb_spec n 0) as [Hneg|_]; [lia|].
  apply length_take.
Qed.

Lemma length_slice_to_le (n : Z) (s : string) :
  0 <= n -> n < Z.of_nat (String.length s) ->
  Z.of_nat (String.length (slice_to n s)) = n.
Proof.
  intros H0 Hlt. unfold slice_to.
  destruct (Z.ltb_spec n 0) as [Hneg|_]; [lia|].
  rewrite length_take. lia.
Qed.

End PyStrFacts.

Example split_ex :
  PyStr.split ". " "One. Two.  Three. " = ["One"; "Two"; " Three"; ""].
Proof. reflexivity. Qed.

Example words_ex : PyStr.words "  a bc   d " = ["a"; "bc"; "d"].
Proof. reflexivity. Qed.

Example strip_ex : PyStr.strip "  a b  " = "a b".
Proof. reflexivity. Qed.

Example strip_tags_ex : PyStr.strip_tags "a<b>c<>d<e" = "a c<>d<e".
Proof. reflexivity. Qed.

Example slice_to_ex : PyStr.slice_to (-2) "abcde" = "abc".
Proof. reflexivity. Qed.

(** ** The user manager *)

Section UserManagerFacts.
Variable cfg : BotConfig.t.
Variable clk : Clock.
Implicit Types (w : World) (uid : Z).

Lemma run_unit (m : M unit) w : m w = (tt, exec m w).
Proof. unfold exec. now destruct (m w) as [[] w']. Qed.

Lemma get_user_present uid w u :
  users w !! UserManager.key_of uid = Some u ->
  UserManager.get_user clk uid w = (u, w).
Proof. intros H. unfold UserManager.get_user. now rewrite H. Qed.

Lemma get_user_absent uid w :
  users w !! UserManager.key_of uid = None ->
  UserManager.get_user clk uid w
  = (UserManager.new_user clk,
     {| users := <[UserManager.key_of uid := UserManager.new_user clk]> (users w);
        disk := disk w; trace := trace w |}).
Proof. intros H. unfold UserManager.get_user. now rewrite H. Qed.

(** After [get_user] the table holds the record it returned. *)
Lemma get_user_lookup uid w :
  users (exec (UserManager.get_user clk uid) w) !! UserManager.key_of uid
  = Some (eval (UserManager.get_user clk uid) w).
Proof.
  unfold eval, exec, UserManager.get_user.
  destruct (users w !! UserManager.key_of uid) eqn:E; simpl; auto.
  apply lookup_insert_eq.
Qed.

Lemma get_user_disk uid w :
  disk (exec (UserManager.get_user clk uid) w) = disk w.
Proof.
  unfold exec, UserManager.get_user.
  destruct (users w !! UserManager.key_of uid); reflexivity.
Qed.

Lemma get_user_trace uid w :
  trace (exec (UserManager.get_user clk uid) w) = trace w.
Proof.
  unfold exec, UserManager.get_user.
  destruct (users w !! UserManager.key_of uid); reflexivity.
Qed.

(** What [reset_daily_limits] does to a world that holds [u] for [uid]. *)
Lemma reset_daily_limits_present uid w u :
  users w !! UserManager.key_of uid = Some u ->
  exec (UserManager.reset_daily_limits clk uid) w
  = if String.eqb (User.last_reset u) (today clk) then w
    else let tbl := <[UserManager.key_of uid := UserManager.reset_counters clk u]> (users w) in
         {| users := tbl; disk := tbl; trace := trace w |}.
Proof.
  intros H. unfold UserManager.reset_daily_limits, exec, bind.
  rewrite (get_user_present _ _ _ H).
  destruct (String.eqb (User.last_reset u) (today clk)); [reflexivity|].
  unfold UserManager.update_user, UserManager.save_user_data. simpl.
  assert (Ha : alter (UserManager.reset_counters clk) (UserManager.key_of uid) (users w)
               = <[UserManager.key_of uid := UserManager.reset_counters clk u]> (users w)).
  { apply map_eq. intros k. rewrite lookup_alter, lookup_insert.
    destruct (decide (UserManager.key_of uid = k)) as [<-|]; [now rewrite H|reflexivity]. }
  now rewrite Ha.
Qed.

Lemma reset_daily_limits_absent uid w :
  users w !! UserManager.key_of uid = None ->
  exec (UserManager.reset_daily_limits clk uid) w
  = exec (UserManager.get_user clk uid) w.
Proof.
  intros H. unfold UserManager.reset_daily_limits, exec, bind.
  rewrite (get_user_absent _ _ H). simpl.
  now rewrite String.eqb_refl.
Qed.

(** A second [get_user] returns the record the first one returned. *)
Lemma get_user_again uid w :
  UserManager.get_user clk uid (exec (UserManager.get_user clk uid) w)
  = (eval (UserManager.get_user clk uid) w, exec (UserManager.get_user clk uid) w).
Proof. apply get_user_present, get_user_lookup. Qed.

(** The value of [can_download] and the world it leaves, in terms of
    the record [u] of the caller. *)
Lemma can_download_present uid w u :
  users w !! UserManager.key_of uid = Some u ->
  UserManager.can_download cfg clk uid w
  = if User.is_subscribed u
    then ((if String.eqb (User.last_reset u) (today clk)
           then User.downloads_today u else 0)
          <? (if User.is_premium u then BotConfig.MAX_PREMIUM_DOWNLOADS
              else BotConfig.MAX_FREE_DOWNLOADS cfg),
          exec (UserManager.reset_daily_limits clk uid) w)
    else (false, w).
Proof.
  intros H. unfold UserManager.can_download, bind.
  rewrite (get_user_present _ _ _ H).
  destruct (User.is_subscribed u); simpl; [|reflexivity].
  rewrite (run_unit (UserManager.reset_daily_limits clk uid) w).
  rewrite (reset_daily_limits_present uid w u H).
  destruct (String.eqb (User.last_reset u) (today clk)).
  - rewrite (get_user_present _ _ _ H). now destruct (User.is_premium u).
  - erewrite get_user_present by (simpl; apply lookup_insert_eq).
    simpl. now destruct (User.is_premium u).
Qed.

Lemma can_download_absent uid w :
  users w !! UserManager.key_of uid = None ->
  UserManager.can_download cfg clk uid w
  = (false, exec (UserManager.get_user clk uid) w).
Proof.
  intros H. unfold UserManager.can_download, bind, exec.
  now rewrite (get_user_absent _ _ H).
Qed.

Lemma can_summarize_present uid w u :
  users w !! UserManager.key_of uid = Some u ->
  UserManager.can_summarize cfg clk uid w
  = if User.is_subscribed u
    then ((if String.eqb (User.last_reset u) (today clk)
           then User.summaries_today u else 0)
          <? (if User.is_premium u then BotConfig.MAX_PREMIUM_SUMMARIES
              else BotConfig.MAX_FREE_SUMMARIES cfg),
          exec (UserManager.reset_daily_limits clk uid) w)
    else (false, w).
Proof.
  intros H. unfold UserManager.can_summarize, bind.
  rewrite (get_user_present _ _ _ H).
  destruct (User.is_subscribed u); simpl; [|reflexivity].
  rewrite (run_unit (UserManager.reset_daily_limits clk uid) w).
  rewrite (reset_daily_limits_present uid w u H).
  destruct (String.eqb (User.last_reset u) (today clk)).
  - rewrite (get_user_present _ _ _ H). now destruct (User.is_premium u).
  - erewrite get_user_present by (simpl; apply lookup_insert_eq).
    simpl. now destruct (User.is_premium u).
Qed.

Lemma can_summarize_absent uid w :
  users w !! UserManager.key_of uid = None ->
  UserManager.can_summarize cfg clk uid w
  = (false, exec (UserManager.get_user clk uid) w).
Proof.
  intros H. unfold UserManager.can_summarize, bind, exec.
  now rewrite (get_user_absent _ _ H).
Qed.

End UserManagerFacts.

(** C1. [can_download] is false for a user whose record has
    [is_subscribed = false]; for a subscribed user it leaves the world
    that [reset_daily_limits] leaves and is true exactly when the
    [downloads_today] of the record after that reset is strictly below the
    limit of the tier, which is 3 for free users (by default) and 100 for
    premium users; its value does not depend on [summaries_today]. *)
Theorem can_download_gate (cfg : BotConfig.t) (clk : Clock) (uid : Z) (w : World) :
  let user := eval (UserManager.get_user clk uid) w in
  let after_reset := exec (UserManager.reset_daily_limits clk uid) w in
  let user' := eval (UserManager.get_user clk uid) after_reset in
  let limit := if User.is_premium user' then BotConfig.MAX_PREMIUM_DOWNLOADS
               else BotConfig.MAX_FREE_DOWNLOADS cfg in
  UserManager.can_download cfg clk uid w
  = (if User.is_subscribed user
     then (User.downloads_today user' <? limit, after_reset)
     else (false, exec (UserManager.get_user clk uid) w))
  /\ (forall n, eval (UserManager.can_download cfg clk uid)
                  (Props.set_summaries_today n uid w)
                = eval (UserManager.can_download cfg clk uid) w)
  /\ BotConfig.MAX_FREE_DOWNLOADS BotConfig.default = 3
  /\ BotConfig.MAX_PREMIUM_DOWNLOADS = 100.
Proof.
  cbv zeta. split; [|split; [|split; reflexivity]].
  - destruct (users w !! UserManager.key_of uid) as [u|] eqn:E.
    + rewrite (can_download_present cfg clk uid w u E).
      unfold eval at 1. rewrite (get_user_present clk uid w u E). simpl.
      destruct (User.is_subscribed u).
      * rewrite (reset_daily_limits_present clk uid w u E).
        destruct (String.eqb (User.last_reset u) (today clk)).
        -- unfold eval. now rewrite (get_user_present clk uid w u E).
        -- unfold eval. erewrite get_user_present by (simpl; apply lookup_insert_eq).
           reflexivity.
      * unfold exec. now rewrite (get_user_present clk uid w u E).
    + rewrite (can_download_absent cfg clk uid w E).
      unfold eval at 1. now rewrite (get_user_absent clk uid w E).
  - intros n. unfold eval.
    destruct (users w !! UserManager.key_of uid) as [u|] eqn:E.
    + assert (E' : users (Props.set_summaries_today n uid w) !! UserManager.key_of uid
                   = Some (Props.with_summaries_today n u)).
      { simpl. rewrite lookup_alter, decide_True by reflexivity. now rewrite E. }
      rewrite (can_download_present cfg clk uid _ _ E').
      rewrite (can_download_present cfg clk uid _ _ E). simpl.
      now destruct (User.is_subscribed u).
    + assert (E' : users (Props.set_summaries_today n uid w) !! UserManager.key_of uid = None).
      { simpl. rewrite lookup_alter, decide_True by reflexivity. now rewrite E. }
      rewrite (can_download_absent cfg clk uid _ E').
      now rewrite (can_download_absent cfg clk uid _ E).
Qed.

(** C4. On a record whose [last_reset] is not the current date,
    [reset_daily_limits] sets both daily counters to 0 and [last_reset] to
    the current date, leaves every other entry of the record and every
    other record as they were, and saves the table; a second run on the
    same date changes nothing. *)
Theorem reset_daily_limits_new_day (clk : Clock) (uid : Z) (w : World) (u : User.t) :
  users w !! UserManager.key_of uid = Some u ->
  User.last_reset u <> today clk ->
  let w1 := exec (UserManager.reset_daily_limits clk uid) w in
  (exists u',
      users w1 !! UserManager.key_of uid = Some u'
      /\ User.downloads_today u' = 0
      /\ User.summaries_today u' = 0
      /\ User.last_reset u' = today clk
      /\ User.total_downloads u' = User.total_downloads u
      /\ User.total_summaries u' = User.total_summaries u
      /\ User.is_subscribed u' = User.is_subscribed u
      /\ User.subscription_date u' = User.subscription_date u
      /\ User.is_premium u' = User.is_premium u
      /\ User.premium_expires u' = User.premium_expires u
      /\ User.premium_started u' = User.premium_started u
      /\ User.referral_code u' = User.referral_code u
      /\ User.referred_by u' = User.referred_by u)
  /\ (forall key, key <> UserManager.key_of uid -> users w1 !! key = users w !! key)
  /\ disk w1 = users w1
  /\ exec (UserManager.reset_daily_limits clk uid) w1 = w1.
Proof.
  intros E Hne w1. subst w1.
  rewrite (reset_daily_limits_present clk uid w u E).
  destruct (String.eqb_spec (User.last_reset u) (today clk)) as [Heq|_]; [contradiction|].
  cbv zeta. repeat split.
  - exists (UserManager.reset_counters clk u). simpl.
    rewrite lookup_insert_eq. repeat split; reflexivity.
  - intros key Hk. simpl. now rewrite lookup_insert_ne.
  - erewrite reset_daily_limits_present by (simpl; apply lookup_insert_eq).
    simpl. now rewrite String.eqb_refl.
Qed.

(** The statement of C4 at user 42, last seen the day before. *)
Lemma reset_daily_limits_new_day_witness :
  let w1 := exec (UserManager.reset_daily_limits Samples.clock 42) Samples.yesterday_world in
  Props.usage Samples.yesterday_world 42 = (2, 4, 7, 9)
  /\ Props.usage w1 42 = (0, 0, 7, 9)
  /\ disk w1 = users w1
  /\ exec (UserManager.reset_daily_limits Samples.clock 42) w1 = w1.
Proof.
  destruct (reset_daily_limits_new_day Samples.clock 42 Samples.yesterday_world
              (Samples.free_user 2 4 "2024-05-01"))
    as (_ & _ & Hdisk & Hidem).
  - reflexivity.
  - discriminate.
  - intros w1. split; [reflexivity|]. split; [reflexivity|].
    split; [exact Hdisk | exact Hidem].
Defined.

(** C5 (the code does otherwise). [get_user] on an identity that is not
    in the store inserts the zeroed, unsubscribed record into the table in
    memory and returns it, but does not save: the table on disk is the one
    from before the call and does not hold the record. *)
Theorem get_user_insertion_not_saved :
  let w := Samples.empty_world in
  let w1 := exec (UserManager.get_user Samples.clock 42) w in
  users w !! "42" = None
  /\ eval (UserManager.get_user Samples.clock 42) w = UserManager.new_user Samples.clock
  /\ users w1 !! "42" = Some (UserManager.new_user Samples.clock)
  /\ Props.usage w1 42 = (0, 0, 0, 0)
  /\ User.is_subscribed (UserManager.new_user Samples.clock) = false
  /\ disk w1 = disk w
  /\ disk w1 !! "42" = None.
Proof. repeat split. Qed.

(** ** Lifetime counters *)

Section Totals.
Import Props.

Lemma exec_bind {A B} (m : M A) (k : A -> M B) w :
  exec (bind m k) w = exec (k (eval m w)) (exec m w).
Proof. unfold exec, eval, bind. now destruct (m w). Qed.

Lemma eval_bind {A B} (m : M A) (k : A -> M B) w :
  eval (bind m k) w = eval (k (eval m w)) (exec m w).
Proof. unfold exec, eval, bind. now destruct (m w). Qed.

Lemma totals_le_refl m : totals_le m m.
Proof. intros key r H. exists r. repeat split; [assumption | lia | lia]. Qed.

Lemma totals_le_trans m1 m2 m3 :
  totals_le m1 m2 -> totals_le m2 m3 -> totals_le m1 m3.
Proof.
  intros H12 H23 key r H.
  destruct (H12 key r H) as (r2 & E2 & Hd2 & Hs2).
  destruct (H23 key r2 E2) as (r3 & E3 & Hd3 & Hs3).
  exists r3. repeat split; [assumption | lia | lia].
Qed.

Lemma keeps_ret {A} (a : A) : keeps_totals (ret a).
Proof. intros w. apply totals_le_refl. Qed.

Lemma keeps_bind {A B} (m : M A) (k : A -> M B) :
  keeps_totals m -> (forall a, keeps_totals (k a)) -> keeps_totals (bind m k).
Proof.
  intros Hm Hk w. rewrite exec_bind.
  eapply totals_le_trans; [apply Hm | apply Hk].
Qed.

Lemma keeps_if {A} (b : bool) (m1 m2 : M A) :
  keeps_totals m1 -> keeps_totals m2 -> keeps_totals (if b then m1 else m2).
Proof. now destruct b. Qed.

Lemma keeps_emit e : keeps_totals (emit e).
Proof. intros w. apply totals_le_refl. Qed.

Lemma keeps_save : keeps_totals UserManager.save_user_data.
Proof. intros w. apply totals_le_refl. Qed.

Lemma keeps_get_user clk uid : keeps_totals (UserManager.get_user clk uid).
Proof.
  intros w key r H. unfold exec, UserManager.get_user.
  destruct (users w !! UserManager.key_of uid) eqn:E; simpl.
  - exists r. repeat split; [assumption | lia | lia].
  - exists r. repeat split; [|lia|lia].
    rewrite lookup_insert_ne; [assumption|]. congruence.
Qed.

Lemma keeps_update_user uid (f : User.t -> User.t) :
  (forall u, User.total_downloads u <= User.total_downloads (f u)
             /\ User.total_summaries u <= User.total_summaries (f u)) ->
  keeps_totals (UserManager.update_user uid f).
Proof.
  intros Hf w key r H. unfold exec, UserManager.update_user; simpl.
  rewrite lookup_alter.
  destruct (decide (UserManager.key_of uid = key)) as [<-|].
  - rewrite H. exists (f r). split; [reflexivity | apply Hf].
  - exists r. repeat split; [assumption | lia | lia].
Qed.

Create HintDb keeps.
#[local] Hint Resolve keeps_ret keeps_emit keeps_save keeps_get_user : keeps.
#[local] Hint Extern 2 (keeps_totals (bind _ _)) => apply keeps_bind; [|intros ?] : keeps.
#[local] Hint Extern 2 (keeps_totals (if _ then _ else _)) => apply keeps_if : keeps.
#[local] Hint Extern 3 (keeps_totals (UserManager.update_user _ _)) =>
  apply keeps_update_user; intros ?; simpl; lia : keeps.

Lemma keeps_run_op cfg clk op : keeps_totals (run_op cfg clk op).
Proof.
  destruct op; unfold run_op, UserManager.subscribe_user,
    UserManager.upgrade_to_premium, UserManager.is_subscribed,
    UserManager.can_download, UserManager.can_summarize,
    UserManager.get_max_file_size, UserManager.increment_download,
    UserManager.increment_summary, UserManager.reset_daily_limits;
    auto 20 with keeps.
Qed.

Lemma keeps_run_ops cfg ops : keeps_totals (run_ops cfg ops).
Proof.
  induction ops as [|[clk op] ops IH]; simpl.
  - apply keeps_ret.
  - apply keeps_bind; [apply keeps_run_op | intros _; exact IH].
Qed.

End Totals.

(** C8. No call of the user manager lowers a lifetime counter: after any
    history of calls ([get_user], [subscribe_user], [upgrade_to_premium],
    [is_subscribed], [reset_daily_limits], [can_download], [can_summarize],
    [get_max_file_size], [increment_download], [increment_summary]), at any
    times and for any identities, every record that was in the table is
    still there and its [total_downloads] and [total_summaries] are at
    least what they were. *)
Theorem lifetime_totals_monotone (cfg : BotConfig.t)
    (ops : list (Clock * Props.Op)) (w : World) (key : string) (r : User.t) :
  users w !! key = Some r ->
  exists r',
    users (exec (Props.run_ops cfg ops) w) !! key = Some r'
    /\ User.total_downloads r <= User.total_downloads r'
    /\ User.total_summaries r <= User.total_summaries r'.
Proof. intros H. exact (keeps_run_ops cfg ops w key r H). Qed.

(** The statement of C8 on a history of user 42 over two days. *)
Lemma lifetime_totals_monotone_witness :
  exists r',
    users (exec (Props.run_ops BotConfig.default
                   [(Samples.clock, Props.CanDownload 42);
                    (Samples.clock, Props.IncrementDownload 42);
                    (Samples.clock, Props.ResetDailyLimits 42);
                    (Samples.clock, Props.SubscribeUser 42 None);
                    (Samples.clock, Props.IncrementSummary 42);
                    (Samples.clock, Props.GetUser 7)])
             Samples.yesterday_world) !! "42" = Some r'
    /\ 7 <= User.total_downloads r'
    /\ 9 <= User.total_summaries r'.
Proof.
  apply (lifetime_totals_monotone BotConfig.default _ Samples.yesterday_world "42"
           (Samples.free_user 2 4 "2024-05-01")).
  reflexivity.
Defined.

(** ** The media pipeline *)

Section MediaFacts.
Variable clk : Clock.
Variable env : Env.
Import MediaDownloader Props.

(** The pipeline, step by step, from the world and the answers of
    yt-dlp. *)
Lemma download_youtube_video_unfold url uid fmt w :
  let user := eval (UserManager.get_user clk uid) w in
  let w0 := exec (UserManager.get_user clk uid) w in
  let max_file_size := if User.is_premium user then BotConfig.PREMIUM_MAX_FILE_SIZE
                       else BotConfig.FREE_MAX_FILE_SIZE in
  let audio := String.eqb fmt "audio" in
  let opts := if audio then audio_opts (User.is_premium user)
              else video_opts (User.is_premium user) in
  download_youtube_video clk env url uid fmt w
  = match ydl_enter (ydl env) opts with
    | Some e => (failed e, w0)
    | None =>
        match extract_info (ydl env) opts url with
        | inl e => (failed e, add_events w0 [YdlExtractInfo url])
        | inr info =>
            if over_limit (estimated_size info) max_file_size
            then (Failure (too_large_message (default 0 (estimated_size info))
                             (User.is_premium user) max_file_size),
                  add_events w0 [YdlExtractInfo url])
            else
              match download (ydl env) opts url with
              | Some e => (failed e, add_events w0 [YdlExtractInfo url; YdlDownload url])
              | None =>
                  (Success
                     (if audio
                      then rsplit_dot_head (prepare_filename (ydl env) opts info) +:+ ".mp3"
                      else prepare_filename (ydl env) opts info)
                     (dict_get_default (title info) "Unknown")
                     (dict_get_default (duration info) 0)
                     (dict_get_default (uploader info) "Unknown")
                     (result_description info),
                   add_events w0 [YdlExtractInfo url; YdlDownload url])
              end
        end
    end.
Proof.
  cbv zeta. unfold download_youtube_video, UserManager.get_max_file_size, bind.
  pose proof (get_user_again clk uid w) as E0. unfold eval, exec in *.
  destruct (UserManager.get_user clk uid w) as [user w0] eqn:E. simpl in *.
  rewrite E0. unfold ret. simpl.
  destruct (ydl_enter (ydl env) _); [reflexivity|].
  unfold emit, add_events. simpl.
  destruct (extract_info (ydl env) _ url) as [e|info]; [reflexivity|].
  destruct (over_limit (estimated_size info) _); [reflexivity|]. simpl.
  rewrite <- app_assoc. simpl.
  destruct (download (ydl env) _ url); reflexivity.
Qed.


Lemma no_size_not_truthy (f : Field Z) :
  no_size f -> truthy_int (dict_get f) = false.
Proof. intros [->|[->| ->]]; reflexivity. Qed.

Lemma no_size_estimate (info : Info) :
  no_size (filesize info) -> no_size (filesize_approx info) ->
  truthy_int (estimated_size info) = false.
Proof.
  intros H1 H2. unfold estimated_size, py_or.
  rewrite (no_size_not_truthy _ H1).
  destruct H2 as [->|[->| ->]]; reflexivity.
Qed.

Lemma length_result_description (info : Info) :
  (String.length (result_description info) <= 503)%nat.
Proof.
  unfold result_description.
  destruct (description info) as [| |d]; simpl; try lia.
  destruct (PyStr.is_empty d); simpl; [lia|].
  rewrite PyStrFacts.length_app, PyStrFacts.length_slice_to by lia.
  change (String.length "...") with 3%nat. lia.
Qed.

End MediaFacts.



(** C10. When yt-dlp resolves the metadata and neither [filesize] nor
    [filesize_approx] gives an estimate (each is missing, [None] or zero),
    no maximum file size makes the size check fire, and the pipeline goes
    on to the download: it adds the metadata request and the download to
    the trace, and its result is the one the download determines. *)
Theorem no_size_estimate_proceeds_to_download (clk : Clock) (env : Env)
    (url : string) (uid : Z) (fmt : string) (w : World) (info : Info) :
  let user := eval (UserManager.get_user clk uid) w in
  let premium := User.is_premium user in
  let audio := String.eqb fmt "audio" in
  let opts := if audio then MediaDownloader.audio_opts premium
              else MediaDownloader.video_opts premium in
  ydl_enter (ydl env) opts = None ->
  extract_info (ydl env) opts url = inr info ->
  Props.no_size (filesize info) ->
  Props.no_size (filesize_approx info) ->
  let w' := exec (MediaDownloader.download_youtube_video clk env url uid fmt) w in
  (forall max_file_size,
      MediaDownloader.over_limit (MediaDownloader.estimated_size info) max_file_size = false)
  /\ trace w' = (trace w ++ [YdlExtractInfo url; YdlDownload url])%list
  /\ eval (MediaDownloader.download_youtube_video clk env url uid fmt) w
     = match download (ydl env) opts url with
       | Some e => MediaDownloader.Failure ("Download failed: " +:+ e)
       | None =>
           MediaDownloader.Success
             (if audio
              then MediaDownloader.rsplit_dot_head (prepare_filename (ydl env) opts info)
                   +:+ ".mp3"
              else prepare_filename (ydl env) opts info)
             (dict_get_default (title info) "Unknown")
             (dict_get_default (duration info) 0)
             (dict_get_default (uploader info) "Unknown")
             (MediaDownloader.result_description info)
       end.
Proof.
  cbv zeta. intros Henter Hinfo Hsize Happrox.
  assert (Hover : forall m,
             MediaDownloader.over_limit (MediaDownloader.estimated_size info) m = false).
  { intros m. unfold MediaDownloader.over_limit.
    now rewrite (no_size_estimate info Hsize Happrox). }
  pose proof (download_youtube_video_unfold clk env url uid fmt w) as Hu.
  cbv zeta in Hu. rewrite Henter, Hinfo, Hover in Hu.
  set (dl := MediaDownloader.download_youtube_video clk env url uid fmt) in *.
  split; [exact Hover|].
  unfold eval at 1. unfold exec at 1. rewrite Hu.
  destruct (download (ydl env) _ url); simpl; rewrite get_user_trace; split; reflexivity.
Qed.

(** The statement of C10 for a free user and a video whose metadata has
    no size at all: the file is downloaded whatever its size. *)
Lemma no_size_estimate_proceeds_to_download_witness :
  let env := Samples.env_of (Samples.info_of Absent Null Absent) in
  let dl := MediaDownloader.download_youtube_video Samples.clock env
              "https://youtu.be/abc123" 42 "video" in
  trace (exec dl Samples.fresh_world)
  = [YdlExtractInfo "https://youtu.be/abc123"; YdlDownload "https://youtu.be/abc123"]
  /\ MediaDownloader.success (eval dl Samples.fresh_world) = true.
Proof.
  destruct (no_size_estimate_proceeds_to_download Samples.clock
              (Samples.env_of (Samples.info_of Absent Null Absent))
              "https://youtu.be/abc123" 42 "video" Samples.fresh_world
              (Samples.info_of Absent Null Absent))
    as (_ & Ht & Hr); try reflexivity.
  - left; reflexivity.
  - right; left; reflexivity.
  - split; [exact Ht | now rewrite Hr].
Defined.

(** C9 as stated fails: for a description of 600 characters the
    successful result carries a description of 503 characters. *)
Lemma description_longer_than_500 :
  let env := Samples.env_of (Samples.info_of Absent Absent (Val (Samples.chars "a" 600))) in
  exists filepath title duration uploader description,
    eval (MediaDownloader.download_youtube_video Samples.clock env
            "https://youtu.be/abc123" 42 "video") Samples.fresh_world
    = MediaDownloader.Success filepath title duration uploader description
    /\ String.length description = 503%nat
    /\ ~ (String.length description <= 500)%nat.
Proof.
  cbv zeta. do 5 eexists. split; [vm_compute; reflexivity|].
  split; [vm_compute; reflexivity|]. vm_compute. lia.
Qed.

(** C9, amended. A successful result carries the local path yt-dlp
    prepared for the artifact (with the extension replaced by [.mp3] for
    audio), the title, duration and uploader of the metadata (["Unknown"],
    0 and ["Unknown"] when the key is missing), and as description the
    first 500 characters of the metadata's description followed by
    ["..."], or the empty string when the metadata has no description or
    an empty one: at most 503 characters. *)
Theorem success_carries_metadata (clk : Clock) (env : Env) (url : string)
    (uid : Z) (fmt : string) (w : World)
    (filepath : string) (rtitle : option string) (rduration : option Z)
    (ruploader : option string) (rdescription : string) :
  eval (MediaDownloader.download_youtube_video clk env url uid fmt) w
  = MediaDownloader.Success filepath rtitle rduration ruploader rdescription ->
  let premium := User.is_premium (eval (UserManager.get_user clk uid) w) in
  let audio := String.eqb fmt "audio" in
  let opts := if audio then MediaDownloader.audio_opts premium
              else MediaDownloader.video_opts premium in
  exists info,
    extract_info (ydl env) opts url = inr info
    /\ download (ydl env) opts url = None
    /\ filepath = (if audio
                   then MediaDownloader.rsplit_dot_head
                          (prepare_filename (ydl env) opts info) +:+ ".mp3"
                   else prepare_filename (ydl env) opts info)
    /\ rtitle = dict_get_default (title info) "Unknown"
    /\ rduration = dict_get_default (duration info) 0
    /\ ruploader = dict_get_default (uploader info) "Unknown"
    /\ rdescription
       = match description info with
         | Val src => if PyStr.is_empty src then ""
                      else PyStr.take 500 src +:+ "..."
         | _ => ""
         end
    /\ (String.length rdescription <= 503)%nat.
Proof.
  intros Hres. cbv zeta.
  pose proof (download_youtube_video_unfold clk env url uid fmt w) as Hu.
  cbv zeta in Hu.
  set (dl := MediaDownloader.download_youtube_video clk env url uid fmt) in *.
  unfold eval at 1 in Hres. rewrite Hu in Hres. clear Hu.
  destruct (ydl_enter (ydl env) _); [discriminate|].
  destruct (extract_info (ydl env) _ url) as [e|info]; [discriminate|].
  destruct (MediaDownloader.over_limit _ _); [discriminate|].
  destruct (download (ydl env) _ url); [discriminate|].
  simpl in Hres. injection Hres as <- <- <- <- <-.
  exists info. repeat split.
  - unfold MediaDownloader.result_description.
    destruct (description info) as [| |src]; try reflexivity.
    simpl. now destruct (PyStr.is_empty src).
  - apply length_result_description.
Qed.

(** The statement of C9 (amended) on a description of 600 characters. *)
Lemma success_carries_metadata_witness :
  exists info,
    extract_info (ydl (Samples.env_of
                         (Samples.info_of Absent Absent (Val (Samples.chars "a" 600)))))
      (MediaDownloader.video_opts false) "https://youtu.be/abc123" = inr info
    /\ PyStr.take 500 (Samples.chars "a" 600) +:+ "..."
       = match description info with
         | Val src => if PyStr.is_empty src then "" else PyStr.take 500 src +:+ "..."
         | _ => ""
         end.
Proof.
  destruct (success_carries_metadata Samples.clock
              (Samples.env_of (Samples.info_of Absent Absent (Val (Samples.chars "a" 600))))
              "https://youtu.be/abc123" 42 "video" Samples.fresh_world
              "downloads/Clip_abc123.mp4" (Some "Clip") (Some 95) (Some "Channel")
              (PyStr.take 500 (Samples.chars "a" 600) +:+ "..."))
    as (info & Hi & _ & _ & _ & _ & _ & Hd & _).
  - vm_compute. reflexivity.
  - exists info. split; [exact Hi | exact Hd].
Defined.

(** ** The summarizer *)

(** C6 as stated fails: on four sentences of 150 characters the joined
    top three have 454 characters, more than the 300 of the free tier, and
    the returned summary has 304 characters, more than 300 plus the 3 of
    the ellipsis. *)
Lemma truncated_summary_exceeds_cap_plus_ellipsis :
  let text := Samples.long_text in
  let sentences := PyStr.split ". " text in
  (3 < length sentences)%nat
  /\ String.length (TextSummarizer.top_summary sentences) = 454%nat
  /\ exists summary,
       TextSummarizer.summarize_with_local_extraction text 300
       = TextSummarizer.Success summary
       /\ String.length summary = 304%nat
       /\ ~ (String.length summary <= 300 + String.length "...")%nat.
Proof.
  cbv zeta. split; [vm_compute; lia|]. split; [vm_compute; reflexivity|].
  eexists. split; [vm_compute; reflexivity|].
  split; [vm_compute; reflexivity|]. vm_compute. lia.
Qed.

(** C6, amended. For a text of more than three sentences whose joined top
    three sentences are longer than the output limit, the returned
    summary is the first [max_length] characters of the joined sentences,
    the ellipsis and a final period: its length is the limit plus the
    length of the ellipsis plus one. *)
Theorem local_extraction_truncated_length (text : string) (max_length : Z) :
  0 <= max_length ->
  (3 < length (PyStr.split ". " text))%nat ->
  max_length < Z.of_nat (String.length (TextSummarizer.top_summary (PyStr.split ". " text))) ->
  exists summary,
    TextSummarizer.summarize_with_local_extraction text max_length
    = TextSummarizer.Success summary
    /\ summary = PyStr.slice_to max_length
                   (TextSummarizer.top_summary (PyStr.split ". " text))
                 +:+ "..." +:+ "."
    /\ Z.of_nat (String.length summary)
       = max_length + Z.of_nat (String.length "...") + 1.
Proof.
  intros Hpos Hmany Hlong.
  unfold TextSummarizer.summarize_with_local_extraction.
  destruct (Nat.leb_spec (length (PyStr.split ". " text)) 3) as [Hle|_]; [lia|].
  destruct (Z.ltb_spec max_length
              (Z.of_nat (String.length
                           (TextSummarizer.top_summary (PyStr.split ". " text)))))
    as [_|Hge]; [|lia].
  eexists. split; [reflexivity|]. split.
  - apply PyStrFacts.app_assoc.
  - rewrite !PyStrFacts.length_app.
    rewrite Nat2Z.inj_add, Nat2Z.inj_add.
    rewrite PyStrFacts.length_slice_to_le by assumption.
    simpl. lia.
Qed.

(** The statement of C6 (amended) on four sentences of 150 characters
    and the limit of the free tier. *)
Lemma local_extraction_truncated_length_witness :
  exists summary,
    TextSummarizer.summarize_with_local_extraction Samples.long_text 300
    = TextSummarizer.Success summary
    /\ Z.of_nat (String.length summary) = 304.
Proof.
  destruct (local_extraction_truncated_length Samples.long_text 300)
    as (summary & Hs & _ & Hlen).
  - lia.
  - vm_compute. lia.
  - vm_compute. reflexivity.
  - exists summary. split; [exact Hs | exact Hlen].
Defined.

(** ** The router *)

Section RouterFacts.

Lemma prefix_app (p s : string) :
  String.prefix p s = true <-> exists post, s = p +:+ post.
Proof.
  revert s. induction p as [|a p IH]; intros s.
  - split; [intros _; now exists s|]. intros _. now destruct s.
  - destruct s as [|b s]; simpl.
    + split; [discriminate|]. intros [post H]. discriminate.
    + destruct (ascii_dec a b) as [->|Hne].
      * rewrite IH. split; intros [post H]; exists post.
        -- change (String b s = String b (p +:+ post)). now rewrite H.
        -- change (String b s = String b (p +:+ post)) in H. now injection H.
      * split; [discriminate|]. intros [post H].
        change (String b s = String a (p +:+ post)) in H. injection H as -> _.
        contradiction.
Qed.

(** [contains sub s] is the substring test. *)
Lemma contains_app (sub s : string) :
  PyStr.contains sub s = true <-> exists pre post, s = pre +:+ sub +:+ post.
Proof.
  induction s as [|c s IH].
  - change (PyStr.contains sub "")
      with (if String.prefix sub "" then true else false).
    destruct (String.prefix sub "") eqn:E.
    + split; [|reflexivity]. intros _. apply prefix_app in E as [post E].
      exists "", post. exact E.
    + split; [discriminate|]. intros (pre & post & H).
      destruct pre as [|x pre]; [|discriminate].
      assert (String.prefix sub "" = true) by (apply prefix_app; now exists post).
      congruence.
  - change (PyStr.contains sub (String c s))
      with (if String.prefix sub (String c s) then true else PyStr.contains sub s).
    destruct (String.prefix sub (String c s)) eqn:E.
    + split; [|reflexivity]. intros _. apply prefix_app in E as [post E].
      exists "", post. exact E.
    + rewrite IH. split.
      * intros (pre & post & H). exists (String c pre), post.
        change (String c s = String c (pre +:+ sub +:+ post)). now rewrite H.
      * intros (pre & post & H). destruct pre as [|x pre].
        -- assert (String.prefix sub (String c s) = true)
             by (apply prefix_app; now exists post).
           congruence.
        -- change (String c s = String x (pre +:+ sub +:+ post)) in H.
           injection H as _ ->. now exists pre, post.
Qed.

Lemma is_youtube_spec (url : string) :
  Handlers.is_youtube url = true
  <-> exists d pre post,
        In d Handlers.youtube_domains /\ PyStr.lower url = pre +:+ d +:+ post.
Proof.
  unfold Handlers.is_youtube. rewrite existsb_exists. split.
  - intros (d & Hd & Hc). apply contains_app in Hc as (pre & post & H).
    now exists d, pre, post.
  - intros (d & pre & post & Hd & H). exists d. split; [exact Hd|].
    apply contains_app. now exists pre, post.
Qed.

End RouterFacts.

(** C7 as stated fails: the URL below has the host [example.com], which
    contains none of the markers, and the router classifies it as media
    because a marker occurs in its path. *)
Lemma media_marker_outside_host :
  let url := "https://example.com/watch/YouTube.com" in
  Spec.host url = "example.com"
  /\ Forall (fun d => PyStr.contains d (PyStr.lower (Spec.host url)) = false)
       Handlers.youtube_domains
  /\ Spec.classify url = Article
  /\ Handlers.classify url = Media
  /\ Handlers.classify url <> Spec.classify url.
Proof.
  cbv zeta. split; [reflexivity|]. split; [repeat constructor|].
  split; [reflexivity|]. split; [reflexivity|]. discriminate.
Qed.

(** C7, amended. The router classifies a URL as media exactly when the
    lower-cased text of the whole URL (not only its host) contains one of
    the four markers as a substring, and as an article otherwise; for a
    subscribed user [handle_url] hands the URL to the download handler in
    the first case and to the summary handler in the second. In particular
    [https://youtu.be/abc123] is media and [https://example.com/news/story]
    is an article. *)
Theorem classify_by_substring (cfg : BotConfig.t) (clk : Clock) (env : Env)
    (update : Update) (w : World) (url : string) :
  eval (UserManager.is_subscribed clk (effective_user_id update)) w = true ->
  (Handlers.classify url = Media
   <-> exists d pre post,
         In d ["youtube.com"; "youtu.be"; "m.youtube.com"; "youtube.be"]
         /\ PyStr.lower url = pre +:+ d +:+ post)
  /\ (Handlers.classify url = Article
      <-> ~ exists d pre post,
              In d ["youtube.com"; "youtu.be"; "m.youtube.com"; "youtube.be"]
              /\ PyStr.lower url = pre +:+ d +:+ post)
  /\ Handlers.handle_url cfg clk env update w
     = match Handlers.classify (Handlers.extract_url update) with
       | Media => Handlers.handle_youtube_download cfg clk env update
                    (Handlers.extract_url update) w
       | Article => Handlers.handle_article_summary cfg clk env update
                      (Handlers.extract_url update) w
       end
  /\ Handlers.classify "https://youtu.be/abc123" = Media
  /\ Handlers.classify "https://example.com/news/story" = Article.
Proof.
  intros Hsub.
  pose proof (is_youtube_spec url) as Hy. unfold Handlers.classify.
  split; [|split; [|split; [|split; reflexivity]]].
  - rewrite <- Hy. destruct (Handlers.is_youtube url); split; congruence.
  - rewrite <- Hy. destruct (Handlers.is_youtube url); split; congruence.
  - unfold Handlers.handle_url, bind.
    unfold eval, UserManager.is_subscribed, bind, ret in *.
    destruct (UserManager.get_user clk (effective_user_id update) w) as [u w0] eqn:E.
    simpl in Hsub. rewrite Hsub. simpl.
    assert (w0 = w) as ->.
    { unfold UserManager.get_user in E.
      destruct (users w !! UserManager.key_of (effective_user_id update)) eqn:El.
      - now injection E.
      - injection E as <- _. discriminate. }
    now destruct (Handlers.is_youtube (Handlers.extract_url update)).
Qed.

(** The statement of C7 (amended) for a subscribed user who sends the
    media URL of the specification. *)
Lemma classify_by_substring_witness :
  Handlers.handle_url BotConfig.default Samples.clock
    (Samples.env_of (Samples.info_of Absent Absent Absent))
    (Samples.update_of 42 "https://youtu.be/abc123") Samples.fresh_world
  = Handlers.handle_youtube_download BotConfig.default Samples.clock
      (Samples.env_of (Samples.info_of Absent Absent Absent))
      (Samples.update_of 42 "https://youtu.be/abc123")
      "https://youtu.be/abc123" Samples.fresh_world.
Proof.
  destruct (classify_by_substring BotConfig.default Samples.clock
              (Samples.env_of (Samples.info_of Absent Absent Absent))
              (Samples.update_of 42 "https://youtu.be/abc123") Samples.fresh_world
              "https://youtu.be/abc123")
    as (_ & _ & Hd & _).
  - reflexivity.
  - exact Hd.
Defined.

(** ** The handlers *)

Section TraceFacts.
Import Props.

Lemma only_after_nil a b : only_after a b [].
Proof. intros [|x pre] post H; discriminate. Qed.

Lemma only_after_cons_ne a b e l :
  e <> b -> only_after a b l -> only_after a b (e :: l).
Proof.
  intros Hne Hl [|x pre] post H; simpl in H.
  - injection H as -> _. contradiction.
  - injection H as -> H. right. exact (Hl pre post H).
Qed.

Lemma only_after_cons_earlier a b l : a <> b -> only_after a b (a :: l).
Proof.
  intros Hne [|x pre] post H; simpl in H.
  - injection H as -> _. contradiction.
  - injection H as -> _. now left.
Qed.

Lemma only_after_app_ne a b l1 l2 :
  Forall (fun e => e <> b) l1 -> only_after a b l2 -> only_after a b (l1 ++ l2).
Proof.
  induction 1 as [|e l1 He _ IH]; intros H2; simpl; [exact H2|].
  apply only_after_cons_ne; auto.
Qed.

Lemma pipeline_io_ne (b : Event) (l : list Event) :
  ~ pipeline_io b -> Forall pipeline_io l -> Forall (fun e => e <> b) l.
Proof.
  intros Hb Hl. induction Hl as [|e l He _ IH]; constructor; [|exact IH].
  intros ->. contradiction.
Qed.

End TraceFacts.

Section PipelineFacts.
Variable clk : Clock.
Variable env : Env.
Import Props.

(** On a world that holds a record for the caller, the media pipeline
    only adds input and output events. *)
Lemma download_youtube_video_effect url uid fmt w u :
  users w !! UserManager.key_of uid = Some u ->
  exists pevs,
    exec (MediaDownloader.download_youtube_video clk env url uid fmt) w
    = add_events w pevs
    /\ Forall pipeline_io pevs.
Proof.
  intros E.
  pose proof (download_youtube_video_unfold clk env url uid fmt w) as Hu.
  cbv zeta in Hu. unfold exec at 1.
  replace (exec (UserManager.get_user clk uid) w) with w in Hu
    by (unfold exec; now rewrite (get_user_present clk uid w u E)).
  rewrite Hu. clear Hu.
  destruct (ydl_enter (ydl env) _).
  { exists []. split; [|constructor]. destruct w; unfold add_events; simpl.
    now rewrite app_nil_r. }
  destruct (extract_info (ydl env) _ url) as [e|info].
  { eexists. split; [reflexivity|]. repeat constructor. }
  destruct (MediaDownloader.over_limit _ _).
  { eexists. split; [reflexivity|]. repeat constructor. }
  destruct (download (ydl env) _ url);
    (eexists; split; [reflexivity|]; repeat constructor).
Qed.

(** The summary pipeline adds the page request and nothing else. *)
Lemma summarize_url_effect url uid w u :
  users w !! UserManager.key_of uid = Some u ->
  exec (TextSummarizer.summarize_url clk env url uid) w
  = add_events w [HttpGet url].
Proof.
  intros E. unfold exec, TextSummarizer.summarize_url, bind.
  rewrite (get_user_present clk uid w u E). unfold emit, ret. simpl.
  destruct (http_get env url) as [|status ps body]; [reflexivity|].
  destruct (negb (status =? 200)); [reflexivity|].
  match goal with |- context [if ?c then _ else _] => destruct c end; reflexivity.
Qed.

End PipelineFacts.

Section HandlerFacts.
Variable cfg : BotConfig.t.
Variable clk : Clock.
Variable env : Env.
Import Props.
Local Open Scope list_scope.

Lemma exec_emit e w : exec (emit e) w = add_events w [e].
Proof. reflexivity. Qed.

Lemma usage_add_events w evs uid : usage (add_events w evs) uid = usage w uid.
Proof. reflexivity. Qed.

Lemma deliver_video_effect filepath duration w :
  exists devs,
    exec (Handlers.deliver_video env filepath duration) w = add_events w devs.
Proof.
  unfold Handlers.deliver_video.
  destruct duration; [destruct (send_video_ok env filepath)|];
    eexists; unfold exec, bind, emit, add_events; simpl;
    try rewrite <- app_assoc; reflexivity.
Qed.

Lemma usage_increment_download uid w u :
  users w !! UserManager.key_of uid = Some u ->
  usage (exec (UserManager.increment_download clk uid) w) uid
  = bump Media (usage w uid).
Proof.
  intros E. unfold UserManager.increment_download, exec, bind.
  rewrite (get_user_present clk uid w u E). unfold usage. simpl.
  rewrite lookup_alter, decide_True by reflexivity. now rewrite E.
Qed.

Lemma usage_increment_summary uid w u :
  users w !! UserManager.key_of uid = Some u ->
  usage (exec (UserManager.increment_summary clk uid) w) uid
  = bump Article (usage w uid).
Proof.
  intros E. unfold UserManager.increment_summary, exec, bind.
  rewrite (get_user_present clk uid w u E). unfold usage. simpl.
  rewrite lookup_alter, decide_True by reflexivity. now rewrite E.
Qed.

Lemma trace_increment_download uid w :
  trace (exec (UserManager.increment_download clk uid) w) = trace w.
Proof.
  unfold UserManager.increment_download, exec, bind.
  pose proof (get_user_trace clk uid w) as Ht. unfold exec in Ht.
  destruct (UserManager.get_user clk uid w) as [u w0]. simpl in *. exact Ht.
Qed.

Lemma trace_increment_summary uid w :
  trace (exec (UserManager.increment_summary clk uid) w) = trace w.
Proof.
  unfold UserManager.increment_summary, exec, bind.
  pose proof (get_user_trace clk uid w) as Ht. unfold exec in Ht.
  destruct (UserManager.get_user clk uid w) as [u w0]. simpl in *. exact Ht.
Qed.

Lemma present_increment_download uid w u :
  users w !! UserManager.key_of uid = Some u ->
  users (exec (UserManager.increment_download clk uid) w) !! UserManager.key_of uid
  = Some (UserManager.add_download u).
Proof.
  intros E. unfold UserManager.increment_download, exec, bind.
  rewrite (get_user_present clk uid w u E). simpl.
  rewrite lookup_alter, decide_True by reflexivity. now rewrite E.
Qed.

Lemma present_increment_summary uid w u :
  users w !! UserManager.key_of uid = Some u ->
  users (exec (UserManager.increment_summary clk uid) w) !! UserManager.key_of uid
  = Some (UserManager.add_summary u).
Proof.
  intros E. unfold UserManager.increment_summary, exec, bind.
  rewrite (get_user_present clk uid w u E). simpl.
  rewrite lookup_alter, decide_True by reflexivity. now rewrite E.
Qed.

Lemma media_allowed update url w wg ug :
  UserManager.can_download cfg clk (effective_user_id update) w = (true, wg) ->
  users wg !! UserManager.key_of (effective_user_id update) = Some ug ->
  trace wg = trace w ->
  let uid := effective_user_id update in
  let w' := exec (Handlers.handle_youtube_download cfg clk env update url) w in
  exists evs,
    trace w' = (trace w ++ evs)%list
    /\ only_after (GateChecked Media uid true) (PipelineCalled Media uid url) evs
    /\ only_after (PipelineReturned Media uid true) (Incremented Media uid) evs
    /\ (In (PipelineReturned Media uid true) evs ->
        usage w' uid = bump Media (usage wg uid))
    /\ (~ In (PipelineReturned Media uid true) evs -> usage w' uid = usage wg uid).
Proof.
  intros Hgate Hug Htr. cbv zeta.
  unfold Handlers.handle_youtube_download, exec at 1 2 3, bind.
  rewrite Hgate. simpl.
  set (uid := effective_user_id update) in *.
  match goal with |- context [MediaDownloader.download_youtube_video _ _ _ _ _ ?x] =>
    set (w1 := x) end.
  assert (Hw1 : users w1 !! UserManager.key_of uid = Some ug) by exact Hug.
  destruct (download_youtube_video_effect clk env url uid "video" w1 ug Hw1)
    as (pevs & Hp & Hio).
  unfold exec in Hp.
  destruct (MediaDownloader.download_youtube_video clk env url uid "video" w1)
    as [res wp]. simpl in Hp. subst wp.
  assert (Hne1 : Forall (fun e => e <> Incremented Media uid) pevs)
    by (apply pipeline_io_ne; [intros [] | exact Hio]).
  assert (Hne2 : ~ In (PipelineReturned Media uid true) pevs).
  { intros Hin. rewrite Forall_forall in Hio.
    apply list_elem_of_In in Hin. exact (Hio _ Hin). }
  destruct res as [filepath rtitle rduration ruploader rdescr | error].
  - (* the pipeline reports success *)
    match goal with |- context [UserManager.increment_download _ _ ?x] =>
      set (w2 := x) end.
    assert (Hw2 : users w2 !! UserManager.key_of uid = Some ug) by exact Hug.
    pose proof (usage_increment_download uid w2 ug Hw2) as Hus.
    pose proof (trace_increment_download uid w2) as Hti.
    pose proof (present_increment_download uid w2 ug Hw2) as Hpi.
    unfold exec in Hus, Hti, Hpi.
    destruct (UserManager.increment_download clk uid w2) as [[] wi].
    simpl in Hus, Hti, Hpi.
    erewrite get_user_present by (simpl; exact Hpi).
    match goal with |- context [Handlers.deliver_video _ _ _ ?x] =>
      set (w3 := x) end.
    destruct (deliver_video_effect filepath rduration w3) as (devs & Hd).
    unfold exec in Hd.
    destruct (Handlers.deliver_video env filepath rduration w3) as [[] wd].
    simpl in Hd. subst wd. simpl.
    exists ([GateChecked Media uid true; ReplyText ProcessingVideo;
             PipelineCalled Media uid url] ++ pevs
            ++ [PipelineReturned Media uid true; Incremented Media uid]
            ++ devs ++ [DeleteProcessing]).
    split; [|split; [|split; [|split]]].
    + rewrite Hti. subst w2 w1. simpl. rewrite Htr.
      rewrite <- !app_assoc. reflexivity.
    + apply only_after_cons_earlier. discriminate.
    + apply (only_after_app_ne _ _ [_; _; _]); [repeat constructor; discriminate|].
      apply only_after_app_ne; [exact Hne1|].
      apply only_after_cons_earlier. discriminate.
    + intros _. unfold usage in *. simpl. exact Hus.
    + intros Hnot. exfalso. apply Hnot.
      apply in_or_app. right. apply in_or_app. right. now left.
  - (* the pipeline reports a failure *)
    simpl.
    exists ([GateChecked Media uid true; ReplyText ProcessingVideo;
             PipelineCalled Media uid url] ++ pevs
            ++ [PipelineReturned Media uid false;
                ReplyText (DownloadFailed error); DeleteProcessing]).
    split; [|split; [|split; [|split]]].
    + subst w1. simpl. rewrite Htr. rewrite <- !app_assoc. reflexivity.
    + apply only_after_cons_earlier. discriminate.
    + apply (only_after_app_ne _ _ [_; _; _]); [repeat constructor; discriminate|].
      apply only_after_app_ne; [exact Hne1|].
      repeat (apply only_after_cons_ne; [discriminate|]). apply only_after_nil.
    + intros Hin. exfalso.
      apply in_app_or in Hin as [Hin|Hin].
      * simpl in Hin. intuition discriminate.
      * apply in_app_or in Hin as [Hin|Hin]; [exact (Hne2 Hin)|].
        simpl in Hin. intuition discriminate.
    + intros _. reflexivity.
Qed.

Lemma article_allowed update url w wg ug :
  UserManager.can_summarize cfg clk (effective_user_id update) w = (true, wg) ->
  users wg !! UserManager.key_of (effective_user_id update) = Some ug ->
  trace wg = trace w ->
  let uid := effective_user_id update in
  let w' := exec (Handlers.handle_article_summary cfg clk env update url) w in
  exists evs,
    trace w' = (trace w ++ evs)%list
    /\ only_after (GateChecked Article uid true) (PipelineCalled Article uid url) evs
    /\ only_after (PipelineReturned Article uid true) (Incremented Article uid) evs
    /\ (In (PipelineReturned Article uid true) evs ->
        usage w' uid = bump Article (usage wg uid))
    /\ (~ In (PipelineReturned Article uid true) evs -> usage w' uid = usage wg uid).
Proof.
  intros Hgate Hug Htr. cbv zeta.
  unfold Handlers.handle_article_summary, exec at 1 2 3, bind.
  rewrite Hgate. simpl.
  set (uid := effective_user_id update) in *.
  match goal with |- context [TextSummarizer.summarize_url _ _ _ _ ?x] =>
    set (w1 := x) end.
  assert (Hw1 : users w1 !! UserManager.key_of uid = Some ug) by exact Hug.
  pose proof (summarize_url_effect clk env url uid w1 ug Hw1) as Hp.
  set (pevs := [HttpGet url]) in Hp.
  assert (Hio : Forall pipeline_io pevs) by (repeat constructor).
  clearbody pevs.
  unfold exec in Hp.
  destruct (TextSummarizer.summarize_url clk env url uid w1)
    as [res wp]. simpl in Hp. subst wp.
  assert (Hne1 : Forall (fun e => e <> Incremented Article uid) pevs)
    by (apply pipeline_io_ne; [intros [] | exact Hio]).
  assert (Hne2 : ~ In (PipelineReturned Article uid true) pevs).
  { intros Hin. rewrite Forall_forall in Hio.
    apply list_elem_of_In in Hin. exact (Hio _ Hin). }
  destruct res as [summary | error].
  - (* the pipeline reports success *)
    match goal with |- context [UserManager.increment_summary _ _ ?x] =>
      set (w2 := x) end.
    assert (Hw2 : users w2 !! UserManager.key_of uid = Some ug) by exact Hug.
    pose proof (usage_increment_summary uid w2 ug Hw2) as Hus.
    pose proof (trace_increment_summary uid w2) as Hti.
    pose proof (present_increment_summary uid w2 ug Hw2) as Hpi.
    unfold exec in Hus, Hti, Hpi.
    destruct (UserManager.increment_summary clk uid w2) as [[] wi].
    simpl in Hus, Hti, Hpi.
    erewrite get_user_present by (simpl; exact Hpi).
    simpl. set (devs := [ReplyText (ArticleSummary url summary)]).
    exists ([GateChecked Article uid true; ReplyText AnalyzingArticle;
             PipelineCalled Article uid url] ++ pevs
            ++ [PipelineReturned Article uid true; Incremented Article uid]
            ++ devs ++ [DeleteProcessing]).
    split; [|split; [|split; [|split]]].
    + rewrite Hti. subst w2 w1. simpl. rewrite Htr.
      rewrite <- !app_assoc. reflexivity.
    + apply only_after_cons_earlier. discriminate.
    + apply (only_after_app_ne _ _ [_; _; _]); [repeat constructor; discriminate|].
      apply only_after_app_ne; [exact Hne1|].
      apply only_after_cons_earlier. discriminate.
    + intros _. unfold usage in *. simpl. exact Hus.
    + intros Hnot. exfalso. apply Hnot.
      apply in_or_app. right. apply in_or_app. right. now left.
  - (* the pipeline reports a failure *)
    simpl.
    exists ([GateChecked Article uid true; ReplyText AnalyzingArticle;
             PipelineCalled Article uid url] ++ pevs
            ++ [PipelineReturned Article uid false;
                ReplyText (SummarizationFailed error); DeleteProcessing]).
    split; [|split; [|split; [|split]]].
    + subst w1. simpl. rewrite Htr. rewrite <- !app_assoc. reflexivity.
    + apply only_after_cons_earlier. discriminate.
    + apply (only_after_app_ne _ _ [_; _; _]); [repeat constructor; discriminate|].
      apply only_after_app_ne; [exact Hne1|].
      repeat (apply only_after_cons_ne; [discriminate|]). apply only_after_nil.
    + intros Hin. exfalso.
      apply in_app_or in Hin as [Hin|Hin].
      * simpl in Hin. intuition discriminate.
      * apply in_app_or in Hin as [Hin|Hin]; [exact (Hne2 Hin)|].
        simpl in Hin. intuition discriminate.
    + intros _. reflexivity.
Qed.


Lemma media_blocked update url w wg ug :
  UserManager.can_download cfg clk (effective_user_id update) w = (false, wg) ->
  users wg !! UserManager.key_of (effective_user_id update) = Some ug ->
  exec (Handlers.handle_youtube_download cfg clk env update url) w
  = add_events wg
      [GateChecked Media (effective_user_id update) false;
       ReplyText (DownloadLimitReached
                    (if User.is_premium ug then BotConfig.MAX_PREMIUM_DOWNLOADS
                     else BotConfig.MAX_FREE_DOWNLOADS cfg))].
Proof.
  intros Hgate Hug.
  unfold Handlers.handle_youtube_download, exec, bind.
  rewrite Hgate. simpl.
  erewrite get_user_present by (simpl; exact Hug).
  unfold emit, add_events. simpl. now rewrite <- app_assoc.
Qed.

Lemma article_blocked update url w wg ug :
  UserManager.can_summarize cfg clk (effective_user_id update) w = (false, wg) ->
  users wg !! UserManager.key_of (effective_user_id update) = Some ug ->
  exec (Handlers.handle_article_summary cfg clk env update url) w
  = add_events wg
      [GateChecked Article (effective_user_id update) false;
       ReplyText (SummaryLimitReached
                    (if User.is_premium ug then BotConfig.MAX_PREMIUM_SUMMARIES
                     else BotConfig.MAX_FREE_SUMMARIES cfg))].
Proof.
  intros Hgate Hug.
  unfold Handlers.handle_article_summary, exec, bind.
  rewrite Hgate. simpl.
  erewrite get_user_present by (simpl; exact Hug).
  unfold emit, add_events. simpl. now rewrite <- app_assoc.
Qed.


(** What the gate leaves: a record for the caller, the same trace, and,
    when it refuses under a positive free limit, the same counters. *)
Lemma can_download_after uid w :
  0 < BotConfig.MAX_FREE_DOWNLOADS cfg ->
  exists ug,
    users (exec (UserManager.can_download cfg clk uid) w) !! UserManager.key_of uid
    = Some ug
    /\ trace (exec (UserManager.can_download cfg clk uid) w) = trace w
    /\ (eval (UserManager.can_download cfg clk uid) w = false ->
        usage (exec (UserManager.can_download cfg clk uid) w) uid = usage w uid).
Proof.
  intros Hpos. unfold eval, exec.
  destruct (users w !! UserManager.key_of uid) as [u|] eqn:E.
  - rewrite (can_download_present cfg clk uid w u E).
    destruct (User.is_subscribed u).
    + rewrite (reset_daily_limits_present clk uid w u E).
      destruct (String.eqb (User.last_reset u) (today clk)); simpl.
      * exists u. repeat split. exact E.
      * exists (UserManager.reset_counters clk u). split; [apply lookup_insert_eq|].
        split; [reflexivity|]. intros Hf. exfalso.
        destruct (User.is_premium u); [discriminate|].
        apply Z.ltb_ge in Hf. lia.
    + exists u. repeat split. exact E.
  - rewrite (can_download_absent cfg clk uid w E). simpl.
    exists (UserManager.new_user clk). split; [|split].
    + unfold exec. rewrite (get_user_absent clk uid w E). simpl.
      apply lookup_insert_eq.
    + apply get_user_trace.
    + intros _. unfold usage, exec. rewrite (get_user_absent clk uid w E). simpl.
      rewrite lookup_insert_eq, E. reflexivity.
Qed.

(** What the gate leaves: a record for the caller, the same trace, and,
    when it refuses under a positive free limit, the same counters. *)
Lemma can_summarize_after uid w :
  0 < BotConfig.MAX_FREE_SUMMARIES cfg ->
  exists ug,
    users (exec (UserManager.can_summarize cfg clk uid) w) !! UserManager.key_of uid
    = Some ug
    /\ trace (exec (UserManager.can_summarize cfg clk uid) w) = trace w
    /\ (eval (UserManager.can_summarize cfg clk uid) w = false ->
        usage (exec (UserManager.can_summarize cfg clk uid) w) uid = usage w uid).
Proof.
  intros Hpos. unfold eval, exec.
  destruct (users w !! UserManager.key_of uid) as [u|] eqn:E.
  - rewrite (can_summarize_present cfg clk uid w u E).
    destruct (User.is_subscribed u).
    + rewrite (reset_daily_limits_present clk uid w u E).
      destruct (String.eqb (User.last_reset u) (today clk)); simpl.
      * exists u. repeat split. exact E.
      * exists (UserManager.reset_counters clk u). split; [apply lookup_insert_eq|].
        split; [reflexivity|]. intros Hf. exfalso.
        destruct (User.is_premium u); [discriminate|].
        apply Z.ltb_ge in Hf. lia.
    + exists u. repeat split. exact E.
  - rewrite (can_summarize_absent cfg clk uid w E). simpl.
    exists (UserManager.new_user clk). split; [|split].
    + unfold exec. rewrite (get_user_absent clk uid w E). simpl.
      apply lookup_insert_eq.
    + apply get_user_trace.
    + intros _. unfold usage, exec. rewrite (get_user_absent clk uid w E). simpl.
      rewrite lookup_insert_eq, E. reflexivity.
Qed.

Lemma handle_youtube_download_gated update url w :
  0 < BotConfig.MAX_FREE_DOWNLOADS cfg ->
  gated Media (effective_user_id update) url
    (UserManager.can_download cfg clk (effective_user_id update))
    (Handlers.handle_youtube_download cfg clk env update url) w.
Proof.
  intros Hpos. unfold gated.
  destruct (can_download_after (effective_user_id update) w Hpos)
    as (ug & Hug & Htr & Hsame).
  unfold eval, exec in Hug, Htr, Hsame |- *.
  destruct (UserManager.can_download cfg clk (effective_user_id update) w)
    as [allowed wg] eqn:Hgate.
  simpl in Hug, Htr, Hsame |- *.
  destruct allowed.
  - destruct (media_allowed update url w wg ug Hgate Hug Htr)
      as (evs & Ht & Ho1 & Ho2 & Hyes & Hno).
    exists evs. unfold exec in Ht, Hyes, Hno.
    split; [exact Ht|]. split; [discriminate|].
    split; [exact Ho1|]. split; [exact Ho2|]. split; [exact Hyes | exact Hno].
  - pose proof (media_blocked update url w wg ug Hgate Hug) as Hb.
    unfold exec in Hb. rewrite Hb.
    eexists. split; [simpl; rewrite Htr; reflexivity|].
    split; [intros _; split; [eexists; reflexivity | exact (Hsame eq_refl)]|].
    split; [repeat (apply only_after_cons_ne; [discriminate|]); apply only_after_nil|].
    split; [repeat (apply only_after_cons_ne; [discriminate|]); apply only_after_nil|].
    split; [|reflexivity].
    intros Hin. exfalso. simpl in Hin. intuition discriminate.
Qed.

Lemma handle_article_summary_gated update url w :
  0 < BotConfig.MAX_FREE_SUMMARIES cfg ->
  gated Article (effective_user_id update) url
    (UserManager.can_summarize cfg clk (effective_user_id update))
    (Handlers.handle_article_summary cfg clk env update url) w.
Proof.
  intros Hpos. unfold gated.
  destruct (can_summarize_after (effective_user_id update) w Hpos)
    as (ug & Hug & Htr & Hsame).
  unfold eval, exec in Hug, Htr, Hsame |- *.
  destruct (UserManager.can_summarize cfg clk (effective_user_id update) w)
    as [allowed wg] eqn:Hgate.
  simpl in Hug, Htr, Hsame |- *.
  destruct allowed.
  - destruct (article_allowed update url w wg ug Hgate Hug Htr)
      as (evs & Ht & Ho1 & Ho2 & Hyes & Hno).
    exists evs. unfold exec in Ht, Hyes, Hno.
    split; [exact Ht|]. split; [discriminate|].
    split; [exact Ho1|]. split; [exact Ho2|]. split; [exact Hyes | exact Hno].
  - pose proof (article_blocked update url w wg ug Hgate Hug) as Hb.
    unfold exec in Hb. rewrite Hb.
    eexists. split; [simpl; rewrite Htr; reflexivity|].
    split; [intros _; split; [eexists; reflexivity | exact (Hsame eq_refl)]|].
    split; [repeat (apply only_after_cons_ne; [discriminate|]); apply only_after_nil|].
    split; [repeat (apply only_after_cons_ne; [discriminate|]); apply only_after_nil|].
    split; [|reflexivity].
    intros Hin. exfalso. simpl in Hin. intuition discriminate.
Qed.

End HandlerFacts.



(** The end-to-end scenario of the specification: the free user at the
    limit sends a media URL; the handler refuses and replies, and nothing
    else happens. *)
Example blocked_media_request :
  let env := Samples.env_of (Samples.info_of Absent Absent Absent) in
  let update := Samples.update_of 42 "https://youtu.be/abc123" in
  let w' := exec (Handlers.handle_url BotConfig.default Samples.clock env update)
              Samples.exhausted_world in
  trace w' = [GateChecked Media 42 false; ReplyText (DownloadLimitReached 3)]
  /\ users w' = users Samples.exhausted_world.
Proof. split; reflexivity. Qed.

(** A request that passes the gate on a new day: the counters are reset,
    the video is downloaded and the download is counted. *)
Example allowed_media_request :
  let env := Samples.env_of (Samples.info_of Absent Absent Absent) in
  let update := Samples.update_of 42 "https://youtu.be/abc123" in
  let w' := exec (Handlers.handle_url BotConfig.default Samples.clock env update)
              Samples.yesterday_world in
  trace w'
  = [GateChecked Media 42 true; ReplyText ProcessingVideo;
     PipelineCalled Media 42 "https://youtu.be/abc123";
     YdlExtractInfo "https://youtu.be/abc123";
     YdlDownload "https://youtu.be/abc123";
     PipelineReturned Media 42 true; Incremented Media 42;
     ReplyVideo "downloads/Clip_abc123.mp4"; RemoveFile "downloads/Clip_abc123.mp4";
     DeleteProcessing]
  /\ Props.usage w' 42 = (1, 0, 8, 9).
Proof. split; reflexivity. Qed.

(** * Further properties of the code *)

(** ** The user manager *)

Section MoreUserManagerFacts.
Variable cfg : BotConfig.t.
Variable clk : Clock.
Implicit Types (w : World) (uid : Z).

(** The three steps shared by [subscribe_user], [upgrade_to_premium],
    [increment_download] and [increment_summary]. *)
Lemma modify_and_save uid (f : User.t -> User.t) w :
  exec (bind (UserManager.get_user clk uid)
          (fun _ => bind (UserManager.update_user uid f)
                      (fun _ => UserManager.save_user_data))) w
  = Facts.saved_with clk uid f w.
Proof.
  unfold Facts.saved_with, exec, eval, bind, UserManager.get_user.
  destruct (users w !! UserManager.key_of uid) as [u|] eqn:E; simpl.
  - assert (Ha : alter f (UserManager.key_of uid) (users w)
                 = <[UserManager.key_of uid := f u]> (users w)).
    { apply map_eq. intros k. rewrite lookup_alter, lookup_insert.
      destruct (decide (UserManager.key_of uid = k)) as [<-|]; [now rewrite E|reflexivity]. }
    now rewrite Ha.
  - assert (Ha : alter f (UserManager.key_of uid)
                   (<[UserManager.key_of uid := UserManager.new_user clk]> (users w))
                 = <[UserManager.key_of uid := f (UserManager.new_user clk)]> (users w)).
    { apply map_eq. intros k. rewrite lookup_alter, !lookup_insert.
      destruct (decide (UserManager.key_of uid = k)) as [<-|]; [|reflexivity].
      now rewrite decide_True by reflexivity. }
    now rewrite Ha.
Qed.

Lemma increment_download_saved uid w :
  exec (UserManager.increment_download clk uid) w
  = Facts.saved_with clk uid UserManager.add_download w.
Proof. apply modify_and_save. Qed.

Lemma increment_summary_saved uid w :
  exec (UserManager.increment_summary clk uid) w
  = Facts.saved_with clk uid UserManager.add_summary w.
Proof. apply modify_and_save. Qed.

Lemma subscribe_user_saved uid c w :
  exec (UserManager.subscribe_user clk uid c) w
  = Facts.saved_with clk uid (UserManager.set_subscribed clk c) w.
Proof. apply modify_and_save. Qed.

Lemma upgrade_to_premium_saved uid w :
  exec (UserManager.upgrade_to_premium clk uid) w
  = Facts.saved_with clk uid (UserManager.set_premium clk) w.
Proof. apply modify_and_save. Qed.

Lemma saved_with_lookup uid f w :
  users (Facts.saved_with clk uid f w) !! UserManager.key_of uid
  = Some (f (eval (UserManager.get_user clk uid) w)).
Proof. unfold Facts.saved_with. simpl. apply lookup_insert_eq. Qed.

Lemma saved_with_other uid f w key :
  key <> UserManager.key_of uid ->
  users (Facts.saved_with clk uid f w) !! key = users w !! key.
Proof. intros H. unfold Facts.saved_with. simpl. now rewrite lookup_insert_ne. Qed.

End MoreUserManagerFacts.

(** X1. [can_summarize] has the shape of [can_download]: false for an
    unsubscribed record; otherwise it leaves the world
    [reset_daily_limits] leaves and is true exactly when the
    [summaries_today] of the record after that reset is strictly below
    the limit of the tier (5 by default for free users, 50 for premium
    users); its value does not depend on [downloads_today]. *)
Theorem can_summarize_gate (cfg : BotConfig.t) (clk : Clock) (uid : Z) (w : World) :
  let user := eval (UserManager.get_user clk uid) w in
  let after_reset := exec (UserManager.reset_daily_limits clk uid) w in
  let user' := eval (UserManager.get_user clk uid) after_reset in
  UserManager.can_summarize cfg clk uid w
  = (if User.is_subscribed user
     then (User.summaries_today user' <? Facts.summary_limit cfg user', after_reset)
     else (false, exec (UserManager.get_user clk uid) w))
  /\ (forall n, eval (UserManager.can_summarize cfg clk uid)
                  (Facts.set_downloads_today n uid w)
                = eval (UserManager.can_summarize cfg clk uid) w)
  /\ BotConfig.MAX_FREE_SUMMARIES BotConfig.default = 5
  /\ BotConfig.MAX_PREMIUM_SUMMARIES = 50.
Proof.
  cbv zeta. unfold Facts.summary_limit. split; [|split; [|split; reflexivity]].
  - destruct (users w !! UserManager.key_of uid) as [u|] eqn:E.
    + rewrite (can_summarize_present cfg clk uid w u E).
      unfold eval at 1. rewrite (get_user_present clk uid w u E). simpl.
      destruct (User.is_subscribed u).
      * rewrite (reset_daily_limits_present clk uid w u E).
        destruct (String.eqb (User.last_reset u) (today clk)).
        -- unfold eval. now rewrite (get_user_present clk uid w u E).
        -- unfold eval. erewrite get_user_present by (simpl; apply lookup_insert_eq).
           reflexivity.
      * unfold exec. now rewrite (get_user_present clk uid w u E).
    + rewrite (can_summarize_absent cfg clk uid w E).
      unfold eval at 1. now rewrite (get_user_absent clk uid w E).
  - intros n. unfold eval.
    destruct (users w !! UserManager.key_of uid) as [u|] eqn:E.
    + assert (E' : users (Facts.set_downloads_today n uid w) !! UserManager.key_of uid
                   = Some (Facts.with_downloads_today n u)).
      { simpl. rewrite lookup_alter, decide_True by reflexivity. now rewrite E. }
      rewrite (can_summarize_present cfg clk uid _ _ E').
      rewrite (can_summarize_present cfg clk uid _ _ E). simpl.
      now destruct (User.is_subscribed u).
    + assert (E' : users (Facts.set_downloads_today n uid w) !! UserManager.key_of uid = None).
      { simpl. rewrite lookup_alter, decide_True by reflexivity. now rewrite E. }
      rewrite (can_summarize_absent cfg clk uid _ E').
      now rewrite (can_summarize_absent cfg clk uid _ E).
Qed.

(** X2. [increment_download] adds exactly one to [downloads_today] and to
    [total_downloads] of the caller's record (the zeroed record if the
    identity was unseen), leaves the summary counters, the date of the
    last reset, the subscription and the tier as they were, leaves every
    other record alone, and saves the table. It checks neither the limit
    nor the subscription. *)
Theorem increment_download_exact (clk : Clock) (uid : Z) (w : World) :
  let u := eval (UserManager.get_user clk uid) w in
  let w' := exec (UserManager.increment_download clk uid) w in
  (exists u',
      users w' !! UserManager.key_of uid = Some u'
      /\ User.downloads_today u' = User.downloads_today u + 1
      /\ User.total_downloads u' = User.total_downloads u + 1
      /\ User.summaries_today u' = User.summaries_today u
      /\ User.total_summaries u' = User.total_summaries u
      /\ User.last_reset u' = User.last_reset u
      /\ User.is_subscribed u' = User.is_subscribed u
      /\ User.is_premium u' = User.is_premium u)
  /\ (forall key, key <> UserManager.key_of uid -> users w' !! key = users w !! key)
  /\ disk w' = users w'
  /\ trace w' = trace w.
Proof.
  cbv zeta. rewrite increment_download_saved. split; [|split; [|split; reflexivity]].
  - eexists. split; [apply saved_with_lookup|]. repeat split.
  - intros key Hk. now apply saved_with_other.
Qed.

(** X3. [increment_summary] adds exactly one to [summaries_today] and to
    [total_summaries] of the caller's record (the zeroed record if the
    identity was unseen), leaves the download counters, the date of the
    last reset, the subscription and the tier as they were, leaves every
    other record alone, and saves the table. *)
Theorem increment_summary_exact (clk : Clock) (uid : Z) (w : World) :
  let u := eval (UserManager.get_user clk uid) w in
  let w' := exec (UserManager.increment_summary clk uid) w in
  (exists u',
      users w' !! UserManager.key_of uid = Some u'
      /\ User.summaries_today u' = User.summaries_today u + 1
      /\ User.total_summaries u' = User.total_summaries u + 1
      /\ User.downloads_today u' = User.downloads_today u
      /\ User.total_downloads u' = User.total_downloads u
      /\ User.last_reset u' = User.last_reset u
      /\ User.is_subscribed u' = User.is_subscribed u
      /\ User.is_premium u' = User.is_premium u)
  /\ (forall key, key <> UserManager.key_of uid -> users w' !! key = users w !! key)
  /\ disk w' = users w'
  /\ trace w' = trace w.
Proof.
  cbv zeta. rewrite increment_summary_saved. split; [|split; [|split; reflexivity]].
  - eexists. split; [apply saved_with_lookup|]. repeat split.
  - intros key Hk. now apply saved_with_other.
Qed.

(** X4. After [subscribe_user] the identity is subscribed, its
    [subscription_date] is the time of the call, its counters and tier
    are what they were, and the table is saved. Subscribing again later
    stamps the later time: the date of the first subscription is not
    kept. *)
Theorem subscribe_user_stamps (clk clk' : Clock) (uid : Z)
    (code code' : option string) (w : World) :
  let u := eval (UserManager.get_user clk uid) w in
  let w1 := exec (UserManager.subscribe_user clk uid code) w in
  let w2 := exec (UserManager.subscribe_user clk' uid code') w1 in
  eval (UserManager.is_subscribed clk' uid) w1 = true
  /\ (exists u1 u2,
         users w1 !! UserManager.key_of uid = Some u1
         /\ users w2 !! UserManager.key_of uid = Some u2
         /\ User.subscription_date u1 = Some (now_iso clk)
         /\ User.subscription_date u2 = Some (now_iso clk')
         /\ User.is_premium u1 = User.is_premium u
         /\ User.last_reset u1 = User.last_reset u)
  /\ Props.usage w1 uid = Props.usage (exec (UserManager.get_user clk uid) w) uid
  /\ Props.usage w2 uid = Props.usage w1 uid
  /\ disk w1 = users w1.
Proof.
  cbv zeta. rewrite !subscribe_user_saved.
  set (w1 := Facts.saved_with clk uid (UserManager.set_subscribed clk code) w).
  assert (E1 : users w1 !! UserManager.key_of uid
               = Some (UserManager.set_subscribed clk code
                         (eval (UserManager.get_user clk uid) w)))
    by apply saved_with_lookup.
  split; [|split; [|split; [|split]]].
  - unfold eval, UserManager.is_subscribed, bind.
    now rewrite (get_user_present clk' uid w1 _ E1).
  - eexists. eexists. split; [exact E1|]. split; [apply saved_with_lookup|].
    repeat split.
  - unfold Props.usage. rewrite E1, get_user_lookup. reflexivity.
  - unfold Props.usage. rewrite saved_with_lookup, E1.
    unfold eval. rewrite (get_user_present clk' uid w1 _ E1). reflexivity.
  - reflexivity.
Qed.

(** X5. [upgrade_to_premium] makes the identity premium for good: at any
    later time its maximum file size is 500 MiB and its download limit is
    100, because [premium_expires] is stored and never read. It does not
    subscribe: the answer of [is_subscribed] is what it was, and a user
    who had not subscribed is still refused by [can_download] and
    [can_summarize]. The counters are untouched and the table is saved. *)
Theorem upgrade_to_premium_effect (cfg : BotConfig.t) (clk clk' : Clock)
    (uid : Z) (w : World) :
  let u := eval (UserManager.get_user clk uid) w in
  let w1 := exec (UserManager.upgrade_to_premium clk uid) w in
  eval (UserManager.get_max_file_size clk' uid) w1 = 500 * 1024 * 1024
  /\ eval (UserManager.is_subscribed clk' uid) w1 = User.is_subscribed u
  /\ eval (UserManager.can_download cfg clk' uid) w1
     = (if User.is_subscribed u
        then (if String.eqb (User.last_reset u) (today clk')
              then User.downloads_today u else 0) <? 100
        else false)
  /\ eval (UserManager.can_summarize cfg clk' uid) w1
     = (if User.is_subscribed u
        then (if String.eqb (User.last_reset u) (today clk')
              then User.summaries_today u else 0) <? 50
        else false)
  /\ Props.usage w1 uid = Props.usage (exec (UserManager.get_user clk uid) w) uid
  /\ disk w1 = users w1.
Proof.
  cbv zeta. rewrite upgrade_to_premium_saved.
  set (w1 := Facts.saved_with clk uid (UserManager.set_premium clk) w).
  assert (E1 : users w1 !! UserManager.key_of uid
               = Some (UserManager.set_premium clk
                         (eval (UserManager.get_user clk uid) w)))
    by apply saved_with_lookup.
  split; [|split; [|split; [|split; [|split]]]].
  - unfold eval at 1, UserManager.get_max_file_size, bind.
    now rewrite (get_user_present clk' uid w1 _ E1).
  - unfold eval at 1, UserManager.is_subscribed, bind.
    now rewrite (get_user_present clk' uid w1 _ E1).
  - unfold eval at 1. rewrite (can_download_present cfg clk' uid w1 _ E1). simpl.
    now destruct (User.is_subscribed _).
  - unfold eval at 1. rewrite (can_summarize_present cfg clk' uid w1 _ E1). simpl.
    now destruct (User.is_subscribed _).
  - unfold Props.usage. rewrite E1, get_user_lookup. reflexivity.
  - reflexivity.
Qed.

(** ** What the calls keep *)

Section Keeps.
Import Facts.
Variable R : User.t -> User.t -> Prop.
Hypothesis R_refl : forall u, R u u.
Hypothesis R_trans : forall u1 u2 u3, R u1 u2 -> R u2 u3 -> R u1 u3.

Lemma related_refl m : related R m m.
Proof. intros key r H. exists r. split; [assumption | apply R_refl]. Qed.

Lemma related_trans m1 m2 m3 :
  related R m1 m2 -> related R m2 m3 -> related R m1 m3.
Proof.
  intros H12 H23 key r H.
  destruct (H12 key r H) as (r2 & E2 & H2).
  destruct (H23 key r2 E2) as (r3 & E3 & H3).
  exists r3. split; [assumption | eapply R_trans; eassumption].
Qed.

Lemma keeps_R_ret {A} (a : A) : keeps R (ret a).
Proof. intros w. apply related_refl. Qed.

Lemma keeps_R_bind {A B} (m : M A) (k : A -> M B) :
  keeps R m -> (forall a, keeps R (k a)) -> keeps R (bind m k).
Proof.
  intros Hm Hk w. rewrite exec_bind.
  eapply related_trans; [apply Hm | apply Hk].
Qed.

Lemma keeps_R_emit e : keeps R (emit e).
Proof. intros w. apply related_refl. Qed.

Lemma keeps_R_save : keeps R UserManager.save_user_data.
Proof. intros w. apply related_refl. Qed.

Lemma keeps_R_get_user clk uid : keeps R (UserManager.get_user clk uid).
Proof.
  intros w key r H. unfold exec, UserManager.get_user.
  destruct (users w !! UserManager.key_of uid) eqn:E; simpl.
  - exists r. split; [assumption | apply R_refl].
  - exists r. split; [|apply R_refl].
    rewrite lookup_insert_ne; [assumption|]. congruence.
Qed.

Lemma keeps_R_update_user uid (f : User.t -> User.t) :
  (forall u, R u (f u)) -> keeps R (UserManager.update_user uid f).
Proof.
  intros Hf w key r H. unfold exec, UserManager.update_user; simpl.
  rewrite lookup_alter.
  destruct (decide (UserManager.key_of uid = key)) as [<-|].
  - rewrite H. exists (f r). split; [reflexivity | apply Hf].
  - exists r. split; [assumption | apply R_refl].
Qed.

End Keeps.

(** Steps through a computation built from [bind], [ret], [emit],
    [get_user], [save_user_data], conditionals and matches; what is left
    are the goals about [update_user]. *)
Ltac keeps_steps :=
  repeat first
    [ apply keeps_R_ret; assumption
    | apply keeps_R_emit; assumption
    | apply keeps_R_save; assumption
    | apply keeps_R_get_user; assumption
    | apply keeps_R_bind; [assumption | | intros ?]
    | match goal with
      | |- Facts.keeps _ (if ?b then _ else _) => destruct b
      | |- Facts.keeps _ (match ?x with _ => _ end) => destruct x
      end ].

Section Frame.
Import Facts.

Lemma touches_ret {A} uid (a : A) : touches_only uid (ret a).
Proof. intros w key H. reflexivity. Qed.

Lemma touches_bind {A B} uid (m : M A) (k : A -> M B) :
  touches_only uid m -> (forall a, touches_only uid (k a)) ->
  touches_only uid (bind m k).
Proof.
  intros Hm Hk w key H. rewrite exec_bind. rewrite Hk by assumption. now apply Hm.
Qed.

Lemma touches_emit uid e : touches_only uid (emit e).
Proof. intros w key H. reflexivity. Qed.

Lemma touches_save uid : touches_only uid UserManager.save_user_data.
Proof. intros w key H. reflexivity. Qed.

Lemma touches_get_user clk uid : touches_only uid (UserManager.get_user clk uid).
Proof.
  intros w key H. unfold exec, UserManager.get_user.
  destruct (users w !! UserManager.key_of uid); simpl; [reflexivity|].
  now rewrite lookup_insert_ne.
Qed.

Lemma touches_update_user uid f : touches_only uid (UserManager.update_user uid f).
Proof.
  intros w key H. unfold exec, UserManager.update_user; simpl.
  rewrite lookup_alter. now rewrite decide_False by congruence.
Qed.

End Frame.

Ltac touches_steps :=
  repeat first
    [ apply touches_ret
    | apply touches_emit
    | apply touches_save
    | apply touches_get_user
    | apply touches_update_user
    | apply touches_bind; [ | intros ?]
    | match goal with
      | |- Facts.touches_only _ (if ?b then _ else _) => destruct b
      | |- Facts.touches_only _ (match ?x with _ => _ end) => destruct x
      end ].

Ltac unfold_calls :=
  unfold Props.run_op, UserManager.subscribe_user,
    UserManager.upgrade_to_premium, UserManager.is_subscribed,
    UserManager.can_download, UserManager.can_summarize,
    UserManager.get_max_file_size, UserManager.increment_download,
    UserManager.increment_summary, UserManager.reset_daily_limits.

Ltac unfold_handlers :=
  unfold Handlers.handle_url, Handlers.handle_youtube_download,
    Handlers.handle_article_summary, Handlers.deliver_video,
    MediaDownloader.download_youtube_video, TextSummarizer.summarize_url;
  unfold_calls.

Section FrameOfCalls.
Import Facts.
Variable cfg : BotConfig.t.
Variable clk : Clock.

Lemma touches_run_op op : touches_only (op_user op) (Props.run_op cfg clk op).
Proof. destruct op; simpl; unfold_calls; touches_steps. Qed.

Lemma touches_handle_url env update :
  touches_only (effective_user_id update) (Handlers.handle_url cfg clk env update).
Proof. unfold_handlers. touches_steps. Qed.

End FrameOfCalls.

(** X6. A call of the user manager about one identity, and a request
    handled for one sender, leave the record of every other identity
    exactly as it was (or absent, if it was absent). *)
Theorem other_users_untouched (cfg : BotConfig.t) (clk : Clock) (env : Env)
    (op : Props.Op) (update : Update) (other : Z) (w : World) :
  other <> Facts.op_user op ->
  other <> effective_user_id update ->
  users (exec (Props.run_op cfg clk op) w) !! UserManager.key_of other
  = users w !! UserManager.key_of other
  /\ users (exec (Handlers.handle_url cfg clk env update) w) !! UserManager.key_of other
     = users w !! UserManager.key_of other.
Proof.
  intros Hop Hup. split.
  - apply touches_run_op. unfold UserManager.key_of. intros H.
    apply Hop. now apply (inj pretty).
  - apply touches_handle_url. unfold UserManager.key_of. intros H.
    apply Hup. now apply (inj pretty).
Qed.

(** The statement of X6 for user 7 while user 42 downloads. *)
Lemma other_users_untouched_witness :
  users (exec (Handlers.handle_url BotConfig.default Samples.clock
                 (Samples.env_of (Samples.info_of Absent Absent Absent))
                 (Samples.update_of 42 "https://youtu.be/abc123"))
           Samples.fresh_world) !! UserManager.key_of 7
  = users Samples.fresh_world !! UserManager.key_of 7.
Proof.
  destruct (other_users_untouched BotConfig.default Samples.clock
              (Samples.env_of (Samples.info_of Absent Absent Absent))
              (Props.IncrementDownload 42)
              (Samples.update_of 42 "https://youtu.be/abc123") 7 Samples.fresh_world)
    as [_ H]; [discriminate | discriminate | exact H].
Defined.

Section AccountKept.
Import Facts.

Lemma same_account_refl u : same_account u u.
Proof. repeat split. Qed.

Lemma same_account_trans u1 u2 u3 :
  same_account u1 u2 -> same_account u2 u3 -> same_account u1 u3.
Proof. unfold same_account. intros H1 H2. intuition congruence. Qed.

Lemma keeps_account_handle_url cfg clk env update :
  keeps same_account (Handlers.handle_url cfg clk env update).
Proof.
  pose proof same_account_refl as Hr. pose proof same_account_trans as Ht.
  unfold_handlers. keeps_steps;
    (apply keeps_R_update_user; [assumption | intros u; repeat split]).
Qed.

End AccountKept.

(** X7. Handling a request never changes anybody's subscription, tier,
    premium dates or referral data: every record that was in the table is
    still there and differs at most in its counters and the date of its
    last reset. *)
Theorem request_keeps_accounts (cfg : BotConfig.t) (clk : Clock) (env : Env)
    (update : Update) (w : World) (key : string) (u : User.t) :
  users w !! key = Some u ->
  exists u',
    users (exec (Handlers.handle_url cfg clk env update) w) !! key = Some u'
    /\ User.is_subscribed u' = User.is_subscribed u
    /\ User.subscription_date u' = User.subscription_date u
    /\ User.is_premium u' = User.is_premium u
    /\ User.premium_expires u' = User.premium_expires u
    /\ User.premium_started u' = User.premium_started u
    /\ User.referral_code u' = User.referral_code u
    /\ User.referred_by u' = User.referred_by u.
Proof. intros H. exact (keeps_account_handle_url cfg clk env update w key u H). Qed.

(** The statement of X7 for user 42, who downloads a video. *)
Lemma request_keeps_accounts_witness :
  exists u',
    users (exec (Handlers.handle_url BotConfig.default Samples.clock
                   (Samples.env_of (Samples.info_of Absent Absent Absent))
                   (Samples.update_of 42 "https://youtu.be/abc123"))
             Samples.yesterday_world) !! "42" = Some u'
    /\ User.is_subscribed u' = true
    /\ User.is_premium u' = false.
Proof.
  destruct (request_keeps_accounts BotConfig.default Samples.clock
              (Samples.env_of (Samples.info_of Absent Absent Absent))
              (Samples.update_of 42 "https://youtu.be/abc123")
              Samples.yesterday_world "42" (Samples.free_user 2 4 "2024-05-01"))
    as (u' & E & Hs & _ & Hp & _); [reflexivity|].
  exists u'. repeat split; assumption.
Defined.

(** ** What reaches the file *)

Section Saved.
Import Facts.
Variable cfg : BotConfig.t.
Variable clk : Clock.

Lemma saved_of_equal w : disk w = users w -> saved_up_to_new_records w.
Proof. intros H key. left. now rewrite H. Qed.

Lemma keeps_saved_ret {A} (a : A) : keeps_saved (ret a).
Proof. intros w H. exact H. Qed.

Lemma keeps_saved_emit e : keeps_saved (emit e).
Proof. intros w H. exact H. Qed.

Lemma keeps_saved_bind {A B} (m : M A) (k : A -> M B) :
  keeps_saved m -> (forall a, keeps_saved (k a)) -> keeps_saved (bind m k).
Proof. intros Hm Hk w H. rewrite exec_bind. apply Hk, Hm, H. Qed.

Lemma keeps_saved_get_user uid : keeps_saved (UserManager.get_user clk uid).
Proof.
  intros w H key. unfold exec, UserManager.get_user.
  destruct (users w !! UserManager.key_of uid) eqn:E; simpl; [apply H|].
  destruct (decide (key = UserManager.key_of uid)) as [->|Hne].
  - right. rewrite lookup_insert_eq. split; [|now exists clk].
    destruct (H (UserManager.key_of uid)) as [Hd|[Hd _]]; [|exact Hd].
    now rewrite Hd.
  - rewrite lookup_insert_ne by congruence. apply H.
Qed.

Lemma keeps_saved_modify uid f :
  keeps_saved (bind (UserManager.get_user clk uid)
                 (fun _ => bind (UserManager.update_user uid f)
                             (fun _ => UserManager.save_user_data))).
Proof. intros w _. rewrite modify_and_save. now apply saved_of_equal. Qed.

Lemma keeps_saved_reset uid : keeps_saved (UserManager.reset_daily_limits clk uid).
Proof.
  intros w H.
  destruct (users w !! UserManager.key_of uid) as [u|] eqn:E.
  - rewrite (reset_daily_limits_present clk uid w u E).
    destruct (String.eqb _ _); [exact H | now apply saved_of_equal].
  - rewrite (reset_daily_limits_absent clk uid w E). now apply keeps_saved_get_user.
Qed.

End Saved.

Ltac saved_steps :=
  repeat first
    [ apply keeps_saved_ret
    | apply keeps_saved_emit
    | apply keeps_saved_modify
    | apply keeps_saved_reset
    | apply keeps_saved_get_user
    | apply keeps_saved_bind; [ | intros ?]
    | match goal with
      | |- Facts.keeps_saved (if ?b then _ else _) => destruct b
      | |- Facts.keeps_saved (match ?x with _ => _ end) => destruct x
      end ].

Section SavedCalls.
Import Facts.
Variable cfg : BotConfig.t.

Lemma keeps_saved_run_op clk op : keeps_saved (Props.run_op cfg clk op).
Proof.
  destruct op; simpl;
    unfold UserManager.subscribe_user, UserManager.upgrade_to_premium,
      UserManager.is_subscribed, UserManager.can_download, UserManager.can_summarize,
      UserManager.get_max_file_size, UserManager.increment_download,
      UserManager.increment_summary;
    saved_steps.
Qed.

Lemma keeps_saved_run_ops ops : keeps_saved (Props.run_ops cfg ops).
Proof.
  induction ops as [|[clk op] ops IH]; simpl.
  - apply keeps_saved_ret.
  - apply keeps_saved_bind; [apply keeps_saved_run_op | intros _; exact IH].
Qed.

Lemma keeps_saved_handle_url clk env update :
  keeps_saved (Handlers.handle_url cfg clk env update).
Proof.
  unfold Handlers.handle_url, Handlers.handle_youtube_download,
    Handlers.handle_article_summary, Handlers.deliver_video,
    MediaDownloader.download_youtube_video, TextSummarizer.summarize_url,
    UserManager.is_subscribed, UserManager.can_download, UserManager.can_summarize,
    UserManager.get_max_file_size, UserManager.increment_download,
    UserManager.increment_summary.
  saved_steps.
Qed.

End SavedCalls.

(** X8. The file never lags behind the table by more than untouched new
    records: if every key of the table either has the same entry in the
    file or holds a record [get_user] has just created and is missing
    from the file, then the same is true after any history of calls of
    the user manager and after any handled request. Every change to an
    existing record is written before the call returns. *)
Theorem file_lags_only_by_new_records (cfg : BotConfig.t)
    (ops : list (Clock * Props.Op)) (clk : Clock) (env : Env) (update : Update)
    (w : World) :
  Facts.saved_up_to_new_records w ->
  Facts.saved_up_to_new_records (exec (Props.run_ops cfg ops) w)
  /\ Facts.saved_up_to_new_records (exec (Handlers.handle_url cfg clk env update) w).
Proof.
  intros H. split.
  - now apply keeps_saved_run_ops.
  - now apply keeps_saved_handle_url.
Qed.

(** The statement of X8 from a store that has just been loaded: after
    user 42 has downloaded and a new user 7 has asked, the file holds the
    record of 42 as in memory and misses only the record of 7. *)
Lemma file_lags_only_by_new_records_witness :
  let w := exec (Props.run_ops BotConfig.default
                   [(Samples.clock, Props.IncrementDownload 42);
                    (Samples.clock, Props.IsSubscribed 7);
                    (Samples.clock, Props.GetMaxFileSize 7)])
             Samples.fresh_world in
  Facts.saved_up_to_new_records w
  /\ disk w !! "42" = users w !! "42"
  /\ disk w !! "7" = None
  /\ users w !! "7" = Some (UserManager.new_user Samples.clock).
Proof.
  destruct (file_lags_only_by_new_records BotConfig.default
              [(Samples.clock, Props.IncrementDownload 42);
               (Samples.clock, Props.IsSubscribed 7);
               (Samples.clock, Props.GetMaxFileSize 7)]
              Samples.clock (Samples.env_of (Samples.info_of Absent Absent Absent))
              (Samples.update_of 42 "x") Samples.fresh_world) as [H _].
  - intros key. left. reflexivity.
  - cbv zeta. split; [exact H|]. split; [reflexivity|]. split; reflexivity.
Defined.

(** ** Quotas *)

Section Quota.
Import Facts.
Variable cfg : BotConfig.t.
Variable clk : Clock.

Lemma exec_run_ops_cons c op ops w :
  exec (Props.run_ops cfg ((c, op) :: ops)) w
  = exec (Props.run_ops cfg ops) (exec (Props.run_op cfg c op) w).
Proof. simpl. now rewrite exec_bind. Qed.

(** The record the gate leaves, and what a positive answer means. *)
Lemma can_download_admits uid w u :
  users w !! UserManager.key_of uid = Some u ->
  exists ug,
    users (exec (UserManager.can_download cfg clk uid) w) !! UserManager.key_of uid
    = Some ug
    /\ User.is_premium ug = User.is_premium u
    /\ (ug = u \/ (User.downloads_today ug = 0 /\ User.summaries_today ug = 0))
    /\ (eval (UserManager.can_download cfg clk uid) w = true ->
        User.downloads_today ug < download_limit cfg ug).
Proof.
  intros E. unfold eval, exec, download_limit.
  rewrite (can_download_present cfg clk uid w u E).
  destruct (User.is_subscribed u); simpl.
  - rewrite (reset_daily_limits_present clk uid w u E).
    destruct (String.eqb (User.last_reset u) (today clk)); simpl.
    + exists u. repeat split; [exact E | now left | now intros H%Z.ltb_lt].
    + exists (UserManager.reset_counters clk u). rewrite lookup_insert_eq.
      repeat split; [now right | now intros H%Z.ltb_lt].
  - exists u. repeat split; [exact E | now left | discriminate].
Qed.

Lemma can_summarize_admits uid w u :
  users w !! UserManager.key_of uid = Some u ->
  exists ug,
    users (exec (UserManager.can_summarize cfg clk uid) w) !! UserManager.key_of uid
    = Some ug
    /\ User.is_premium ug = User.is_premium u
    /\ (ug = u \/ (User.downloads_today ug = 0 /\ User.summaries_today ug = 0))
    /\ (eval (UserManager.can_summarize cfg clk uid) w = true ->
        User.summaries_today ug < summary_limit cfg ug).
Proof.
  intros E. unfold eval, exec, summary_limit.
  rewrite (can_summarize_present cfg clk uid w u E).
  destruct (User.is_subscribed u); simpl.
  - rewrite (reset_daily_limits_present clk uid w u E).
    destruct (String.eqb (User.last_reset u) (today clk)); simpl.
    + exists u. repeat split; [exact E | now left | now intros H%Z.ltb_lt].
    + exists (UserManager.reset_counters clk u). rewrite lookup_insert_eq.
      repeat split; [now right | now intros H%Z.ltb_lt].
  - exists u. repeat split; [exact E | now left | discriminate].
Qed.

End Quota.

(** X9. For a subscribed user whose counters were reset today, after any
    number [k] of counted downloads [can_download] answers whether
    [downloads_today + k] is still below the limit of the tier: the
    quota admits exactly the downloads up to the limit, and
    [increment_download] at any time of day counts against it. *)
Theorem downloads_admitted_up_to_limit (cfg : BotConfig.t) (clk : Clock)
    (times : list Clock) (uid : Z) (w : World) (u : User.t) :
  users w !! UserManager.key_of uid = Some u ->
  User.is_subscribed u = true ->
  User.last_reset u = today clk ->
  eval (UserManager.can_download cfg clk uid)
    (exec (Props.run_ops cfg (map (fun c => (c, Props.IncrementDownload uid)) times)) w)
  = (User.downloads_today u + Z.of_nat (length times) <? Facts.download_limit cfg u).
Proof.
  revert w u. induction times as [|c times IH]; intros w u E Hs Hr.
  - simpl. unfold eval, exec, ret. simpl.
    rewrite (can_download_present cfg clk uid w u E), Hs, Hr, String.eqb_refl. simpl.
    now rewrite Z.add_0_r.
  - cbn [map]. rewrite exec_run_ops_cons.
    cbn [Props.run_op]. rewrite increment_download_saved.
    rewrite (IH _ (UserManager.add_download u)).
    + simpl. unfold Facts.download_limit. simpl. f_equal. lia.
    + rewrite saved_with_lookup. unfold eval.
      now rewrite (get_user_present c uid w u E).
    + exact Hs.
    + exact Hr.
Qed.

(** The statement of X9 for the free user 42 on the day of the sample
    clock: after three counted downloads the fourth is refused. *)
Lemma downloads_admitted_up_to_limit_witness :
  eval (UserManager.can_download BotConfig.default Samples.clock 42)
    (exec (Props.run_ops BotConfig.default
             (map (fun c => (c, Props.IncrementDownload 42))
                [Samples.clock; Samples.clock; Samples.clock]))
       Samples.fresh_world)
  = false.
Proof.
  rewrite (downloads_admitted_up_to_limit BotConfig.default Samples.clock
             [Samples.clock; Samples.clock; Samples.clock] 42 Samples.fresh_world
             (Samples.free_user 0 0 "2024-05-02")); reflexivity.
Defined.

Section WithinLimit.
Import Facts.
Variable cfg : BotConfig.t.
Variable clk : Clock.
Variable env : Env.
Hypothesis free_downloads_positive : 0 < BotConfig.MAX_FREE_DOWNLOADS cfg.
Hypothesis free_summaries_positive : 0 < BotConfig.MAX_FREE_SUMMARIES cfg.

Lemma limits_positive u : 0 < download_limit cfg u /\ 0 < summary_limit cfg u.
Proof.
  unfold download_limit, summary_limit.
  destruct (User.is_premium u); split; try assumption; reflexivity.
Qed.

Lemma keeps_account_media update url :
  keeps same_account (Handlers.handle_youtube_download cfg clk env update url).
Proof.
  pose proof same_account_refl as Hr. pose proof same_account_trans as Ht.
  unfold_handlers. keeps_steps;
    (apply keeps_R_update_user; [assumption | intros u; repeat split]).
Qed.

Lemma keeps_account_article update url :
  keeps same_account (Handlers.handle_article_summary cfg clk env update url).
Proof.
  pose proof same_account_refl as Hr. pose proof same_account_trans as Ht.
  unfold_handlers. keeps_steps;
    (apply keeps_R_update_user; [assumption | intros u; repeat split]).
Qed.

Lemma media_within_limits update url w u :
  users w !! UserManager.key_of (effective_user_id update) = Some u ->
  within_limits cfg u ->
  exists u',
    users (exec (Handlers.handle_youtube_download cfg clk env update url) w)
      !! UserManager.key_of (effective_user_id update) = Some u'
    /\ within_limits cfg u'.
Proof.
  intros E [Hd Hs]. set (uid := effective_user_id update) in *.
  destruct (keeps_account_media update url w _ u E) as (u' & E' & Hacc).
  destruct Hacc as (_ & _ & Hprem & _).
  destruct (can_download_admits cfg clk uid w u E) as (ug & Eg & Hpg & Hug & Hadm).
  destruct (handle_youtube_download_gated cfg clk env update url w free_downloads_positive)
    as (evs & _ & Hblocked & _ & _ & Hyes & Hno).
  fold uid in Hblocked, Hyes, Hno.
  exists u'. split; [exact E'|].
  assert (Hlim : download_limit cfg u' = download_limit cfg u
                 /\ summary_limit cfg u' = summary_limit cfg u)
    by (unfold download_limit, summary_limit; now rewrite Hprem).
  assert (Hlimg : download_limit cfg ug = download_limit cfg u
                  /\ summary_limit cfg ug = summary_limit cfg u)
    by (unfold download_limit, summary_limit; now rewrite Hpg).
  pose proof (limits_positive u) as [Hpd Hps].
  unfold within_limits. destruct Hlim as [-> ->]. destruct Hlimg as [Hl1 Hl2].
  unfold Props.usage in Hyes, Hno. rewrite E', Eg in Hyes, Hno.
  destruct (in_dec Event_eq_dec (PipelineReturned Media uid true) evs) as [Hin|Hnin].
  - specialize (Hyes Hin). simpl in Hyes. injection Hyes as Hd' Hs' _ _.
    destruct (eval (UserManager.can_download cfg clk uid) w) eqn:Hallowed.
    + specialize (Hadm eq_refl). rewrite Hl1 in Hadm.
      destruct Hug as [->|[H0 H1]]; lia.
    + destruct (Hblocked eq_refl) as [[r ->] _].
      simpl in Hin. destruct Hin as [Hin|[Hin|[]]]; discriminate.
  - specialize (Hno Hnin). injection Hno as Hd' Hs' _ _.
    destruct Hug as [->|[H0 H1]]; lia.
Qed.

Lemma article_within_limits update url w u :
  users w !! UserManager.key_of (effective_user_id update) = Some u ->
  within_limits cfg u ->
  exists u',
    users (exec (Handlers.handle_article_summary cfg clk env update url) w)
      !! UserManager.key_of (effective_user_id update) = Some u'
    /\ within_limits cfg u'.
Proof.
  intros E [Hd Hs]. set (uid := effective_user_id update) in *.
  destruct (keeps_account_article update url w _ u E) as (u' & E' & Hacc).
  destruct Hacc as (_ & _ & Hprem & _).
  destruct (can_summarize_admits cfg clk uid w u E) as (ug & Eg & Hpg & Hug & Hadm).
  destruct (handle_article_summary_gated cfg clk env update url w free_summaries_positive)
    as (evs & _ & Hblocked & _ & _ & Hyes & Hno).
  fold uid in Hblocked, Hyes, Hno.
  exists u'. split; [exact E'|].
  assert (Hlim : download_limit cfg u' = download_limit cfg u
                 /\ summary_limit cfg u' = summary_limit cfg u)
    by (unfold download_limit, summary_limit; now rewrite Hprem).
  assert (Hlimg : download_limit cfg ug = download_limit cfg u
                  /\ summary_limit cfg ug = summary_limit cfg u)
    by (unfold download_limit, summary_limit; now rewrite Hpg).
  pose proof (limits_positive u) as [Hpd Hps].
  unfold within_limits. destruct Hlim as [-> ->]. destruct Hlimg as [Hl1 Hl2].
  unfold Props.usage in Hyes, Hno. rewrite E', Eg in Hyes, Hno.
  destruct (in_dec Event_eq_dec (PipelineReturned Article uid true) evs) as [Hin|Hnin].
  - specialize (Hyes Hin). simpl in Hyes. injection Hyes as Hd' Hs' _ _.
    destruct (eval (UserManager.can_summarize cfg clk uid) w) eqn:Hallowed.
    + specialize (Hadm eq_refl). rewrite Hl2 in Hadm.
      destruct Hug as [->|[H0 H1]]; lia.
    + destruct (Hblocked eq_refl) as [[r ->] _].
      simpl in Hin. destruct Hin as [Hin|[Hin|[]]]; discriminate.
  - specialize (Hno Hnin). injection Hno as Hd' Hs' _ _.
    destruct Hug as [->|[H0 H1]]; lia.
Qed.

End WithinLimit.

Section Dispatch.
Variable cfg : BotConfig.t.
Variable clk : Clock.
Variable env : Env.

(** What [handle_url] does for a sender who has a record. *)
Lemma handle_url_present update w u :
  users w !! UserManager.key_of (effective_user_id update) = Some u ->
  exec (Handlers.handle_url cfg clk env update) w
  = if User.is_subscribed u
    then if Handlers.is_youtube (Handlers.extract_url update)
         then exec (Handlers.handle_youtube_download cfg clk env update
                      (Handlers.extract_url update)) w
         else exec (Handlers.handle_article_summary cfg clk env update
                      (Handlers.extract_url update)) w
    else Props.add_events w [ReplyText SubscribeFirst].
Proof.
  intros E. unfold Handlers.handle_url, UserManager.is_subscribed, exec, bind.
  rewrite (get_user_present clk _ w u E). unfold ret.
  destruct (User.is_subscribed u); simpl; [|reflexivity].
  now destruct (Handlers.is_youtube (Handlers.extract_url update)).
Qed.

End Dispatch.

(** X10. With positive free limits, handling a request keeps the sender
    within the quota: if the sender's [downloads_today] and
    [summaries_today] do not exceed the limits of the tier before the
    request, they do not exceed them after it, whatever the pipelines
    answer. *)
Theorem request_keeps_within_limits (cfg : BotConfig.t) (clk : Clock) (env : Env)
    (update : Update) (w : World) (u : User.t) :
  0 < BotConfig.MAX_FREE_DOWNLOADS cfg ->
  0 < BotConfig.MAX_FREE_SUMMARIES cfg ->
  users w !! UserManager.key_of (effective_user_id update) = Some u ->
  User.downloads_today u <= Facts.download_limit cfg u ->
  User.summaries_today u <= Facts.summary_limit cfg u ->
  exists u',
    users (exec (Handlers.handle_url cfg clk env update) w)
      !! UserManager.key_of (effective_user_id update) = Some u'
    /\ User.downloads_today u' <= Facts.download_limit cfg u'
    /\ User.summaries_today u' <= Facts.summary_limit cfg u'.
Proof.
  intros Hpd Hps E Hd Hs. rewrite (handle_url_present cfg clk env update w u E).
  destruct (User.is_subscribed u).
  - destruct (Handlers.is_youtube (Handlers.extract_url update)).
    + apply media_within_limits with (u := u); try assumption. now split.
    + apply article_within_limits with (u := u); try assumption. now split.
  - exists u. repeat split; assumption.
Qed.

(** The statement of X10 for the free user 42 at two downloads, whose
    third download succeeds. *)
Lemma request_keeps_within_limits_witness :
  exists u',
    users (exec (Handlers.handle_url BotConfig.default Samples.clock
                   (Samples.env_of (Samples.info_of Absent Absent Absent))
                   (Samples.update_of 42 "https://youtu.be/abc123"))
             (Samples.world_of {[ "42" := Samples.free_user 2 4 "2024-05-02" ]}))
      !! UserManager.key_of 42 = Some u'
    /\ User.downloads_today u' <= Facts.download_limit BotConfig.default u'
    /\ User.summaries_today u' <= Facts.summary_limit BotConfig.default u'.
Proof.
  apply (request_keeps_within_limits BotConfig.default Samples.clock
           (Samples.env_of (Samples.info_of Absent Absent Absent))
           (Samples.update_of 42 "https://youtu.be/abc123")
           (Samples.world_of {[ "42" := Samples.free_user 2 4 "2024-05-02" ]})
           (Samples.free_user 2 4 "2024-05-02")); try reflexivity; discriminate.
Defined.

(** ** Unseen and unsubscribed identities *)

(** X11. For an identity without a record, every query creates the
    zeroed record in memory, does not write the file, and answers as for
    a free user who has not subscribed: [is_subscribed], [can_download]
    and [can_summarize] are false and the maximum file size is 50 MiB. *)
Theorem unseen_identity_defaults (cfg : BotConfig.t) (clk : Clock) (uid : Z)
    (w : World) :
  users w !! UserManager.key_of uid = None ->
  let created :=
    {| users := <[UserManager.key_of uid := UserManager.new_user clk]> (users w);
       disk := disk w; trace := trace w |} in
  UserManager.is_subscribed clk uid w = (false, created)
  /\ UserManager.can_download cfg clk uid w = (false, created)
  /\ UserManager.can_summarize cfg clk uid w = (false, created)
  /\ UserManager.get_max_file_size clk uid w = (50 * 1024 * 1024, created)
  /\ exec (UserManager.reset_daily_limits clk uid) w = created
  /\ Props.usage created uid = (0, 0, 0, 0).
Proof.
  intros E. cbv zeta.
  pose proof (get_user_absent clk uid w E) as Hg.
  rewrite (can_download_absent cfg clk uid w E).
  rewrite (can_summarize_absent cfg clk uid w E).
  rewrite (reset_daily_limits_absent clk uid w E).
  unfold UserManager.is_subscribed, UserManager.get_max_file_size, bind, exec, ret.
  rewrite Hg. simpl. repeat split.
  unfold Props.usage. simpl. now rewrite lookup_insert_eq.
Qed.

(** The statement of X11 for user 42 on an empty store. *)
Lemma unseen_identity_defaults_witness :
  UserManager.can_download BotConfig.default Samples.clock 42 Samples.empty_world
  = (false,
     {| users := {[ "42" := UserManager.new_user Samples.clock ]};
        disk := ∅; trace := [] |}).
Proof.
  destruct (unseen_identity_defaults BotConfig.default Samples.clock 42
              Samples.empty_world) as (_ & H & _); [reflexivity|].
  exact H.
Defined.

(** X12. A sender who has not subscribed gets the subscribe prompt and
    nothing else: [handle_url] consults no gate, calls no pipeline,
    writes no file and changes no counter; the only event is the reply. *)
Theorem unsubscribed_sender_is_prompted (cfg : BotConfig.t) (clk : Clock)
    (env : Env) (update : Update) (w : World) :
  eval (UserManager.is_subscribed clk (effective_user_id update)) w = false ->
  let w' := exec (Handlers.handle_url cfg clk env update) w in
  trace w' = (trace w ++ [ReplyText SubscribeFirst])%list
  /\ users w' = users (exec (UserManager.get_user clk (effective_user_id update)) w)
  /\ Props.usage w' (effective_user_id update)
     = Props.usage w (effective_user_id update)
  /\ disk w' = disk w.
Proof.
  intros Hs. cbv zeta.
  unfold Handlers.handle_url, UserManager.is_subscribed, eval, exec, bind, ret in *.
  unfold UserManager.get_user in *.
  destruct (users w !! UserManager.key_of (effective_user_id update)) as [u|] eqn:E;
    simpl in *.
  - rewrite Hs. simpl. repeat split.
  - repeat split. unfold Props.usage. simpl. now rewrite lookup_insert_eq, E.
Qed.

(** The statement of X12 for user 42 on an empty store. *)
Lemma unsubscribed_sender_is_prompted_witness :
  trace (exec (Handlers.handle_url BotConfig.default Samples.clock
                 (Samples.env_of (Samples.info_of Absent Absent Absent))
                 (Samples.update_of 42 "https://youtu.be/abc123"))
           Samples.empty_world)
  = [ReplyText SubscribeFirst].
Proof.
  destruct (unsubscribed_sender_is_prompted BotConfig.default Samples.clock
              (Samples.env_of (Samples.info_of Absent Absent Absent))
              (Samples.update_of 42 "https://youtu.be/abc123") Samples.empty_world)
    as (H & _); [reflexivity | exact H].
Defined.



(** ** The summarizer, further *)

Section SummarizerFacts.

Lemma local_extraction_succeeds text n :
  TextSummarizer.success (TextSummarizer.summarize_with_local_extraction text n) = true.
Proof.
  unfold TextSummarizer.summarize_with_local_extraction.
  now destruct (length (PyStr.split ". " text) <=? 3)%nat.
Qed.

Lemma append_nil_r (s : string) : s +:+ "" = s.
Proof.
  induction s as [|c s IH]; [reflexivity|].
  change (String c (s +:+ "") = String c s). now rewrite IH.
Qed.

Lemma snoc_app cur c s : PyStr.snoc cur c +:+ s = cur +:+ String c s.
Proof. unfold PyStr.snoc. now rewrite PyStrFacts.app_assoc. Qed.

(** Without the separator there is one piece. *)
Lemma split_without_separator sep cur s :
  PyStr.contains sep s = false -> PyStr.split_aux sep 0 cur s = [cur +:+ s].
Proof.
  revert cur. induction s as [|c s IH]; intros cur H.
  - simpl. now rewrite append_nil_r.
  - change (PyStr.contains sep (String c s))
      with (if String.prefix sep (String c s) then true else PyStr.contains sep s) in H.
    change (PyStr.split_aux sep 0 cur (String c s))
      with (if String.prefix sep (String c s)
            then cur :: PyStr.split_aux sep (String.length sep - 1) "" s
            else PyStr.split_aux sep 0 (PyStr.snoc cur c) s).
    destruct (String.prefix sep (String c s)); [discriminate|].
    rewrite (IH _ H). now rewrite snoc_app.
Qed.

End SummarizerFacts.

Lemma summarize_text_is_local_extraction_aux (text : string) (max_length : Z) :
  TextSummarizer.summarize_text text max_length
  = TextSummarizer.summarize_with_local_extraction text max_length
  /\ TextSummarizer.success (TextSummarizer.summarize_text text max_length) = true.
Proof.
  assert (H : TextSummarizer.summarize_text text max_length
              = TextSummarizer.summarize_with_local_extraction text max_length).
  { unfold TextSummarizer.summarize_text, TextSummarizer.free_apis. simpl.
    pose proof (local_extraction_succeeds text max_length) as Hs.
    now destruct (TextSummarizer.summarize_with_local_extraction text max_length). }
  split; [exact H|]. rewrite H. apply local_extraction_succeeds.
Qed.

(** X14. The fallback chain always ends at its first strategy:
    [summarize_text] returns what the scored-sentence extraction
    returns, which is always a success, so the head-truncation strategy
    is never consulted and the "temporarily unavailable" failure is never
    returned. *)
Theorem summarize_text_is_local_extraction (text : string) (max_length : Z) :
  TextSummarizer.summarize_text text max_length
  = TextSummarizer.summarize_with_local_extraction text max_length
  /\ TextSummarizer.success (TextSummarizer.summarize_text text max_length) = true.
Proof. apply summarize_text_is_local_extraction_aux. Qed.

(** X15. For a text of more than three sentences and a non-negative
    limit, the summary of the scored-sentence extraction is never longer
    than the limit plus four characters (the ellipsis and the final
    period), whether it was cut or not. *)
Theorem local_extraction_length_bound (text : string) (max_length : Z) :
  0 <= max_length ->
  (3 < length (PyStr.split ". " text))%nat ->
  exists summary,
    TextSummarizer.summarize_with_local_extraction text max_length
    = TextSummarizer.Success summary
    /\ Z.of_nat (String.length summary) <= max_length + 4.
Proof.
  intros Hpos Hmany. unfold TextSummarizer.summarize_with_local_extraction.
  destruct (Nat.leb_spec (length (PyStr.split ". " text)) 3) as [Hle|_]; [lia|].
  set (top := TextSummarizer.top_summary (PyStr.split ". " text)).
  eexists. split; [reflexivity|].
  rewrite PyStrFacts.length_app. change (String.length ".") with 1%nat.
  destruct (Z.ltb_spec max_length (Z.of_nat (String.length top))) as [Hlt|Hge].
  - rewrite PyStrFacts.length_app. change (String.length "...") with 3%nat.
    rewrite !Nat2Z.inj_add. rewrite PyStrFacts.length_slice_to_le by assumption. lia.
  - lia.
Qed.

(** The statement of X15 on four sentences of 150 characters. *)
Lemma local_extraction_length_bound_witness :
  exists summary,
    TextSummarizer.summarize_with_local_extraction Samples.long_text 300
    = TextSummarizer.Success summary
    /\ Z.of_nat (String.length summary) <= 304.
Proof.
  apply (local_extraction_length_bound Samples.long_text 300); [lia|].
  vm_compute. lia.
Defined.

(** X16. A text that does not contain the delimiter [". "] is returned as
    its own summary, whatever its length and whatever the output limit:
    the limit is not applied to texts of at most three sentences. *)
Theorem text_without_delimiter_is_verbatim (text : string) (max_length : Z) :
  PyStr.contains ". " text = false ->
  TextSummarizer.summarize_text text max_length = TextSummarizer.Success text.
Proof.
  intros H.
  destruct (summarize_text_is_local_extraction_aux text max_length) as [-> _].
  unfold TextSummarizer.summarize_with_local_extraction, PyStr.split.
  now rewrite (split_without_separator ". " "" text H).
Qed.

(** The statement of X16 on 400 characters without a period and the
    limit of the free tier. *)
Lemma text_without_delimiter_is_verbatim_witness :
  TextSummarizer.summarize_text (Samples.chars "a" 400) 300
  = TextSummarizer.Success (Samples.chars "a" 400).
Proof.
  apply (text_without_delimiter_is_verbatim (Samples.chars "a" 400) 300).
  vm_compute. reflexivity.
Defined.

(** ** The pipelines, further *)

(** X17. The media pipeline never raises and never touches the counters
    or the file. It asks yt-dlp to download exactly when yt-dlp opened,
    resolved the metadata and the size check passed, and it succeeds
    exactly when, in addition, the download raised nothing. Every failure
    is a message: the size refusal, or ["Download failed: "] followed by
    the message of the exception. *)
Theorem media_pipeline_outcomes (clk : Clock) (env : Env) (url : string)
    (uid : Z) (fmt : string) (w : World) :
  let premium := User.is_premium (eval (UserManager.get_user clk uid) w) in
  let max_file_size := if premium then BotConfig.PREMIUM_MAX_FILE_SIZE
                       else BotConfig.FREE_MAX_FILE_SIZE in
  let opts := if String.eqb fmt "audio" then MediaDownloader.audio_opts premium
              else MediaDownloader.video_opts premium in
  let fits :=
    match ydl_enter (ydl env) opts, extract_info (ydl env) opts url with
    | None, inr info =>
        negb (MediaDownloader.over_limit (MediaDownloader.estimated_size info)
                max_file_size)
    | _, _ => false
    end in
  let result := eval (MediaDownloader.download_youtube_video clk env url uid fmt) w in
  let w' := exec (MediaDownloader.download_youtube_video clk env url uid fmt) w in
  (exists evs,
      trace w' = (trace w ++ evs)%list
      /\ (In (YdlDownload url) evs <-> fits = true)
      /\ (In (YdlExtractInfo url) evs <-> ydl_enter (ydl env) opts = None))
  /\ (MediaDownloader.success result = true
      <-> fits = true /\ download (ydl env) opts url = None)
  /\ (MediaDownloader.success result = false ->
      exists msg,
        result = MediaDownloader.Failure msg
        /\ (String.prefix "Download failed: " msg = true
            \/ String.prefix "File too large (" msg = true))
  /\ users w' = users (exec (UserManager.get_user clk uid) w)
  /\ disk w' = disk w.
Proof.
  cbv zeta.
  pose proof (download_youtube_video_unfold clk env url uid fmt w) as Hu.
  cbv zeta in Hu.
  set (dl := MediaDownloader.download_youtube_video clk env url uid fmt) in *.
  change (eval dl w) with (fst (dl w)). change (exec dl w) with (snd (dl w)).
  rewrite Hu. clear Hu.
  assert (Hfailed : forall e,
             String.prefix "Download failed: " ("Download failed: " +:+ e) = true)
    by (intros e; apply prefix_app; now exists e).
  assert (Hlarge : forall a p m,
             String.prefix "File too large ("
               (MediaDownloader.too_large_message a p m) = true)
    by (intros a p m; apply prefix_app; eexists; reflexivity).
  destruct (ydl_enter (ydl env) _) as [e|].
  { split; [|split; [|split; [|split]]].
    - exists []. simpl. rewrite app_nil_r, get_user_trace.
      split; [reflexivity|]. split; split; simpl; (contradiction || discriminate).
    - simpl. split; [discriminate | intros [H _]; discriminate].
    - intros _. eexists. split; [reflexivity|]. left. apply Hfailed.
    - reflexivity.
    - apply get_user_disk. }
  destruct (extract_info (ydl env) _ url) as [e|info].
  { split; [|split; [|split; [|split]]].
    - eexists. simpl. rewrite get_user_trace. split; [reflexivity|].
      split; split; simpl; try discriminate; try tauto.
      intros [H|[]]. discriminate.
    - simpl. split; [discriminate | intros [H _]; discriminate].
    - intros _. eexists. split; [reflexivity|]. left. apply Hfailed.
    - reflexivity.
    - apply get_user_disk. }
  destruct (MediaDownloader.over_limit _ _).
  { split; [|split; [|split; [|split]]].
    - eexists. simpl. rewrite get_user_trace. split; [reflexivity|].
      split; split; simpl; try discriminate; try tauto.
      intros [H|[]]. discriminate.
    - simpl. split; [discriminate | intros [H _]; discriminate].
    - intros _. eexists. split; [reflexivity|]. right. apply Hlarge.
    - reflexivity.
    - apply get_user_disk. }
  destruct (download (ydl env) _ url) as [e|].
  - split; [|split; [|split; [|split]]].
    + eexists. simpl. rewrite get_user_trace. split; [reflexivity|].
      split; split; simpl; try discriminate; tauto.
    + simpl. split; [discriminate | intros [_ H]; discriminate].
    + intros _. eexists. split; [reflexivity|]. left. apply Hfailed.
    + reflexivity.
    + apply get_user_disk.
  - split; [|split; [|split; [|split]]].
    + eexists. simpl. rewrite get_user_trace. split; [reflexivity|].
      split; split; simpl; try discriminate; tauto.
    + simpl. split; [now split | reflexivity].
    + simpl. discriminate.
    + reflexivity.
    + apply get_user_disk.
Qed.

Section ArticlePipeline.
Variable clk : Clock.
Variable env : Env.

(** The summary pipeline, step by step. *)
Lemma summarize_url_unfold url uid w :
  let premium := User.is_premium (eval (UserManager.get_user clk uid) w) in
  TextSummarizer.summarize_url clk env url uid w
  = (match http_get env url with
     | FetchRaised =>
         TextSummarizer.Failure
           "Could not process this URL. Please try a different article."
     | Response status_code paragraphs body =>
         if negb (status_code =? 200)
         then TextSummarizer.Failure
                ("Could not fetch URL (Status: " +:+ pretty status_code +:+ ")")
         else
           let text := Facts.page_text (bs4_installed env) premium paragraphs body in
           if (String.length text <? 100)%nat
           then TextSummarizer.Failure "Not enough content found to summarize"
           else TextSummarizer.summarize_text
                  (PyStr.slice_to (if premium then 5000 else 3000) text)
                  (if premium then 500 else 300)
     end,
     Props.add_events (exec (UserManager.get_user clk uid) w) [HttpGet url]).
Proof.
  cbv zeta. unfold TextSummarizer.summarize_url, bind, eval, exec.
  destruct (UserManager.get_user clk uid w) as [user w0]. simpl.
  unfold emit, ret, Props.add_events. simpl.
  destruct (http_get env url) as [|status ps body]; [reflexivity|].
  destruct (negb (status =? 200)); [reflexivity|].
  unfold Facts.page_text.
  destruct (bs4_installed env);
    match goal with |- context [if ?c then _ else _] => destruct c end; reflexivity.
Qed.

End ArticlePipeline.

(** X18. The summary pipeline never raises and never touches the counters
    or the file; it requests the page once. It succeeds exactly when the
    page was fetched with status 200 and the extracted text has at least
    100 characters, and then its summary is the one the scored-sentence
    extraction gives for the first 3000 (free) or 5000 (premium)
    characters of that text with the output limit 300 or 500. *)
Theorem article_pipeline_outcomes (clk : Clock) (env : Env) (url : string)
    (uid : Z) (w : World) :
  let premium := User.is_premium (eval (UserManager.get_user clk uid) w) in
  let result := eval (TextSummarizer.summarize_url clk env url uid) w in
  let w' := exec (TextSummarizer.summarize_url clk env url uid) w in
  trace w' = (trace w ++ [HttpGet url])%list
  /\ users w' = users (exec (UserManager.get_user clk uid) w)
  /\ disk w' = disk w
  /\ (TextSummarizer.success result = true
      <-> exists paragraphs body,
            http_get env url = Response 200 paragraphs body
            /\ (100 <= String.length
                         (Facts.page_text (bs4_installed env) premium paragraphs body))%nat)
  /\ (forall paragraphs body,
         http_get env url = Response 200 paragraphs body ->
         (100 <= String.length
                   (Facts.page_text (bs4_installed env) premium paragraphs body))%nat ->
         result
         = TextSummarizer.summarize_with_local_extraction
             (PyStr.slice_to (if premium then 5000 else 3000)
                (Facts.page_text (bs4_installed env) premium paragraphs body))
             (if premium then 500 else 300)).
Proof.
  cbv zeta.
  pose proof (summarize_url_unfold clk env url uid w) as Hu. cbv zeta in Hu.
  set (su := TextSummarizer.summarize_url clk env url uid) in *.
  change (eval su w) with (fst (su w)). change (exec su w) with (snd (su w)).
  rewrite Hu. clear Hu. simpl.
  rewrite get_user_trace, get_user_disk.
  split; [reflexivity|]. split; [reflexivity|]. split; [reflexivity|].
  set (premium := User.is_premium (eval (UserManager.get_user clk uid) w)).
  destruct (http_get env url) as [|status ps body].
  { split.
    - split; [discriminate|]. intros (ps & body & H & _). discriminate.
    - intros ps body H. discriminate. }
  destruct (Z.eqb_spec status 200) as [->|Hne]; simpl.
  - destruct (Nat.ltb_spec
                (String.length (Facts.page_text (bs4_installed env) premium ps body)) 100)
      as [Hlt|Hge].
    + split.
      * split; [discriminate|]. intros (ps' & body' & H & Hlen).
        injection H as <- <-. lia.
      * intros ps' body' H Hlen. injection H as <- <-. lia.
    + split.
      * split.
        -- intros _. now exists ps, body.
        -- intros _. apply summarize_text_is_local_extraction_aux.
      * intros ps' body' H Hlen. injection H as <- <-.
        apply summarize_text_is_local_extraction_aux.
  - split.
    + split; [discriminate|]. intros (ps' & body' & H & _).
      injection H as -> _ _. contradiction.
    + intros ps' body' H. injection H as -> _ _. contradiction.
Qed.

(** ** Paragraphs, sentences and entities *)

Section Lists.
Local Open Scope nat_scope.

Lemma good_paragraphs_take max count ps :
  count < max ->
  TextSummarizer.good_paragraphs max count ps
  = take (max - count)
      (List.filter (fun t => 50 <? String.length t) (map PyStr.strip ps)).
Proof.
  revert count. induction ps as [|p ps IH]; intros count Hlt; simpl.
  - now rewrite take_nil.
  - destruct (50 <? String.length (PyStr.strip p)) eqn:E.
    + destruct (max - count) as [|k] eqn:Ek; [lia|]. simpl. f_equal.
      destruct (Nat.leb_spec max (S count)) as [Hle|Hgt].
      * assert (k = 0) as -> by lia. now rewrite take_0.
      * rewrite IH by lia. f_equal. lia.
    + now apply IH.
Qed.

Lemma insert_desc_perm x l : TextSummarizer.insert_desc x l ≡ₚ x :: l.
Proof.
  induction l as [|y l IH]; simpl; [reflexivity|].
  destruct (TextSummarizer.tuple_ltb x y); [|reflexivity].
  rewrite IH. apply Permutation_swap.
Qed.

Lemma sort_reverse_perm l : TextSummarizer.sort_reverse l ≡ₚ l.
Proof.
  unfold TextSummarizer.sort_reverse.
  induction l as [|x l IH]; simpl; [reflexivity|].
  now rewrite insert_desc_perm, IH.
Qed.

Lemma score_sentences_from i n sentences x :
  In x (TextSummarizer.score_sentences i n sentences) ->
  exists sentence,
    In sentence sentences
    /\ snd x = PyStr.strip sentence
    /\ 10 <= String.length (snd x).
Proof.
  revert i. induction sentences as [|s rest IH]; intros i H; simpl in H; [contradiction|].
  destruct (Nat.ltb_spec (String.length (PyStr.strip s)) 10) as [Hshort|Hlong].
  - destruct (IH _ H) as (t & Ht & Hx). exists t. split; [now right | exact Hx].
  - destruct H as [<-|H].
    + exists s. simpl. repeat split; [now left | exact Hlong].
    + destruct (IH _ H) as (t & Ht & Hx). exists t. split; [now right | exact Hx].
Qed.

End Lists.

(** X19. The paragraphs [summarize_url] keeps are, in document order, the
    first 5 (free) or 8 (premium) of those whose stripped text is longer
    than 50 characters: never more than the cap, each stripped and longer
    than 50 characters. *)
Theorem good_paragraphs_are_first_long_ones (max_paragraphs : nat)
    (paragraphs : list string) :
  (1 <= max_paragraphs)%nat ->
  let kept := TextSummarizer.good_paragraphs max_paragraphs 0 paragraphs in
  kept = take max_paragraphs
           (List.filter (fun t => (50 <? String.length t)%nat)
              (map PyStr.strip paragraphs))
  /\ (length kept <= max_paragraphs)%nat
  /\ Forall (fun t => (50 < String.length t)%nat) kept.
Proof.
  intros Hmax. cbv zeta. rewrite good_paragraphs_take by lia.
  rewrite Nat.sub_0_r. split; [reflexivity|]. split.
  - rewrite length_take. lia.
  - apply Forall_take. apply List.Forall_forall. intros t Ht.
    apply filter_In in Ht as [_ Ht]. now apply Nat.ltb_lt.
Qed.

(** The statement of X19 with a cap of two paragraphs. *)
Lemma good_paragraphs_are_first_long_ones_witness :
  TextSummarizer.good_paragraphs 2 0
    [Samples.chars "a" 60; "short"; Samples.chars "b" 70; Samples.chars "c" 80]
  = take 2
      (List.filter (fun t => (50 <? String.length t)%nat)
         (map PyStr.strip
            [Samples.chars "a" 60; "short"; Samples.chars "b" 70; Samples.chars "c" 80])).
Proof.
  destruct (good_paragraphs_are_first_long_ones 2
              [Samples.chars "a" 60; "short"; Samples.chars "b" 70; Samples.chars "c" 80])
    as (H & _); [lia | exact H].
Defined.

(** X20. The scored-sentence extraction is extractive: what it joins
    with [". "] are at most three strings, each of them a sentence of the
    text as [split] gave it, stripped, and at least 10 characters long. *)
Theorem top_summary_is_extractive (sentences : list string) :
  exists top,
    TextSummarizer.top_summary sentences = PyStr.join ". " top
    /\ (length top <= 3)%nat
    /\ Forall (fun s => exists sentence,
                   In sentence sentences
                   /\ s = PyStr.strip sentence
                   /\ (10 <= String.length s)%nat) top.
Proof.
  unfold TextSummarizer.top_summary.
  set (scored := TextSummarizer.score_sentences 0 (length sentences) sentences).
  exists (map snd (take 3 (TextSummarizer.sort_reverse scored))).
  split; [reflexivity|]. split.
  - rewrite length_map, length_take. lia.
  - apply List.Forall_forall. intros s Hs.
    apply in_map_iff in Hs as (x & <- & Hx).
    apply list_elem_of_In in Hx. apply elem_of_take in Hx as (i & Hx & _).
    apply list_elem_of_lookup_2 in Hx.
    rewrite sort_reverse_perm in Hx. apply list_elem_of_In in Hx.
    exact (score_sentences_from _ _ _ _ Hx).
Qed.

(** X21. [handle_url] takes the URL from the first entity of type [url]
    or [text_link]: the link target if that entity is a [text_link] with
    a non-empty [url], otherwise the characters of the text the entity
    spans. Entities of other types and all later entities are ignored;
    without such an entity the URL is the stripped text. *)
Theorem url_comes_from_first_link_entity (update : Update) :
  Handlers.extract_url update
  = match List.find Facts.is_link (msg_entities update) with
    | Some ent =>
        if String.eqb (ent_type ent) "text_link" && truthy_str (ent_url ent)
        then default "" (ent_url ent)
        else PyStr.slice (ent_offset ent) (ent_offset ent + ent_length ent)
               (default "" (msg_text update))
    | None => PyStr.strip (default "" (msg_text update))
    end.
Proof.
  unfold Handlers.extract_url.
  generalize (PyStr.strip (default "" (msg_text update))) as url.
  generalize (default "" (msg_text update)) as text.
  induction (msg_entities update) as [|ent rest IH]; intros text url; simpl.
  - reflexivity.
  - unfold Facts.is_link at 1.
    destruct (String.eqb (ent_type ent) "url" || String.eqb (ent_type ent) "text_link");
      [reflexivity | apply IH].
Qed.

(** ** Delivery *)

Section Delivery.
Variable cfg : BotConfig.t.
Variable clk : Clock.
Variable env : Env.
Import Props.
Local Open Scope list_scope.

(** The answer of the media pipeline does not depend on the trace. *)
Lemma eval_download_add_events url uid fmt w evs :
  eval (MediaDownloader.download_youtube_video clk env url uid fmt) (add_events w evs)
  = eval (MediaDownloader.download_youtube_video clk env url uid fmt) w.
Proof.
  unfold eval at 1 2.
  rewrite !download_youtube_video_unfold. cbv zeta.
  assert (He : eval (UserManager.get_user clk uid) (add_events w evs)
               = eval (UserManager.get_user clk uid) w).
  { unfold eval, UserManager.get_user, add_events. simpl.
    now destruct (users w !! UserManager.key_of uid). }
  rewrite He.
  destruct (ydl_enter (ydl env) _); [reflexivity|].
  destruct (extract_info (ydl env) _ url); [reflexivity|].
  destruct (MediaDownloader.over_limit _ _); [reflexivity|].
  destruct (download (ydl env) _ url); reflexivity.
Qed.

(** The three ways a delivery can go. *)
Lemma deliver_video_events filepath duration w :
  exists devs,
    exec (Handlers.deliver_video env filepath duration) w = add_events w devs
    /\ ((duration = None /\ devs = [ReplyText DownloadHandlerError])
        \/ (duration <> None /\ send_video_ok env filepath = true
            /\ devs = [ReplyVideo filepath; RemoveFile filepath])
        \/ (duration <> None /\ send_video_ok env filepath = false
            /\ devs = [ReplyText DownloadCompleteTooLargeToSend])).
Proof.
  unfold Handlers.deliver_video.
  destruct duration as [d|].
  - destruct (send_video_ok env filepath) eqn:Hs.
    + eexists. split.
      * unfold exec, bind, emit, add_events; simpl. rewrite <- app_assoc. reflexivity.
      * right. left. repeat split. discriminate.
    + eexists. split; [reflexivity|]. right. right. repeat split. discriminate.
  - eexists. split; [reflexivity|]. left. now split.
Qed.

(** The events of a media request the gate has allowed. *)
Lemma media_allowed_events update url w wg ug :
  UserManager.can_download cfg clk (effective_user_id update) w = (true, wg) ->
  users wg !! UserManager.key_of (effective_user_id update) = Some ug ->
  trace wg = trace w ->
  let uid := effective_user_id update in
  let w' := exec (Handlers.handle_youtube_download cfg clk env update url) w in
  let opening := [GateChecked Media uid true; ReplyText ProcessingVideo;
                  PipelineCalled Media uid url] in
  exists pevs, Forall pipeline_io pevs /\
    match eval (MediaDownloader.download_youtube_video clk env url uid "video") wg with
    | MediaDownloader.Success filepath _ duration _ _ =>
        exists devs,
          trace w' = trace w ++ opening ++ pevs
                     ++ [PipelineReturned Media uid true; Incremented Media uid]
                     ++ devs ++ [DeleteProcessing]
          /\ usage w' uid = bump Media (usage wg uid)
          /\ ((duration = None /\ devs = [ReplyText DownloadHandlerError])
              \/ (duration <> None /\ send_video_ok env filepath = true
                  /\ devs = [ReplyVideo filepath; RemoveFile filepath])
              \/ (duration <> None /\ send_video_ok env filepath = false
                  /\ devs = [ReplyText DownloadCompleteTooLargeToSend]))
    | MediaDownloader.Failure error =>
        trace w' = trace w ++ opening ++ pevs
                   ++ [PipelineReturned Media uid false;
                       ReplyText (DownloadFailed error); DeleteProcessing]
        /\ usage w' uid = usage wg uid
    end.
Proof.
  intros Hgate Hug Htr. cbv zeta.
  unfold Handlers.handle_youtube_download, bind. unfold exec.
  rewrite Hgate. simpl. rewrite <- !app_assoc. simpl.
  set (uid := effective_user_id update) in *.
  set (w1 := add_events wg [GateChecked Media uid true; ReplyText ProcessingVideo;
                            PipelineCalled Media uid url]).
  change {| users := users wg; disk := disk wg;
            trace := trace wg ++ [GateChecked Media uid true; ReplyText ProcessingVideo;
                                  PipelineCalled Media uid url] |} with w1.
  assert (Hw1 : users w1 !! UserManager.key_of uid = Some ug) by exact Hug.
  destruct (download_youtube_video_effect clk env url uid "video" w1 ug Hw1)
    as (pevs & Hp & Hio).
  exists pevs. split; [exact Hio|].
  assert (Hres : eval (MediaDownloader.download_youtube_video clk env url uid "video") w1
                 = eval (MediaDownloader.download_youtube_video clk env url uid "video") wg).
  { exact (eval_download_add_events url uid "video" wg _). }
  rewrite <- Hres. unfold eval, exec in Hp |- *.
  destruct (MediaDownloader.download_youtube_video clk env url uid "video" w1)
    as [res wp]. simpl in Hp. subst wp. simpl.
  destruct res as [filepath rtitle rduration ruploader rdescr | error].
  - match goal with |- context [UserManager.increment_download _ _ ?x] =>
      set (w2 := x) end.
    assert (Hw2 : users w2 !! UserManager.key_of uid = Some ug) by exact Hug.
    pose proof (usage_increment_download clk uid w2 ug Hw2) as Hus.
    pose proof (trace_increment_download clk uid w2) as Hti.
    pose proof (present_increment_download clk uid w2 ug Hw2) as Hpi.
    unfold exec in Hus, Hti, Hpi.
    destruct (UserManager.increment_download clk uid w2) as [[] wi].
    simpl in Hus, Hti, Hpi.
    erewrite get_user_present by (simpl; exact Hpi).
    match goal with |- context [Handlers.deliver_video _ _ _ ?x] =>
      set (w3 := x) end.
    destruct (deliver_video_events filepath rduration w3) as (devs & Hd & Hcases).
    unfold exec in Hd.
    destruct (Handlers.deliver_video env filepath rduration w3) as [[] wd].
    simpl in Hd. subst wd. simpl.
    exists devs. split; [|split; [exact Hus | exact Hcases]].
    rewrite Hti. subst w2 w1. simpl. rewrite Htr.
    rewrite <- !app_assoc. reflexivity.
  - simpl. split; [|reflexivity].
    subst w1. simpl. rewrite Htr. rewrite <- !app_assoc. reflexivity.
Qed.

End Delivery.

Section GateFacts.
Variable cfg : BotConfig.t.
Variable clk : Clock.

(** The gate leaves a record for the caller and adds no event. *)
Lemma can_download_leaves uid w :
  exists ug,
    users (exec (UserManager.can_download cfg clk uid) w) !! UserManager.key_of uid
    = Some ug
    /\ trace (exec (UserManager.can_download cfg clk uid) w) = trace w.
Proof.
  unfold exec.
  destruct (users w !! UserManager.key_of uid) as [u|] eqn:E.
  - rewrite (can_download_present cfg clk uid w u E).
    destruct (User.is_subscribed u); simpl; [|now exists u].
    rewrite (reset_daily_limits_present clk uid w u E).
    destruct (String.eqb _ _); simpl; [now exists u|].
    eexists. split; [apply lookup_insert_eq | reflexivity].
  - rewrite (can_download_absent cfg clk uid w E). simpl.
    exists (UserManager.new_user clk). split; [|apply get_user_trace].
    unfold exec. rewrite (get_user_absent clk uid w E). apply lookup_insert_eq.
Qed.

End GateFacts.

(** X22. In a media request the downloaded file is removed only after
    the video has been sent, a video is sent only for a download that has
    been counted, and once the pipeline has been called the last thing
    the handler does is to delete its "processing" message. *)
Theorem file_removed_only_after_sent (cfg : BotConfig.t) (clk : Clock) (env : Env)
    (update : Update) (url : string) (w : World) :
  let uid := effective_user_id update in
  let w' := exec (Handlers.handle_youtube_download cfg clk env update url) w in
  exists evs,
    trace w' = (trace w ++ evs)%list
    /\ (forall p, Props.only_after (ReplyVideo p) (RemoveFile p) evs)
    /\ (forall p, Props.only_after (Incremented Media uid) (ReplyVideo p) evs)
    /\ (In (PipelineCalled Media uid url) evs -> last evs = Some DeleteProcessing).
Proof.
  cbv zeta. set (uid := effective_user_id update).
  destruct (can_download_leaves cfg clk uid w) as (ug & Hug & Htr).
  unfold exec in Hug, Htr.
  destruct (UserManager.can_download cfg clk uid w) as [allowed wg] eqn:Hgate.
  simpl in Hug, Htr. destruct allowed.
  - destruct (media_allowed_events cfg clk env update url w wg ug Hgate Hug Htr)
      as (pevs & Hio & Hev).
    fold uid in Hev.
    assert (Hp1 : forall p, Forall (fun e => e <> RemoveFile p) pevs)
      by (intros p; apply pipeline_io_ne; [intros [] | exact Hio]).
    assert (Hp2 : forall p, Forall (fun e => e <> ReplyVideo p) pevs)
      by (intros p; apply pipeline_io_ne; [intros [] | exact Hio]).
    destruct (eval (MediaDownloader.download_youtube_video clk env url uid "video") wg)
      as [filepath rtitle rduration ruploader rdescr | error].
    + destruct Hev as (devs & Ht & _ & Hcases).
      eexists. split; [exact Ht|]. split; [|split].
      * intros p.
        apply (only_after_app_ne _ _ [_; _; _]); [repeat constructor; discriminate|].
        apply only_after_app_ne; [apply Hp1|].
        apply (only_after_app_ne _ _ [_; _]); [repeat constructor; discriminate|].
        destruct Hcases as [[_ ->]|[(_ & _ & ->)|(_ & _ & ->)]]; simpl.
        -- repeat (apply only_after_cons_ne; [discriminate|]). apply only_after_nil.
        -- destruct (string_dec p filepath) as [->|Hne].
           ++ apply only_after_cons_earlier. discriminate.
           ++ repeat (apply only_after_cons_ne; [congruence|]). apply only_after_nil.
        -- repeat (apply only_after_cons_ne; [discriminate|]). apply only_after_nil.
      * intros p.
        apply (only_after_app_ne _ _ [_; _; _]); [repeat constructor; discriminate|].
        apply only_after_app_ne; [apply Hp2|].
        apply only_after_cons_ne; [discriminate|].
        apply only_after_cons_earlier. discriminate.
      * intros _. rewrite !app_assoc. apply last_snoc.
    + destruct Hev as [Ht _].
      eexists. split; [exact Ht|]. split; [|split].
      * intros p.
        apply (only_after_app_ne _ _ [_; _; _]); [repeat constructor; discriminate|].
        apply only_after_app_ne; [apply Hp1|].
        repeat (apply only_after_cons_ne; [discriminate|]). apply only_after_nil.
      * intros p.
        apply (only_after_app_ne _ _ [_; _; _]); [repeat constructor; discriminate|].
        apply only_after_app_ne; [apply Hp2|].
        repeat (apply only_after_cons_ne; [discriminate|]). apply only_after_nil.
      * intros _.
        change [PipelineReturned Media uid false; ReplyText (DownloadFailed error);
                DeleteProcessing]
          with ([PipelineReturned Media uid false; ReplyText (DownloadFailed error)]
                ++ [DeleteProcessing])%list.
        rewrite !app_assoc. apply last_snoc.
  - pose proof (media_blocked cfg clk env update url w wg ug Hgate Hug) as Hb.
    rewrite Hb. eexists. split; [simpl; rewrite Htr; reflexivity|].
    split; [|split].
    + intros p. repeat (apply only_after_cons_ne; [discriminate|]). apply only_after_nil.
    + intros p. repeat (apply only_after_cons_ne; [discriminate|]). apply only_after_nil.
    + intros Hin. simpl in Hin. exfalso. intuition discriminate.
Qed.

(** X23. A download the pipeline has completed is counted before it is
    delivered, and stays counted when the delivery fails: if the gate
    allows the request, the pipeline succeeds, and either the metadata
    has no duration or the sending of the video fails, then the counters
    are raised by one, no video is sent, and the downloaded file is not
    removed. *)
Theorem counted_though_not_delivered (cfg : BotConfig.t) (clk : Clock) (env : Env)
    (update : Update) (url : string) (w : World)
    (filepath : string) (rtitle : option string) (rduration : option Z)
    (ruploader : option string) (rdescription : string) :
  let uid := effective_user_id update in
  let wg := exec (UserManager.can_download cfg clk uid) w in
  let w' := exec (Handlers.handle_youtube_download cfg clk env update url) w in
  eval (UserManager.can_download cfg clk uid) w = true ->
  eval (MediaDownloader.download_youtube_video clk env url uid "video") wg
  = MediaDownloader.Success filepath rtitle rduration ruploader rdescription ->
  rduration = None \/ send_video_ok env filepath = false ->
  exists evs,
    trace w' = (trace w ++ evs)%list
    /\ In (Incremented Media uid) evs
    /\ (forall p, ~ In (ReplyVideo p) evs)
    /\ (forall p, ~ In (RemoveFile p) evs)
    /\ Props.usage w' uid = Props.bump Media (Props.usage wg uid).
Proof.
  cbv zeta. set (uid := effective_user_id update).
  intros Hallowed Hres Hfail.
  destruct (can_download_leaves cfg clk uid w) as (ug & Hug & Htr).
  unfold eval in Hallowed. unfold exec in Hug, Htr, Hres |- *.
  destruct (UserManager.can_download cfg clk uid w) as [allowed wg] eqn:Hgate.
  simpl in Hug, Htr, Hallowed, Hres |- *. subst allowed.
  destruct (media_allowed_events cfg clk env update url w wg ug Hgate Hug Htr)
    as (pevs & Hio & Hev).
  fold uid in Hev. rewrite Hres in Hev.
  destruct Hev as (devs & Ht & Hus & Hcases).
  unfold exec in Ht, Hus.
  assert (Hdevs : devs = [ReplyText DownloadHandlerError]
                  \/ devs = [ReplyText DownloadCompleteTooLargeToSend]).
  { destruct Hcases as [[_ ->]|[(Hd & Hs & _)|(_ & _ & ->)]];
      [now left | | now right].
    destruct Hfail as [Hn|Hn]; [contradiction | congruence]. }
  assert (Hio' : forall e, In e pevs -> Props.pipeline_io e).
  { intros e He. rewrite Forall_forall in Hio. apply Hio. now apply list_elem_of_In. }
  eexists. split; [exact Ht|]. split; [|split; [|split; [|exact Hus]]].
  - apply in_or_app. right. apply in_or_app. right. right. now left.
  - intros p Hin.
    apply in_app_or in Hin as [Hin|Hin]; [simpl in Hin; intuition discriminate|].
    apply in_app_or in Hin as [Hin|Hin]; [exact (Hio' _ Hin)|].
    apply in_app_or in Hin as [Hin|Hin]; [simpl in Hin; intuition discriminate|].
    apply in_app_or in Hin as [Hin|Hin]; [|simpl in Hin; intuition discriminate].
    destruct Hdevs as [-> | ->]; simpl in Hin; intuition discriminate.
  - intros p Hin.
    apply in_app_or in Hin as [Hin|Hin]; [simpl in Hin; intuition discriminate|].
    apply in_app_or in Hin as [Hin|Hin]; [exact (Hio' _ Hin)|].
    apply in_app_or in Hin as [Hin|Hin]; [simpl in Hin; intuition discriminate|].
    apply in_app_or in Hin as [Hin|Hin]; [|simpl in Hin; intuition discriminate].
    destruct Hdevs as [-> | ->]; simpl in Hin; intuition discriminate.
Qed.

(** The statement of X23 for the free user 42 when the sending fails:
    the download is counted, the trace has no sent video and no removed
    file. *)
Lemma counted_though_not_delivered_witness :
  let env := Facts.env_send_fails (Samples.info_of Absent Absent Absent) in
  let update := Samples.update_of 42 "https://youtu.be/abc123" in
  let w' := exec (Handlers.handle_youtube_download BotConfig.default Samples.clock env
                    update "https://youtu.be/abc123") Samples.fresh_world in
  Props.usage w' 42 = (1, 0, 8, 9)
  /\ exists evs, trace w' = ([] ++ evs)%list /\ forall p, ~ In (RemoveFile p) evs.
Proof.
  destruct (counted_though_not_delivered BotConfig.default Samples.clock
              (Facts.env_send_fails (Samples.info_of Absent Absent Absent))
              (Samples.update_of 42 "https://youtu.be/abc123")
              "https://youtu.be/abc123" Samples.fresh_world
              "downloads/Clip_abc123.mp4" (Some "Clip") (Some 95) (Some "Channel") "")
    as (evs & Ht & _ & _ & Hrm & Hus).
  - reflexivity.
  - reflexivity.
  - right. reflexivity.
  - cbv zeta. split; [exact Hus|]. exists evs. split; [exact Ht | exact Hrm].
Defined.

(** ** File names *)

Section FileNames.
Import Facts.

Lemma before_last_dot_none ext :
  no_dot ext -> MediaDownloader.before_last_dot ext = None.
Proof.
  unfold no_dot. induction ext as [|c ext IH]; intros H; simpl; [reflexivity|].
  rewrite IH by (intros Hin; apply H; now right).
  destruct (Ascii.eqb_spec c "."); [|reflexivity].
  exfalso. apply H. now left.
Qed.

Lemma before_last_dot_app stem ext :
  no_dot ext ->
  MediaDownloader.before_last_dot (stem +:+ "." +:+ ext) = Some stem.
Proof.
  intros H. induction stem as [|c stem IH].
  - change ("" +:+ "." +:+ ext) with (String "." ext). simpl.
    now rewrite (before_last_dot_none ext H).
  - change (String c stem +:+ "." +:+ ext) with (String c (stem +:+ "." +:+ ext)).
    simpl. now rewrite IH.
Qed.

End FileNames.

(** X24. For an audio request the path of a successful result is the
    name yt-dlp prepared with its extension replaced by [.mp3]: a name
    [stem.ext] whose extension has no dot becomes [stem.mp3], and a name
    without any dot gets [.mp3] appended. *)
Theorem audio_path_has_mp3_extension (clk : Clock) (env : Env) (url : string)
    (uid : Z) (w : World) (info : Info) (stem ext : string)
    (filepath : string) (rtitle : option string) (rduration : option Z)
    (ruploader : option string) (rdescription : string) :
  let premium := User.is_premium (eval (UserManager.get_user clk uid) w) in
  let opts := MediaDownloader.audio_opts premium in
  extract_info (ydl env) opts url = inr info ->
  Facts.no_dot ext ->
  eval (MediaDownloader.download_youtube_video clk env url uid "audio") w
  = MediaDownloader.Success filepath rtitle rduration ruploader rdescription ->
  (prepare_filename (ydl env) opts info = stem +:+ "." +:+ ext ->
   filepath = stem +:+ ".mp3")
  /\ (prepare_filename (ydl env) opts info = ext -> filepath = ext +:+ ".mp3")
  /\ preferredquality opts = Some (if premium then "320" else "128").
Proof.
  cbv zeta. intros Hinfo Hext Hres.
  pose proof (download_youtube_video_unfold clk env url uid "audio" w) as Hu.
  cbv zeta in Hu. change ("audio" =? "audio")%string with true in Hu. cbv iota in Hu.
  unfold eval in Hres. rewrite Hu in Hres. clear Hu. fold (eval (UserManager.get_user clk uid) w) in Hres. rewrite Hinfo in Hres.
  destruct (ydl_enter (ydl env) _); [discriminate|].
  destruct (MediaDownloader.over_limit _ _); [discriminate|].
  destruct (download (ydl env) _ url); [discriminate|].
  simpl in Hres. injection Hres as <- _ _ _ _.
  split; [|split].
  - intros ->. unfold MediaDownloader.rsplit_dot_head.
    now rewrite (before_last_dot_app stem ext Hext).
  - intros ->. unfold MediaDownloader.rsplit_dot_head.
    now rewrite (before_last_dot_none ext Hext).
  - now destruct (User.is_premium _).
Qed.

(** The statement of X24 for the sample yt-dlp, which prepares
    [downloads/Clip_abc123.mp4]. *)
Lemma audio_path_has_mp3_extension_witness :
  eval (MediaDownloader.download_youtube_video Samples.clock
          (Samples.env_of (Samples.info_of Absent Absent Absent))
          "https://youtu.be/abc123" 42 "audio") Samples.fresh_world
  = MediaDownloader.Success "downloads/Clip_abc123.mp3" (Some "Clip") (Some 95)
      (Some "Channel") ""
  /\ "downloads/Clip_abc123.mp3" = "downloads/Clip_abc123" +:+ ".mp3".
Proof.
  destruct (audio_path_has_mp3_extension Samples.clock
              (Samples.env_of (Samples.info_of Absent Absent Absent))
              "https://youtu.be/abc123" 42 Samples.fresh_world
              (Samples.info_of Absent Absent Absent) "downloads/Clip_abc123" "mp4"
              "downloads/Clip_abc123.mp3" (Some "Clip") (Some 95) (Some "Channel") "")
    as (H & _).
  - reflexivity.
  - unfold Facts.no_dot. simpl. intuition discriminate.
  - reflexivity.
  - split; [reflexivity | apply H; reflexivity].
Defined.

(** ** Words *)

Section Words.
Import Facts.

Lemma list_ascii_app a b :
  list_ascii_of_string (a +:+ b) = (list_ascii_of_string a ++ list_ascii_of_string b)%list.
Proof.
  induction a as [|c a IH]; [reflexivity|].
  change (String c a +:+ b) with (String c (a +:+ b)). simpl. now rewrite IH.
Qed.

Lemma no_space_snoc cur c :
  no_space cur -> PyStr.isspace c = false -> no_space (PyStr.snoc cur c).
Proof.
  intros Hc Hs x Hx. unfold PyStr.snoc in Hx. rewrite list_ascii_app in Hx.
  apply in_app_or in Hx as [Hx|[<-|[]]]; [now apply Hc | exact Hs].
Qed.

Lemma snoc_not_empty cur c : PyStr.is_empty (PyStr.snoc cur c) = false.
Proof. now destruct cur. Qed.

Lemma is_empty_false s : s <> "" -> PyStr.is_empty s = false.
Proof. now destruct s. Qed.

(** What [words_aux] returns are words, if the piece in progress has no
    whitespace. *)
Lemma words_aux_are_words cur s :
  no_space cur -> Forall is_word (PyStr.words_aux cur s).
Proof.
  revert cur. induction s as [|c s IH]; intros cur Hc; simpl.
  - destruct cur as [|x cur]; simpl; [constructor|].
    repeat constructor; [discriminate | exact Hc].
  - destruct (PyStr.isspace c) eqn:Hs.
    + destruct cur as [|x cur]; simpl.
      * apply IH. intros ? [].
      * constructor; [split; [discriminate | exact Hc]|]. apply IH. intros ? [].
    + apply IH. now apply no_space_snoc.
Qed.

(** A word is read in one go. *)
Lemma words_aux_word cur word rest :
  no_space word ->
  PyStr.words_aux cur (word +:+ rest) = PyStr.words_aux (cur +:+ word) rest.
Proof.
  revert cur. induction word as [|c word IH]; intros cur Hw.
  - now rewrite append_nil_r.
  - change (String c word +:+ rest) with (String c (word +:+ rest)). simpl.
    rewrite (Hw c) by now left.
    rewrite IH by (intros x Hx; apply Hw; now right).
    now rewrite snoc_app.
Qed.

(** Splitting the words joined by single spaces gives the words back. *)
Lemma words_join ws :
  Forall is_word ws -> PyStr.words (PyStr.join " " ws) = ws.
Proof.
  unfold PyStr.words, PyStr.join.
  induction 1 as [|word ws [Hne Hns] Hws IH]; [reflexivity|].
  destruct ws as [|word2 ws].
  - change (String.concat " " [word]) with word.
    rewrite <- (append_nil_r word) at 1.
    rewrite (words_aux_word "" word "" Hns).
    change ("" +:+ word) with word.
    destruct word; [congruence | reflexivity].
  - change (String.concat " " (word :: word2 :: ws))
      with (word +:+ String " " (String.concat " " (word2 :: ws))).
    rewrite (words_aux_word "" word _ Hns).
    change ("" +:+ word) with word.
    change (PyStr.words_aux word (String " " (String.concat " " (word2 :: ws))))
      with (if PyStr.is_empty word
            then PyStr.words_aux "" (String.concat " " (word2 :: ws))
            else word :: PyStr.words_aux "" (String.concat " " (word2 :: ws))).
    rewrite (is_empty_false word Hne). now rewrite IH.
Qed.

End Words.

(** X25. For a text of more than 50 words the head-truncation strategy
    returns the first 50 words of the text, separated by single spaces
    and followed by ["..."]: splitting what precedes the ellipsis into
    words gives exactly the first 50 words of the text. The output limit
    plays no part. *)
Theorem head_truncation_keeps_first_50_words (text : string) (max_length : Z) :
  (50 < length (PyStr.words text))%nat ->
  exists body,
    TextSummarizer.summarize_with_simple_method text max_length
    = TextSummarizer.Success (body +:+ "...")
    /\ body = PyStr.join " " (take 50 (PyStr.words text))
    /\ PyStr.words body = take 50 (PyStr.words text).
Proof.
  intros Hmany. unfold TextSummarizer.summarize_with_simple_method.
  destruct (Nat.leb_spec (length (PyStr.words text)) 50) as [Hle|_]; [lia|].
  rewrite Nat.min_l by lia.
  eexists. split; [reflexivity|]. split; [reflexivity|].
  apply words_join. apply Forall_take.
  apply words_aux_are_words. intros c [].
Qed.

(** The statement of X25 on sixty words. *)
Lemma head_truncation_keeps_first_50_words_witness :
  exists body,
    TextSummarizer.summarize_with_simple_method Facts.sixty_words 300
    = TextSummarizer.Success (body +:+ "...")
    /\ PyStr.words body = repeat "word" 50.
Proof.
  destruct (head_truncation_keeps_first_50_words Facts.sixty_words 300)
    as (body & Hr & _ & Hw).
  - vm_compute. lia.
  - exists body. split; [exact Hr|]. rewrite Hw. vm_compute. reflexivity.
Defined.
